(** * Tenant isolation and plan-gated authorization: a shallow embedding

    The definitions below follow the server sources:
    - [server/src/utils/AppError.ts]      (AppError, asyncHandler, createAuditLog)
    - [server/src/middleware/errorHandler.ts]
    - [server/src/middleware/auth.ts]     (authenticateToken)
    - [server/src/middleware/tenant.ts]   (tenantMiddleware)
    - [server/src/middleware/planAccess.ts] (ACCOUNT_MODULES, ACCOUNT_LIMITS,
      checkAccountAccess, checkAccountLimits, getSuggestedAccounts)
    - [server/src/routes/auth.routes.ts]  (login, register, refresh)
    - [server/src/routes/upload.routes.ts] (single, file/:id, files)
    - [server/src/routes/admin.routes.ts] (the login token, tenants/:id/users,
      users/:id)

    Database tables keyed by their primary key are finite maps; tables that
    are scanned are lists of rows.  Exceptions are an error monad, express
    middleware returns an [Outcome], and the clock ([new Date()]) is an
    explicit argument.  A middleware or handler is given one reading of the
    clock and of the store; where a chain is composed, each composition
    says which readings its parts share. *)

From stdpp Require Import gmap strings list fin_maps pretty.

Set Warnings "-register-all".
Local Open Scope string_scope.
Local Open Scope list_scope.
Local Open Scope Z_scope.

(** ** Tokens, symbolically

    A token is either unparsable text or a payload together with the key
    that signed it and its [iat]/[exp] stamps (seconds).  Signatures are
    ideal: a token verifies under exactly the key it was signed with.

    [Claims] holds the members of a payload that some handler writes or
    reads; each is [None] when the payload has no such string member. *)

Record Claims := mkClaims {
  c_userId : option string;
  c_tenantId : option string;
  c_accountType : option string;
  c_type : option string
}.

Inductive Jwt :=
| Garbage (raw : string)
| Signed (key : string) (claims : Claims) (iat exp : Z).

(** ** JSON values and HTTP responses

    [JJwt] is a JSON string that holds a serialized token. *)

Inductive Json :=
| JNull
| JBool (b : bool)
| JNum (n : Z)
| JStr (s : string)
| JJwt (t : Jwt)
| JArr (xs : list Json)
| JObj (fields : list (string * Json)).

(** [JSON.stringify] drops members whose value is [undefined]. *)
Definition jopt (k : string) (v : option Json) : list (string * Json) :=
  match v with Some j => [(k, j)] | None => [] end.

Definition jstrs (l : list string) : Json := JArr (JStr <$> l).

Inductive Payload :=
| PJson (j : Json)
| PFile (path : string).

Record Response := mkResponse {
  status : Z;
  headers : list (string * string);
  payload : Payload
}.

(** [res.status(n).json(j)] and [res.json(j)] (status 200). *)
Definition res_status_json (n : Z) (j : Json) : Response :=
  mkResponse n [] (PJson j).
Definition res_json (j : Json) : Response := res_status_json 200 j.

(** ** Thrown values and the error monad *)

Inductive Thrown :=
| AppError (message : string) (statusCode : Z)
| ZodError (issues : list (string * string))
| OtherError (name : string) (code : option string)
             (target : option string) (message stack : string).

Definition TypeError (message : string) : Thrown :=
  OtherError "TypeError" None None message "".

Inductive Result (A : Type) :=
| Ok (a : A)
| Throw (e : Thrown).
Arguments Ok {A} a.
Arguments Throw {A} e.

#[global] Instance Result_bind : MBind Result := λ A B k m,
  match m with
  | Ok a => k a
  | Throw e => Throw e
  end.

#[global] Instance Result_ret : MRet Result := λ A a, Ok a.

(** [try { body } catch (error) { handler }] *)
Definition try_catch {A} (body : Result A) (handler : Thrown → Result A) : Result A :=
  match body with
  | Ok a => Ok a
  | Throw e => handler e
  end.

(** [if (c) throw e] *)
Definition throw_if (c : bool) (e : Thrown) : Result unit :=
  if c then Throw e else Ok tt.

(** ** Process environment *)

Record Env := mkEnv {
  JWT_SECRET : option string;
  JWT_REFRESH_SECRET : option string;
  NODE_ENV : option string
}.

(** [process.env.X || dflt]: an unset or empty variable yields the default. *)
Definition env_or (v : option string) (dflt : string) : string :=
  match v with
  | None => dflt
  | Some s => if bool_decide (s = "") then dflt else s
  end.

Definition access_secret (env : Env) : string :=
  env_or (JWT_SECRET env) "your_jwt_secret_key".
Definition refresh_secret (env : Env) : string :=
  env_or (JWT_REFRESH_SECRET env) "your_refresh_secret_key_super_secure_2024_production".

(** ** errorHandler (middleware/errorHandler.ts) *)

Definition errorHandler (env : Env) (error : Thrown) : Response :=
  match error with
  | AppError message statusCode =>
      res_status_json statusCode
        (JObj [("status", JStr "error"); ("message", JStr message);
               ("code", JStr "AppError")])
  | ZodError issues =>
      res_status_json 400
        (JObj [("status", JStr "error"); ("message", JStr "Erro de validação");
               ("details",
                JArr ((fun i => JObj [("field", JStr i.1); ("message", JStr i.2)])
                        <$> issues))])
  | OtherError name code target message stack =>
      let dev := bool_decide (NODE_ENV env = Some "development") in
      if bool_decide (name = "PrismaClientValidationError") then
        res_status_json 400
          (JObj ([("status", JStr "error");
                  ("message", JStr "Erro de validação nos dados enviados")]
                 ++ jopt "details" (if dev then Some (JStr message) else None)))
      else if bool_decide (name = "PrismaClientKnownRequestError")
              && bool_decide (code = Some "P2002") then
        res_status_json 409
          (JObj [("status", JStr "error");
                 ("message", JStr "Registro duplicado encontrado");
                 ("field", JStr (match target with
                                 | Some t => if bool_decide (t = "") then "campo único" else t
                                 | None => "campo único"
                                 end))])
      else if bool_decide (name = "PrismaClientKnownRequestError")
              && bool_decide (code = Some "P2025") then
        res_status_json 404
          (JObj [("status", JStr "error");
                 ("message", JStr "Registro não encontrado")])
      else if bool_decide (name = "JsonWebTokenError") then
        res_status_json 401
          (JObj [("status", JStr "error"); ("message", JStr "Token inválido")])
      else if bool_decide (name = "TokenExpiredError") then
        res_status_json 401
          (JObj [("status", JStr "error"); ("message", JStr "Token expirado")])
      else
        res_status_json 500
          (JObj ([("status", JStr "error");
                  ("message", JStr "Erro interno do servidor")]
                 ++ (if dev then [("details", JStr message); ("stack", JStr stack)]
                     else [])))
  end.

(** Express middleware either hands over to the next handler (possibly
    with an updated request), forwards an error with [next(error)], or
    answers itself. *)
Inductive Outcome (R : Type) :=
| Next (req : R)
| NextErr (e : Thrown)
| Respond (r : Response).
Arguments Next {R} req.
Arguments NextErr {R} e.
Arguments Respond {R} r.

(** [asyncHandler(fn)]: a rejected promise is forwarded with [next], and
    the error handler mounted last turns it into the response. *)
Definition asyncHandler (env : Env) (r : Result Response) : Response :=
  match r with
  | Ok resp => resp
  | Throw e => errorHandler env e
  end.

(** ** jsonwebtoken: signing and verification *)

Definition JsonWebTokenError (message : string) : Thrown :=
  OtherError "JsonWebTokenError" None None message "".
Definition TokenExpiredError : Thrown :=
  OtherError "TokenExpiredError" None None "jwt expired" "".

Definition error_name (e : Thrown) : string :=
  match e with
  | AppError _ _ => "AppError"
  | ZodError _ => "ZodError"
  | OtherError name _ _ _ _ => name
  end.

(** In jsonwebtoken [TokenExpiredError] (and [NotBeforeError]) inherit from
    [JsonWebTokenError], so [instanceof JsonWebTokenError] holds for them. *)
Definition instanceof_JsonWebTokenError (e : Thrown) : bool :=
  bool_decide (error_name e ∈ ["JsonWebTokenError"; "TokenExpiredError"; "NotBeforeError"]).
Definition instanceof_TokenExpiredError (e : Thrown) : bool :=
  bool_decide (error_name e = "TokenExpiredError").

(** [jwt.sign(claims, secret, { expiresIn })] at clock [now] (milliseconds);
    [expiresIn] in seconds. *)
Definition jwt_sign (claims : Claims) (secret : string) (expiresIn now : Z) : Jwt :=
  Signed secret claims (now `div` 1000) (now `div` 1000 + expiresIn).

(** [jwt.verify(token, secret)] at clock [now]. *)
Definition jwt_verify (token : Jwt) (secret : string) (now : Z) : Result Claims :=
  match token with
  | Garbage _ => Throw (JsonWebTokenError "jwt malformed")
  | Signed key claims _ exp =>
      if negb (bool_decide (key = secret)) then
        Throw (JsonWebTokenError "invalid signature")
      else if bool_decide (exp ≤ now `div` 1000) then Throw TokenExpiredError
      else Ok claims
  end.

Definition hours (n : Z) : Z := n * 3600.
Definition days (n : Z) : Z := n * 86400.

(** ** Database rows and the store *)

Inductive AccountType := SIMPLE | COMPOSITE | MANAGERIAL.

#[global] Instance AccountType_eq_dec : EqDecision AccountType.
Proof. solve_decision. Defined.

Definition account_name (a : AccountType) : string :=
  match a with
  | SIMPLE => "SIMPLE"
  | COMPOSITE => "COMPOSITE"
  | MANAGERIAL => "MANAGERIAL"
  end.

Record Tenant := mkTenant {
  t_id : string;
  t_companyName : string;
  t_planType : AccountType;   (* PlanType has the same three values *)
  t_isActive : bool;
  t_expiresAt : option Z;
  maxSimpleAccounts : Z;
  maxCompositeAccounts : Z;
  maxManagerialAccounts : Z
}.

(** A row of [users] with the columns some handler reads or writes;
    [createdAt] and [updatedAt], which only the database client maintains,
    are left out. *)
Record User := mkUser {
  u_id : string;
  u_email : string;
  u_name : option string;
  u_passwordHash : string;
  u_accountType : AccountType;
  u_isActive : bool;
  u_tenantId : string;
  u_lastLogin : option Z
}.

Record File := mkFile {
  f_id : string;
  f_filename : string;
  f_originalName : string;
  f_mimetype : string;
  f_size : Z;
  f_path : string;
  f_tenantId : string;
  f_uploadedBy : string;
  f_createdAt : Z
}.

Record Client := mkClient { cl_id : string; cl_name : string; cl_tenantId : string }.
Record Project := mkProject { pr_id : string; pr_title : string; pr_tenantId : string }.

Record AuditLog := mkAuditLog {
  a_userId : string;
  a_tenantId : string;
  a_action : string;
  a_resourceType : string;
  a_resourceId : string;
  a_details : Json
}.

(** [auditFault] injects a failure of the audit table: when set,
    [prisma.auditLog.create] rejects with that error.  [disk] lists the
    paths for which [fs.existsSync] answers true. *)
Record Store := mkStore {
  users : gmap string User;
  tenants : gmap string Tenant;
  files : list File;
  clients : list Client;
  projects : list Project;
  auditLogs : list AuditLog;
  auditFault : option Thrown;
  disk : list string
}.

Definition set_users (f : gmap string User → gmap string User) (db : Store) : Store :=
  mkStore (f (users db)) (tenants db) (files db) (clients db) (projects db)
          (auditLogs db) (auditFault db) (disk db).
Definition set_tenants (f : gmap string Tenant → gmap string Tenant) (db : Store) : Store :=
  mkStore (users db) (f (tenants db)) (files db) (clients db) (projects db)
          (auditLogs db) (auditFault db) (disk db).
Definition set_files (f : list File → list File) (db : Store) : Store :=
  mkStore (users db) (tenants db) (f (files db)) (clients db) (projects db)
          (auditLogs db) (auditFault db) (disk db).
Definition set_auditLogs (f : list AuditLog → list AuditLog) (db : Store) : Store :=
  mkStore (users db) (tenants db) (files db) (clients db) (projects db)
          (f (auditLogs db)) (auditFault db) (disk db).
Definition set_auditFault (e : option Thrown) (db : Store) : Store :=
  mkStore (users db) (tenants db) (files db) (clients db) (projects db)
          (auditLogs db) e (disk db).

(** The [tenant] relation loaded by [include: { tenant: ... }].  The
    foreign key makes it present; reading a field of a missing one is a
    TypeError. *)
Definition user_tenant (db : Store) (user : User) : Result Tenant :=
  match tenants db !! u_tenantId user with
  | Some t => Ok t
  | None => Throw (TypeError "Cannot read properties of null")
  end.

(** The database client checks a query's arguments before it sends the
    query, and rejects with this error.  The text of [message] is the
    client's; the error handler shows it in development mode only. *)
Definition prisma_validation_error (message : string) : Thrown :=
  OtherError "PrismaClientValidationError" None None message "".

(** [prisma.user.findUnique({ where: { id } })]: without an [id] the
    [where] argument names no unique field and the client rejects the
    query; otherwise the row under that primary key, or [null]. *)
Definition missing_where_id : Thrown :=
  prisma_validation_error
    "Argument `where` needs at least one of `id` or `email` arguments.".

Definition user_findUnique (db : Store) (id : option string) : Result (option User) :=
  match id with
  | None => Throw missing_where_id
  | Some id => Ok (users db !! id)
  end.

(** [expiresAt && expiresAt < new Date()] *)
Definition tenant_expired (t : Tenant) (now : Z) : bool :=
  match t_expiresAt t with
  | Some e => bool_decide (e < now)
  | None => false
  end.

(** ** Requests *)

Record TokenPayload := mkTokenPayload {
  userId : string;
  tenantId : string;
  accountType : string
}.

(** [authorization] is the header as [split(' ')] sees it: the list of its
    space-separated words. *)
Record Request := mkRequest {
  authorization : option (list Jwt);
  user : option TokenPayload;
  tenant : option Tenant
}.

Definition with_user (u : TokenPayload) (req : Request) : Request :=
  mkRequest (authorization req) (Some u) (tenant req).
Definition with_tenant (t : Tenant) (req : Request) : Request :=
  mkRequest (authorization req) (user req) (Some t).

(** [!token]: undefined or the empty string. *)
Definition no_token (token : option Jwt) : bool :=
  match token with
  | None => true
  | Some (Garbage raw) => bool_decide (raw = "")
  | Some (Signed _ _ _ _) => false
  end.

(** The second word of the header: [authHeader?.split(' ')[1]]. *)
Definition bearer_token (req : Request) : option Jwt :=
  authorization req ≫= (λ words, words !! 1%nat).

(** The object stored in [req.user], built from the user row. *)
Definition req_user (user : User) : TokenPayload :=
  {| userId := u_id user;
     tenantId := u_tenantId user;
     accountType := account_name (u_accountType user) |}.

(** ** authenticateToken (middleware/auth.ts) *)

Definition authenticate_body (env : Env) (db : Store) (now : Z) (req : Request)
  : Result Request :=
  let token := bearer_token req in
  throw_if (no_token token) (AppError "Token de autenticação não fornecido" 401) ;;
  decoded ← jwt_verify (default (Garbage "") token) (access_secret env) now;
  user ← user_findUnique db (c_userId decoded);
  match user with
  | None => Throw (AppError "Usuário não encontrado ou inativo" 401)
  | Some user =>
      throw_if (negb (u_isActive user))
               (AppError "Usuário não encontrado ou inativo" 401) ;;
      tenant ← user_tenant db user;
      throw_if (negb (t_isActive tenant)) (AppError "Empresa inativa" 403) ;;
      throw_if (tenant_expired tenant now) (AppError "Plano da empresa expirou" 403) ;;
      Ok (with_user (req_user user) req)
  end.

Definition authenticateToken (env : Env) (db : Store) (now : Z) (req : Request)
  : Outcome Request :=
  match authenticate_body env db now req with
  | Ok req' => Next req'
  | Throw error =>
      if instanceof_JsonWebTokenError error then NextErr (AppError "Token inválido" 401)
      else if instanceof_TokenExpiredError error then NextErr (AppError "Token expirado" 401)
      else NextErr error
  end.

(** ** tenantMiddleware (middleware/tenant.ts) *)

Definition tenantMiddleware (db : Store) (now : Z) (req : Request) : Outcome Request :=
  let body : Result Request :=
    match user req with
    | None => Throw (AppError "Tenant ID não encontrado" 401)
    | Some u =>
        throw_if (bool_decide (tenantId u = "")) (AppError "Tenant ID não encontrado" 401) ;;
        match tenants db !! tenantId u with
        | None => Throw (AppError "Empresa não encontrada" 404)
        | Some tenant =>
            throw_if (negb (t_isActive tenant)) (AppError "Empresa inativa" 403) ;;
            throw_if (tenant_expired tenant now) (AppError "Plano da empresa expirou" 403) ;;
            Ok (with_tenant tenant req)
        end
    end in
  match body with
  | Ok req' => Next req'
  | Throw error => NextErr error
  end.

(** ** Property lookup on a JavaScript object literal

    [obj[key]] with an arbitrary string key yields the own property when
    there is one, a member inherited from [Object.prototype] for the names
    below, and [undefined] otherwise. *)

Inductive JsProp (A : Type) :=
| Own (a : A)
| Inherited
| Undefined.
Arguments Own {A} a.
Arguments Inherited {A}.
Arguments Undefined {A}.

Definition Object_prototype_names : list string :=
  ["constructor"; "__defineGetter__"; "__defineSetter__"; "hasOwnProperty";
   "__lookupGetter__"; "__lookupSetter__"; "isPrototypeOf";
   "propertyIsEnumerable"; "toString"; "valueOf"; "__proto__"; "toLocaleString"].

Fixpoint own_property {A} (o : list (string * A)) (k : string) : option A :=
  match o with
  | [] => None
  | (k', v) :: o' => if bool_decide (k' = k) then Some v else own_property o' k
  end.

Definition js_get {A} (o : list (string * A)) (k : string) : JsProp A :=
  match own_property o k with
  | Some v => Own v
  | None => if bool_decide (k ∈ Object_prototype_names) then Inherited else Undefined
  end.

(** [Array.prototype.includes] on strings. *)
Definition includes (l : list string) (x : string) : bool := bool_decide (x ∈ l).

(** ** planAccess.ts: the static tables *)

Definition ACCOUNT_MODULES : list (string * list string) :=
  [("SIMPLE",
    ["crm"; "clients"; "projects"; "tasks"; "billing"; "basic_settings"]);
   ("COMPOSITE",
    ["crm"; "clients"; "projects"; "tasks"; "billing"; "cash_flow";
     "transactions"; "dashboard"; "basic_settings"]);
   ("MANAGERIAL",
    ["crm"; "clients"; "projects"; "tasks"; "billing"; "cash_flow";
     "transactions"; "dashboard"; "user_management"; "advanced_settings";
     "audit_logs"])].

Record Limits := mkLimits {
  maxClients : Z;
  maxProjects : Z;
  maxStorage : Z;
  features : list (string * bool)
}.

Definition ACCOUNT_LIMITS : list (string * Limits) :=
  [("SIMPLE",
    mkLimits 50 25 (1024 * 1024 * 100)
      [("dashboard_financial", false); ("cash_flow", false);
       ("user_management", false); ("advanced_reports", false)]);
   ("COMPOSITE",
    mkLimits 200 100 (1024 * 1024 * 500)
      [("dashboard_financial", true); ("cash_flow", true);
       ("user_management", false); ("advanced_reports", false)]);
   ("MANAGERIAL",
    mkLimits (-1) (-1) (1024 * 1024 * 1024 * 5)
      [("dashboard_financial", true); ("cash_flow", true);
       ("user_management", true); ("advanced_reports", true)])].

(** ** getSuggestedAccounts: [Object.entries(...).forEach] with [push] *)

Definition getSuggestedAccounts (requiredModule : string) : list string :=
  fold_left
    (λ suggestions entry,
       if includes entry.2 requiredModule then suggestions ++ [entry.1]
       else suggestions)
    ACCOUNT_MODULES [].

Definition accountLevels : list (string * Z) :=
  [("SIMPLE", 1); ("COMPOSITE", 2); ("MANAGERIAL", 3)].

(** [level > currentLevel] where [currentLevel] may be [undefined] or an
    inherited function: the comparison is then against NaN and false. *)
Definition getSuggestedAccountsForLimit (resourceType currentAccount : string)
  : list string :=
  let currentLevel := js_get accountLevels currentAccount in
  fold_left
    (λ suggestions entry,
       if match currentLevel with
          | Own c => bool_decide (c < entry.2)
          | _ => false
          end
       then suggestions ++ [entry.1]
       else suggestions)
    accountLevels [].

Definition internal_error : Response :=
  res_status_json 500
    (JObj [("error", JStr "Erro interno do servidor"); ("code", JStr "INTERNAL_ERROR")]).

(** ** checkAccountAccess *)

Definition access_denied (accountType requiredModule : string)
    (allowedModules : list string) : Response :=
  res_status_json 403
    (JObj [("error", JStr ("Acesso negado. Sua conta " +:+ accountType +:+
                           " não inclui o módulo '" +:+ requiredModule +:+ "'"));
           ("code", JStr "ACCOUNT_ACCESS_DENIED");
           ("currentAccount", JStr accountType);
           ("requiredModule", JStr requiredModule);
           ("allowedModules", jstrs allowedModules);
           ("suggestedAccounts", jstrs (getSuggestedAccounts requiredModule))]).

Definition checkAccountAccess (requiredModule : string) (req : Request)
  : Outcome Request :=
  let body : Result (Outcome Request) :=
    match user req with
    | None =>
        Ok (Respond (res_status_json 401
              (JObj [("error", JStr "Usuário não autenticado");
                     ("code", JStr "USER_NOT_AUTHENTICATED")])))
    | Some u =>
        match js_get ACCOUNT_MODULES (accountType u) with
        | Own allowedModules =>
            if negb (includes allowedModules requiredModule) then
              Ok (Respond (access_denied (accountType u) requiredModule allowedModules))
            else Ok (Next req)
        | Inherited => Throw (TypeError "allowedModules.includes is not a function")
        | Undefined => Throw (TypeError "Cannot read properties of undefined")
        end
    end in
  match body with
  | Ok o => o
  | Throw _ => Respond internal_error
  end.

(** ** checkAccountLimits *)

Inductive ResourceType := RClients | RProjects | RStorage.

Definition resource_name (r : ResourceType) : string :=
  match r with
  | RClients => "clients"
  | RProjects => "projects"
  | RStorage => "storage"
  end.

Definition count_clients (db : Store) (tenantId : string) : Z :=
  Z.of_nat (length (filter (λ c, cl_tenantId c = tenantId) (clients db))).
Definition count_projects (db : Store) (tenantId : string) : Z :=
  Z.of_nat (length (filter (λ p, pr_tenantId p = tenantId) (projects db))).
Definition storage_used (db : Store) (tenantId : string) : Z :=
  fold_left (λ total file, total + f_size file)
            (filter (λ f, f_tenantId f = tenantId) (files db)) 0.

(** [limits.maxX]: a field of the tier's record, [undefined] when
    [limits] is an inherited member, a TypeError when it is [undefined]. *)
Definition limit_field (limits : JsProp Limits) (field : Limits → Z)
  : Result (option Z) :=
  match limits with
  | Own l => Ok (Some (field l))
  | Inherited => Ok None
  | Undefined => Throw (TypeError "Cannot read properties of undefined")
  end.

(** [maxAllowed !== -1 && currentCount >= maxAllowed] *)
Definition limit_reached (maxAllowed currentCount : Z) : bool :=
  negb (bool_decide (maxAllowed = -1)) && bool_decide (maxAllowed ≤ currentCount).

(** The same test when [maxAllowed] may be [undefined]:
    [undefined !== -1] holds and [n >= undefined] does not. *)
Definition limit_reached_js (maxAllowed : option Z) (currentCount : Z) : bool :=
  match maxAllowed with
  | Some m => limit_reached m currentCount
  | None => false
  end.

Definition jnum_opt (k : string) (v : option Z) : list (string * Json) :=
  jopt k (JNum <$> v).

Definition limit_exceeded (accountType : string) (resourceType : ResourceType)
    (currentCount : Z) (maxAllowed : option Z) : Response :=
  res_status_json 403
    (JObj ([("error", JStr ("Limite da conta atingido para " +:+ resource_name resourceType));
            ("code", JStr "ACCOUNT_LIMIT_EXCEEDED");
            ("currentAccount", JStr accountType);
            ("resourceType", JStr (resource_name resourceType));
            ("currentCount", JNum currentCount)]
           ++ jnum_opt "maxAllowed" maxAllowed
           ++ [("suggestedAccounts",
                jstrs (getSuggestedAccountsForLimit (resource_name resourceType) accountType))])).

Definition checkAccountLimits (resourceType : ResourceType) (db : Store)
    (req : Request) : Outcome Request :=
  let body : Result (Outcome Request) :=
    let tenantId := tenantId <$> user req in
    let accountType := accountType <$> user req in
    match tenantId, accountType with
    | Some tenantId, Some accountType =>
        if bool_decide (tenantId = "") || bool_decide (accountType = "") then
          Ok (Respond (res_status_json 401
                (JObj [("error", JStr "Informações de autenticação inválidas");
                       ("code", JStr "INVALID_AUTH")])))
        else
          let limits := js_get ACCOUNT_LIMITS accountType in
          '(currentCount, maxAllowed) ←
            match resourceType with
            | RClients =>
                m ← limit_field limits maxClients; Ok (count_clients db tenantId, m)
            | RProjects =>
                m ← limit_field limits maxProjects; Ok (count_projects db tenantId, m)
            | RStorage =>
                m ← limit_field limits maxStorage; Ok (storage_used db tenantId, m)
            end;
          if limit_reached_js maxAllowed currentCount then
            Ok (Respond (limit_exceeded accountType resourceType currentCount maxAllowed))
          else Ok (Next req)
    | _, _ =>
        Ok (Respond (res_status_json 401
              (JObj [("error", JStr "Informações de autenticação inválidas");
                     ("code", JStr "INVALID_AUTH")])))
    end in
  match body with
  | Ok o => o
  | Throw _ => Respond internal_error
  end.

(** ** Route handlers: state and exceptions

    A handler reads and writes the store and may throw; writes made before
    a throw stay in the store. *)

Definition Handler (A : Type) : Type := Store → Store * Result A.

#[global] Instance Handler_bind : MBind Handler := λ A B k m db,
  match m db with
  | (db', Ok a) => k a db'
  | (db', Throw e) => (db', Throw e)
  end.

#[global] Instance Handler_ret : MRet Handler := λ A a db, (db, Ok a).

Definition throw {A} (e : Thrown) : Handler A := λ db, (db, Throw e).
Definition reads {A} (f : Store → A) : Handler A := λ db, (db, Ok (f db)).
Definition writes (f : Store → Store) : Handler unit := λ db, (f db, Ok tt).
Definition lift {A} (r : Result A) : Handler A := λ db, (db, r).
Definition when_throw (c : bool) (e : Thrown) : Handler unit :=
  if c then throw e else mret tt.

(** The response a client sees for a route wrapped in [asyncHandler]. *)
Definition respond (env : Env) (h : Handler Response) (db : Store) : Store * Response :=
  let '(db', r) := h db in (db', asyncHandler env r).

(** ** Audit records *)

(** [prisma.auditLog.create({ data })] *)
Definition auditLog_create (entry : AuditLog) : Handler unit := λ db,
  match auditFault db with
  | Some e => (db, Throw e)
  | None => (set_auditLogs (λ logs, logs ++ [entry]) db, Ok tt)
  end.

(** [createAuditLog] (utils/AppError.ts): the write is wrapped in
    try/catch and a failure is only logged to the console. *)
Definition createAuditLog (userId tenantId action resourceType resourceId : string)
    (details : option Json) : Handler unit := λ db,
  match auditLog_create
          (mkAuditLog userId tenantId action resourceType resourceId
                      (default (JObj []) details)) db with
  | (db', Ok _) => (db', Ok tt)
  | (_, Throw _) => (db, Ok tt)
  end.

(** ** auth.routes.ts *)

(** The two [jwt.sign] calls of [/login] (and the one of [/refresh]). *)
Definition sign_access (env : Env) (user : User) (now : Z) : Jwt :=
  jwt_sign (mkClaims (Some (u_id user)) (Some (u_tenantId user))
                     (Some (account_name (u_accountType user))) None)
           (access_secret env) (hours 24) now.

Definition sign_refresh (env : Env) (user : User) (now : Z) : Jwt :=
  jwt_sign (mkClaims (Some (u_id user)) (Some (u_tenantId user)) None (Some "refresh"))
           (refresh_secret env) (days 30) now.

(** The [jwt.sign] call of the administrative login (admin.routes.ts):
    signed with the same secret as an access token, for eight hours.  Its
    payload has the members [isAdmin], [email] and [adminKey], which no
    handler reads, and none of those above. *)
Definition sign_admin (env : Env) (now : Z) : Jwt :=
  jwt_sign (mkClaims None None None None) (access_secret env) (hours 8) now.

(** [POST /api/auth/refresh].  [refreshToken] is [req.body.refreshToken]. *)
Definition refresh_body (env : Env) (db : Store) (now : Z) (refreshToken : Jwt)
  : Result Response :=
  decoded ← jwt_verify refreshToken (refresh_secret env) now;
  throw_if (negb (bool_decide (c_type decoded = Some "refresh")))
           (AppError "Token inválido" 401);;
  user ← user_findUnique db (c_userId decoded);
  match user with
  | None => Throw (AppError "Usuário ou empresa inativo" 401)
  | Some user =>
      throw_if (negb (u_isActive user)) (AppError "Usuário ou empresa inativo" 401);;
      tenant ← user_tenant db user;
      throw_if (negb (t_isActive tenant)) (AppError "Usuário ou empresa inativo" 401);;
      let accessToken := sign_access env user now in
      Ok (res_json (JObj [("token", JJwt accessToken)]))
  end.

Definition refresh (env : Env) (now : Z) (refreshToken : option Jwt)
  : Handler Response := λ db,
  (db,
   throw_if (no_token refreshToken) (AppError "Refresh token não fornecido" 401);;
   try_catch (refresh_body env db now (default (Garbage "") refreshToken))
             (λ error, Throw (AppError "Refresh token inválido" 401))).

(** [_count.users] filtered by account type, for one tenant. *)
Definition count_users (db : Store) (tenantId : string) (a : AccountType) : Z :=
  Z.of_nat (length (filter (λ kv, u_tenantId kv.2 = tenantId ∧ u_accountType kv.2 = a)
                           (map_to_list (users db)))).

(** [findFirst({ where: { email } })] only tested for presence. *)
Definition email_in_use (db : Store) (email : string) : bool :=
  bool_decide (filter (λ kv, u_email kv.2 = email) (map_to_list (users db)) ≠ []).

(** The [switch (accountType)] that selects the tenant's capacity. *)
Definition max_accounts (tenant : Tenant) (a : AccountType) : Z :=
  match a with
  | SIMPLE => maxSimpleAccounts tenant
  | COMPOSITE => maxCompositeAccounts tenant
  | MANAGERIAL => maxManagerialAccounts tenant
  end.

(** The request body after the Zod schema accepted it. *)
Record NewUser := mkNewUser {
  n_email : string;
  n_password : string;
  n_name : string;
  n_accountType : AccountType
}.

Definition user_created (user : User) : Response :=
  res_status_json 201
    (JObj [("message", JStr "Usuário criado com sucesso");
           ("user",
            JObj ([("id", JStr (u_id user)); ("email", JStr (u_email user))]
                  ++ jopt "name" (JStr <$> u_name user)
                  ++ [("accountType", JStr (account_name (u_accountType user)))]))]).

Section Accounts.

(** [bcrypt.hash(password, 12)] and the id the database gives a new row. *)
Variable bcrypt_hash : string → string.
Variable newId : string.

Definition user_create (data : NewUser) (tenantId : string) : Handler User := λ db,
  let user := mkUser newId (n_email data) (Some (n_name data))
                     (bcrypt_hash (n_password data)) (n_accountType data)
                     true tenantId None in
  (set_users (insert newId user) db, Ok user).

(** [POST /api/auth/register] *)
Definition register (data : NewUser) (tenantId : string) : Handler Response :=
  existingUser ← reads (λ db, email_in_use db (n_email data));
  when_throw existingUser (AppError "Email já está em uso" 409);;
  tenant ← reads (λ db, tenants db !! tenantId);
  match tenant with
  | None => throw (AppError "Empresa não encontrada" 404)
  | Some tenant =>
      when_throw (negb (t_isActive tenant)) (AppError "Empresa inativa" 403);;
      currentCount ← reads (λ db, count_users db tenantId (n_accountType data));
      let maxAllowed := max_accounts tenant (n_accountType data) in
      when_throw (limit_reached maxAllowed currentCount)
        (AppError ("Limite de contas " +:+ account_name (n_accountType data) +:+
                   " atingido para esta empresa. Máximo: " +:+ pretty maxAllowed) 403);;
      user ← user_create data tenantId;
      createAuditLog (u_id user) tenantId "REGISTER" "USER" (u_id user)
        (Some (JObj [("email", JStr (u_email user));
                     ("accountType", JStr (account_name (n_accountType data)))]));;
      mret (user_created user)
  end.

(** [POST /api/admin/tenants/:id/users] *)
Definition admin_create_user (tenantId : string) (data : NewUser) : Handler Response :=
  tenant ← reads (λ db, tenants db !! tenantId);
  match tenant with
  | None => throw (AppError "Empresa não encontrada" 404)
  | Some tenant =>
      currentCount ← reads (λ db, count_users db tenantId (n_accountType data));
      let maxAllowed := max_accounts tenant (n_accountType data) in
      when_throw (limit_reached maxAllowed currentCount)
        (AppError ("Limite de contas " +:+ account_name (n_accountType data) +:+
                   " atingido. Máximo: " +:+ pretty maxAllowed) 403);;
      existingUser ← reads (λ db, email_in_use db (n_email data));
      when_throw existingUser (AppError "Email já está em uso" 409);;
      user ← user_create data tenantId;
      mret (user_created user)
  end.

End Accounts.

(** ** upload.routes.ts *)

(** The mimetypes [fileFilter] lets through. *)
Definition allowedTypes : list string :=
  ["image/jpeg"; "image/png"; "image/gif"; "image/webp"; "application/pdf";
   "application/msword";
   "application/vnd.openxmlformats-officedocument.wordprocessingml.document";
   "application/vnd.ms-excel";
   "application/vnd.openxmlformats-officedocument.spreadsheetml.sheet";
   "text/plain"].

(** [req.file] as multer leaves it. *)
Record Upload := mkUpload {
  up_filename : string;
  up_originalname : string;
  up_mimetype : string;
  up_size : Z;
  up_path : string
}.

(** [user!.x]: the non-null assertion is erased, a missing [req.user]
    makes the property read throw. *)
Definition the_user (req : Request) : Result TokenPayload :=
  match user req with
  | Some u => Ok u
  | None => Throw (TypeError "Cannot read properties of undefined")
  end.

Definition file_url (id : string) : string := "/api/upload/file/" +:+ id.

(** [POST /api/upload/single]: the audit row is written with
    [prisma.auditLog.create] directly. *)
Definition upload_single (newId : string) (now : Z) (req : Request)
    (file : option Upload) : Handler Response :=
  match file with
  | None => mret (res_status_json 400 (JObj [("error", JStr "Nenhum arquivo foi enviado")]))
  | Some file =>
      u ← lift (the_user req);
      let fileRecord :=
        mkFile newId (up_filename file) (up_originalname file) (up_mimetype file)
               (up_size file) (up_path file) (tenantId u) (userId u) now in
      writes (set_files (λ fs, fs ++ [fileRecord]));;
      auditLog_create
        (mkAuditLog (userId u) (tenantId u) "FILE_UPLOAD" "FILE" (f_id fileRecord)
           (JObj [("filename", JStr (up_originalname file));
                  ("size", JNum (up_size file));
                  ("mimetype", JStr (up_mimetype file))]));;
      mret (res_json
              (JObj [("message", JStr "Arquivo enviado com sucesso");
                     ("file",
                      JObj [("id", JStr (f_id fileRecord));
                            ("filename", JStr (f_filename fileRecord));
                            ("originalName", JStr (f_originalName fileRecord));
                            ("mimetype", JStr (f_mimetype fileRecord));
                            ("size", JNum (f_size fileRecord));
                            ("url", JStr (file_url (f_id fileRecord)))])]))
  end.

(** [prisma.file.findFirst({ where: { id, tenantId } })] *)
Definition file_findFirst (db : Store) (id tenantId : string) : option File :=
  List.find (λ f, bool_decide (f_id f = id) && bool_decide (f_tenantId f = tenantId))
            (files db).

Definition dquote : string := String (Ascii.ascii_of_nat 34) "".

(** [res.setHeader(name, value)]: Node throws when [value] holds a
    character other than tab, U+0020..U+007E and U+0080..U+00FF.  In
    UTF-8 the admitted characters are the bytes 9 and 32..126 and the
    two-byte sequences that start with 194 or 195. *)
Definition header_byte_ok (b : Ascii.ascii) : bool :=
  let n := Z.of_nat (Ascii.nat_of_ascii b) in
  bool_decide (n = 9)
  || (bool_decide (32 ≤ n) && bool_decide (n ≤ 126))
  || (bool_decide (128 ≤ n) && bool_decide (n ≤ 195)).

Fixpoint header_value_ok (value : string) : bool :=
  match value with
  | EmptyString => true
  | String b rest => header_byte_ok b && header_value_ok rest
  end.

Definition invalid_header_char (name : string) : Thrown :=
  OtherError "TypeError" (Some "ERR_INVALID_CHAR") None
             ("Invalid character in header content [" +:+ dquote +:+ name +:+ dquote +:+ "]")
             "".

Definition setHeader (name value : string) : Result (string * string) :=
  if header_value_ok value then Ok (name, value) else Throw (invalid_header_char name).

Definition content_disposition (originalName : string) : string :=
  "inline; filename=" +:+ dquote +:+ originalName +:+ dquote.

(** [GET /api/upload/file/:id] *)
Definition get_file (req : Request) (id : string) : Handler Response :=
  u ← lift (the_user req);
  file ← reads (λ db, file_findFirst db id (tenantId u));
  match file with
  | None => mret (res_status_json 404 (JObj [("error", JStr "Arquivo não encontrado")]))
  | Some file =>
      onDisk ← reads (λ db, bool_decide (f_path file ∈ disk db));
      if negb onDisk then
        mret (res_status_json 404
                (JObj [("error", JStr "Arquivo não encontrado no sistema")]))
      else
        contentType ← lift (setHeader "Content-Type" (f_mimetype file));
        contentDisposition ←
          lift (setHeader "Content-Disposition" (content_disposition (f_originalName file)));
        mret (mkResponse 200 [contentType; contentDisposition] (PFile (f_path file)))
  end.

(** Numbers read from the query string with [Number(...)]: an integer or
    NaN. *)
Inductive JsNum :=
| NaN
| Int (z : Z).

Definition js_sub (a b : JsNum) : JsNum :=
  match a, b with Int x, Int y => Int (x - y) | _, _ => NaN end.
Definition js_mul (a b : JsNum) : JsNum :=
  match a, b with Int x, Int y => Int (x * y) | _, _ => NaN end.

(** [JSON.stringify] writes NaN and the infinities as [null]. *)
Definition jnum (n : JsNum) : Json :=
  match n with Int z => JNum z | NaN => JNull end.

(** [Math.ceil(total / limit)] *)
Definition js_pages (total : Z) (limit : JsNum) : Json :=
  match limit with
  | NaN => JNull
  | Int l => if bool_decide (l = 0) then JNull else JNum (- ((- total) `div` l))
  end.

Record FilesQuery := mkFilesQuery {
  q_page : option JsNum;
  q_limit : option JsNum;
  q_type : option string
}.

(** The [where] clause of [/files]: the caller's tenant, and the mimetype
    prefix when [type] is a non-empty string. *)
Definition files_where (tenantId : string) (type : option string) (f : File) : bool :=
  bool_decide (f_tenantId f = tenantId)
  && match type with
     | Some t => if bool_decide (t = "") then true else String.prefix t (f_mimetype f)
     | None => true
     end.

(** [uploadedByUser?.name || uploadedByUser?.email] *)
Definition uploader_label (db : Store) (f : File) : option string :=
  match users db !! f_uploadedBy f with
  | None => None
  | Some u =>
      match u_name u with
      | Some n => if bool_decide (n = "") then Some (u_email u) else Some n
      | None => Some (u_email u)
      end
  end.

Definition file_view (db : Store) (file : File) : Json :=
  JObj ([("id", JStr (f_id file));
         ("filename", JStr (f_filename file));
         ("originalName", JStr (f_originalName file));
         ("mimetype", JStr (f_mimetype file));
         ("size", JNum (f_size file));
         ("url", JStr (file_url (f_id file)))]
        ++ jopt "uploadedBy" (JStr <$> uploader_label db file)
        ++ [("createdAt", JNum (f_createdAt file))]).

(** The body of a successful [/files] answer. *)
Definition files_response (db : Store) (rows : list File) (total : Z)
    (page limit : JsNum) : Response :=
  res_json
    (JObj [("files", JArr (file_view db <$> rows));
           ("pagination",
            JObj [("page", jnum page); ("limit", jnum limit);
                  ("total", JNum total); ("pages", js_pages total limit)])]).

Section Listing.

(** The database's [orderBy createdAt desc] followed by [skip]/[take]:
    which rows of the selection come back, in which order, or a
    rejection of the arguments. *)
Variable order_skip_take : JsNum → JsNum → list File → Result (list File).

(** The rows [prisma.file.findMany] returns for [/files]. *)
Definition files_rows (db : Store) (tenantId : string) (q : FilesQuery)
  : Result (list File) :=
  let page := default (Int 1) (q_page q) in
  let limit := default (Int 20) (q_limit q) in
  order_skip_take (js_mul (js_sub page (Int 1)) limit) limit
                  (List.filter (files_where tenantId (q_type q)) (files db)).

Definition files_total (db : Store) (tenantId : string) (q : FilesQuery) : Z :=
  Z.of_nat (length (List.filter (files_where tenantId (q_type q)) (files db))).

(** [GET /api/upload/files] *)
Definition list_files (req : Request) (q : FilesQuery) : Handler Response :=
  u ← lift (the_user req);
  rows ← (λ db, (db, files_rows db (tenantId u) q));
  total ← reads (λ db, files_total db (tenantId u) q);
  let page := default (Int 1) (q_page q) in
  let limit := default (Int 20) (q_limit q) in
  reads (λ db, files_response db rows total page limit).

End Listing.

(** ** The mounted pipelines (server index) *)

Definition and_then {R} (o : Outcome R) (k : R → Outcome R) : Outcome R :=
  match o with
  | Next req => k req
  | NextErr e => NextErr e
  | Respond r => Respond r
  end.

(** What reaches the client once the chain of middleware has run:
    the handler's answer, the answer a middleware gave itself, or the
    error handler's rendering of a forwarded error. *)
Definition serve (env : Env) (o : Outcome Request)
    (handler : Request → Handler Response) (db : Store) : Store * Response :=
  match o with
  | Next req => respond env (handler req) db
  | NextErr e => (db, errorHandler env e)
  | Respond r => (db, r)
  end.

(** [app.use('/api/tenant', authenticateToken)], then [tenantMiddleware],
    both given the same reading of the clock and of the store. *)
Definition protect (env : Env) (db : Store) (now : Z) (req : Request) : Outcome Request :=
  and_then (authenticateToken env db now req) (tenantMiddleware db now).

(** A [/api/tenant] route declared with [checkAccountAccess(module)]. *)
Definition tenant_route (env : Env) (requiredModule : string)
    (handler : Request → Handler Response) (now : Z) (req : Request) (db : Store)
  : Store * Response :=
  serve env (and_then (protect env db now req) (checkAccountAccess requiredModule))
        handler db.

(** A [/api/tenant] creation route that also declares
    [checkAccountLimits(resource)]. *)
Definition tenant_create_route (env : Env) (requiredModule : string)
    (resourceType : ResourceType) (handler : Request → Handler Response)
    (now : Z) (req : Request) (db : Store) : Store * Response :=
  serve env
        (and_then (and_then (protect env db now req) (checkAccountAccess requiredModule))
                  (checkAccountLimits resourceType db))
        handler db.

(** An [/api/upload] route: the router applies [authenticateToken] once
    more after the two application-level middlewares.  Here the whole
    chain is served against one reading of the clock and of the store. *)
Definition upload_route (env : Env) (handler : Request → Handler Response)
    (now : Z) (req : Request) (db : Store) : Store * Response :=
  serve env (and_then (protect env db now req) (authenticateToken env db now))
        handler db.

(** The middleware of [/api/upload] when the router's [authenticateToken]
    reads the clock and the store anew ([now2], [db2]) after the
    application-level chain has read [now] and [db]. *)
Definition upload_chain (env : Env) (db : Store) (now : Z) (db2 : Store) (now2 : Z)
    (req : Request) : Outcome Request :=
  and_then (protect env db now req) (authenticateToken env db2 now2).

(** ** Reading a response *)

Definition json_field (k : string) (j : Json) : option Json :=
  match j with
  | JObj fields => own_property fields k
  | _ => None
  end.

Definition body_field (k : string) (r : Response) : option Json :=
  match payload r with
  | PJson j => json_field k j
  | PFile _ => None
  end.

(** The rendering of an [AppError] by the error handler. *)
Definition app_error_response (message : string) (statusCode : Z) : Response :=
  res_status_json statusCode
    (JObj [("status", JStr "error"); ("message", JStr message); ("code", JStr "AppError")]).

(** ** A small deployment used to exercise the model *)

Module Fixture.

Definition env0 : Env := mkEnv None None None.

Definition acme : Tenant := mkTenant "t1" "Acme" COMPOSITE true None 2 1 (-1).
Definition globex : Tenant := mkTenant "t2" "Globex" MANAGERIAL true None 1 1 1.

Definition alice : User :=
  mkUser "u1" "alice@acme.test" (Some "Alice") "h1" SIMPLE true "t1" None.
Definition bob : User :=
  mkUser "u2" "bob@globex.test" None "h2" MANAGERIAL true "t2" None.

Definition brief : File :=
  mkFile "f1" "file-1.pdf" "brief.pdf" "application/pdf" 1000
         "/srv/uploads/t1/file-1.pdf" "t1" "u1" 10.
Definition ledger : File :=
  mkFile "f2" "file-2.pdf" "ledger.pdf" "application/pdf" 2000
         "/srv/uploads/t2/file-2.pdf" "t2" "u2" 20.

Definition db0 : Store :=
  mkStore {[ "u1" := alice; "u2" := bob ]} {[ "t1" := acme; "t2" := globex ]}
          [brief; ledger] [] [] [] None
          ["/srv/uploads/t1/file-1.pdf"; "/srv/uploads/t2/file-2.pdf"].

Definition bearer (t : Jwt) : Request :=
  mkRequest (Some [Garbage "Bearer"; t]) None None.

(** A request as a handler sees it once [req.user] is set. *)
Definition as_user (u : TokenPayload) : Request := mkRequest None (Some u) None.

Definition ok_handler : Request → Handler Response :=
  λ _, mret (res_json (JObj [("ok", JBool true)])).

(** Insertion sort on [createdAt], newest first, then a window. *)
Fixpoint insert_desc (f : File) (l : list File) : list File :=
  match l with
  | [] => [f]
  | g :: l' =>
      if bool_decide (f_createdAt g < f_createdAt f) then f :: g :: l'
      else g :: insert_desc f l'
  end.

Definition window (skip take : JsNum) (l : list File) : Result (list File) :=
  match skip, take with
  | Int s, Int t =>
      if bool_decide (s < 0) || bool_decide (t < 0) then
        Throw (OtherError "PrismaClientValidationError" None None "invalid window" "")
      else Ok (firstn (Z.to_nat t) (skipn (Z.to_nat s) (foldr insert_desc [] l)))
  | _, _ => Throw (OtherError "PrismaClientValidationError" None None "invalid window" "")
  end.

End Fixture.

(** ** Quantities compared by the quota checks *)

(** The [currentCount] and [maxAllowed] the [switch (resourceType)] of
    [checkAccountLimits] selects. *)
Definition usage_of (r : ResourceType) (db : Store) (tenantId : string) : Z :=
  match r with
  | RClients => count_clients db tenantId
  | RProjects => count_projects db tenantId
  | RStorage => storage_used db tenantId
  end.

Definition limit_of (r : ResourceType) (l : Limits) : Z :=
  match r with
  | RClients => maxClients l
  | RProjects => maxProjects l
  | RStorage => maxStorage l
  end.

(** The module list of a stored tier. *)
Definition modules_of (a : AccountType) : list string :=
  default [] (own_property ACCOUNT_MODULES (account_name a)).

(** Administrative changes to a row between two requests. *)
Definition deactivate_tenant (t : Tenant) : Tenant :=
  mkTenant (t_id t) (t_companyName t) (t_planType t) false (t_expiresAt t)
           (maxSimpleAccounts t) (maxCompositeAccounts t) (maxManagerialAccounts t).
Definition expire_tenant (at_ : Z) (t : Tenant) : Tenant :=
  mkTenant (t_id t) (t_companyName t) (t_planType t) (t_isActive t) (Some at_)
           (maxSimpleAccounts t) (maxCompositeAccounts t) (maxManagerialAccounts t).
Definition change_tier (a : AccountType) (u : User) : User :=
  mkUser (u_id u) (u_email u) (u_name u) (u_passwordHash u) a (u_isActive u)
         (u_tenantId u) (u_lastLogin u).
Definition deactivate_user (u : User) : User :=
  mkUser (u_id u) (u_email u) (u_name u) (u_passwordHash u) (u_accountType u) false
         (u_tenantId u) (u_lastLogin u).

(** The two fixed answers of [/file/:id] when nothing is sent. *)
Definition not_found_in_db : Response :=
  res_status_json 404 (JObj [("error", JStr "Arquivo não encontrado")]).
Definition not_found_on_disk : Response :=
  res_status_json 404 (JObj [("error", JStr "Arquivo não encontrado no sistema")]).

(** ** auth.ts: the administrative key and the account-type guard *)

(** [Array.prototype.join(sep)] on strings. *)
Fixpoint js_join (sep : string) (l : list string) : string :=
  match l with
  | [] => ""
  | x :: rest =>
      match rest with
      | [] => x
      | _ :: _ => x +:+ sep +:+ js_join sep rest
      end
  end.

(** [requireAdmin]: [ADMIN_KEY] is [process.env.ADMIN_KEY] and
    [x_admin_key] the value of the [x-admin-key] header. *)
Definition requireAdmin (ADMIN_KEY x_admin_key : option string) (req : Request)
  : Outcome Request :=
  let body : Result Request :=
    let refused :=
      match x_admin_key with
      | None => true
      | Some adminKey =>
          bool_decide (adminKey = "") || negb (bool_decide (Some adminKey = ADMIN_KEY))
      end in
    throw_if refused (AppError "Acesso administrativo não autorizado" 403);;
    Ok req in
  match body with
  | Ok req' => Next req'
  | Throw error => NextErr error
  end.

(** [checkAccountType(requiredAccountTypes)] *)
Definition checkAccountType (requiredAccountTypes : list string) (req : Request)
  : Outcome Request :=
  let body : Result Request :=
    match user req with
    | None => Throw (AppError "Usuário não autenticado" 401)
    | Some u =>
        throw_if (negb (includes requiredAccountTypes (accountType u)))
          (AppError ("Permissão insuficiente. Requer: "
                     +:+ js_join " ou " requiredAccountTypes) 403);;
        Ok req
    end in
  match body with
  | Ok req' => Next req'
  | Throw error => NextErr error
  end.

(** ** utils/AppError.ts: helpers on plain objects

    An object literal is the list of its own properties. *)

(** JavaScript truthiness of a JSON value. *)
Definition truthy (j : Json) : bool :=
  match j with
  | JNull => false
  | JBool b => b
  | JNum n => negb (bool_decide (n = 0))
  | JStr s => negb (bool_decide (s = ""))
  | JJwt _ => true
  | JArr _ => true
  | JObj _ => true
  end.

(** [!obj[field]] is false: the property read (own, inherited from
    [Object.prototype], or [undefined]) is truthy. *)
Definition field_set (obj : list (string * Json)) (field : string) : bool :=
  match js_get obj field with
  | Own v => truthy v
  | Inherited => true
  | Undefined => false
  end.

(** [validateRequiredFields(obj, requiredFields)] *)
Definition validateRequiredFields (obj : list (string * Json))
    (requiredFields : list string) : Result unit :=
  let missingFields := List.filter (λ field, negb (field_set obj field)) requiredFields in
  throw_if (bool_decide (0 < length missingFields)%nat)
    (AppError ("Campos obrigatórios ausentes: " +:+ js_join ", " missingFields) 400).

(** [delete obj[field]] *)
Definition js_delete (obj : list (string * Json)) (field : string)
  : list (string * Json) :=
  List.filter (λ kv, negb (bool_decide (kv.1 = field))) obj.

(** [sanitizeOutput(data, excludeFields)]: a shallow copy from which each
    excluded field is deleted in turn. *)
Definition sanitizeOutput (data : list (string * Json)) (excludeFields : list string)
  : list (string * Json) :=
  fold_left js_delete excludeFields data.

Definition sanitizeOutput_default (data : list (string * Json)) : list (string * Json) :=
  sanitizeOutput data ["passwordHash"].

(** ** Updating a user row *)

Definition record_not_found : Thrown :=
  OtherError "PrismaClientKnownRequestError" (Some "P2025") None
             "Record to update not found." "".

(** [prisma.user.update({ where: { id }, data })], [data] being the
    change [f] of the row: the updated row, or the client's error when no
    row has that id. *)
Definition user_update (id : string) (f : User → User) : Handler User := λ db,
  match users db !! id with
  | None => (db, Throw record_not_found)
  | Some u => (set_users (insert id (f u)) db, Ok (f u))
  end.

Definition set_lastLogin (at_ : Z) (u : User) : User :=
  mkUser (u_id u) (u_email u) (u_name u) (u_passwordHash u) (u_accountType u)
         (u_isActive u) (u_tenantId u) (Some at_).

Definition set_user_active (b : bool) (u : User) : User :=
  mkUser (u_id u) (u_email u) (u_name u) (u_passwordHash u) (u_accountType u) b
         (u_tenantId u) (u_lastLogin u).

(** ** Text

    A string is the UTF-8 encoding of the JavaScript string it stands
    for.  [js_length] is that string's [length], counted in UTF-16 code
    units: one for each byte that starts a character, two when the
    character lies outside the basic plane. *)



(** ** auth.routes.ts: login *)



(** [findFirst({ where: { email, isActive: true } })] *)
Definition login_user (db : Store) (email : string) : option User :=
  (λ hit, hit.2.2)
    <$> list_find (λ kv, u_email kv.2 = email ∧ u_isActive kv.2 = true)
                  (map_to_list (users db)).

Definition jnullable (v : option Json) : Json := default JNull v.

(** The tenant columns selected by [/login]. *)
Definition tenant_json (t : Tenant) : Json :=
  JObj [("id", JStr (t_id t));
        ("companyName", JStr (t_companyName t));
        ("planType", JStr (account_name (t_planType t)));
        ("isActive", JBool (t_isActive t));
        ("expiresAt", jnullable (JNum <$> t_expiresAt t));
        ("maxSimpleAccounts", JNum (maxSimpleAccounts t));
        ("maxCompositeAccounts", JNum (maxCompositeAccounts t));
        ("maxManagerialAccounts", JNum (maxManagerialAccounts t))].

Definition login_response (user : User) (tenant : Tenant)
    (accessToken refreshToken : Jwt) : Response :=
  res_json
    (JObj [("message", JStr "Login realizado com sucesso");
           ("token", JJwt accessToken);
           ("refreshToken", JJwt refreshToken);
           ("user",
            JObj [("id", JStr (u_id user));
                  ("email", JStr (u_email user));
                  ("name", jnullable (JStr <$> u_name user));
                  ("accountType", JStr (account_name (u_accountType user)));
                  ("tenantId", JStr (u_tenantId user));
                  ("tenant", tenant_json tenant)])]).

Section Login.

(** [bcrypt.compare(password, hash)] *)
Variable bcrypt_compare : string → string → bool.

(** The pattern behind [z.string().email(...)]. *)
Variable zod_email : string → bool.


(** [POST /api/auth/login] once [loginSchema.parse] has returned [email]
    and [password].  [ip] is [req.ip]. *)
Definition login (env : Env) (now : Z) (ip : option string) (email password : string)
  : Handler Response :=
  user ← reads (λ db, login_user db email);
  match user with
  | None => throw (AppError "Credenciais inválidas" 401)
  | Some user =>
      tenant ← (λ db, (db, user_tenant db user));
      when_throw (negb (t_isActive tenant))
        (AppError "Empresa inativa. Entre em contato com o suporte." 403);;
      when_throw (tenant_expired tenant now)
        (AppError "Plano da empresa expirou. Renove sua assinatura." 403);;
      when_throw (negb (bcrypt_compare password (u_passwordHash user)))
        (AppError "Credenciais inválidas" 401);;
      let accessToken := sign_access env user now in
      let refreshToken := sign_refresh env user now in
      user_update (u_id user) (set_lastLogin now);;
      createAuditLog (u_id user) (u_tenantId user) "LOGIN" "USER" (u_id user)
        (Some (JObj ([("email", JStr (u_email user))] ++ jopt "ip" (JStr <$> ip))));;
      mret (login_response user tenant accessToken refreshToken)
  end.


End Login.

(** ** admin.routes.ts: activating and deactivating a user *)

(** [data.isActive] as the database client reads [req.body.isActive],
    which the route passes on unchecked: nothing to set (the member is
    absent), a boolean to set, or a value the client rejects with
    [message]. *)
Inductive BoolInput :=
| Keep
| SetTo (b : bool)
| Rejected (message : string).

(** [PATCH /api/admin/users/:id].  The client checks the arguments before
    it looks for the row; the included tenant is read after the update. *)
Definition admin_patch_user (id : string) (isActive : BoolInput) : Handler Response :=
  match isActive with
  | Rejected message => throw (prisma_validation_error message)
  | _ =>
      user ← user_update id (match isActive with
                             | SetTo b => set_user_active b
                             | _ => λ u, u
                             end);
      _ ← ((λ db, (db, user_tenant db user)) : Handler Tenant);
      mret (res_json
              (JObj [("message", JStr "Usuário atualizado com sucesso");
                     ("user",
                      JObj [("id", JStr (u_id user));
                            ("email", JStr (u_email user));
                            ("name", jnullable (JStr <$> u_name user));
                            ("isActive", JBool (u_isActive user))])]))
  end.

(** The messages the error handler writes for errors that are not
    [AppError] or [ZodError]. *)
Definition handler_messages : list string :=
  ["Erro de validação nos dados enviados"; "Registro duplicado encontrado";
   "Registro não encontrado"; "Token inválido"; "Token expirado";
   "Erro interno do servidor"].

(** ** Further stores used to exercise the model *)

Module Scenario.

(** Acme with eleven uploads of 10 MB each. *)
Definition upload_10mb (n : nat) : File :=
  mkFile ("big-" +:+ pretty n) "file.pdf" "scan.pdf" "application/pdf" 10485760
         "/srv/uploads/t1/file.pdf" "t1" "u1" (Z.of_nat n).

Definition db_storage_full : Store :=
  set_files (λ _, upload_10mb <$> seq 0 11) Fixture.db0.

(** [bcrypt] replaced by a tagging function. *)
Definition toy_hash (password : string) : string := "hash:" +:+ password.
Definition toy_compare (password hash : string) : bool :=
  bool_decide (hash = toy_hash password).

Definition carol : NewUser := mkNewUser "carol@acme.test" "secret1" "Carol" SIMPLE.

(** Alice with a password hash the tagging function recognises. *)
Definition alice_hashed : User :=
  mkUser "u1" "alice@acme.test" (Some "Alice") (toy_hash "alicepw") SIMPLE true "t1" None.
Definition db_hashed : Store := set_users (insert "u1" alice_hashed) Fixture.db0.

End Scenario.

(** * Properties *)

(** ** The capability gate *)

Section GateTable.

Variable table : list (string * list string).
Variable requiredModule : string.

Let push (suggestions : list string) (entry : string * list string) :=
  if includes entry.2 requiredModule then suggestions ++ [entry.1] else suggestions.

(** The [forEach]/[push] loop computes a filter of the table's keys. *)
Lemma suggestions_fold (acc : list string) :
  fold_left push table acc
  = acc ++ (filter (λ e, requiredModule ∈ e.2) table).*1.
Proof using Type.
  revert acc. induction table as [|[k ms] rest IH]; intros acc; simpl.
  - by rewrite app_nil_r.
  - rewrite IH. unfold push, includes. simpl. rewrite filter_cons. simpl.
    case_bool_decide; case_decide; try done.
    by rewrite <- app_assoc.
Qed.

End GateTable.

Lemma getSuggestedAccounts_filter (requiredModule : string) :
  getSuggestedAccounts requiredModule
  = (filter (λ e, requiredModule ∈ e.2) ACCOUNT_MODULES).*1.
Proof. unfold getSuggestedAccounts. by rewrite suggestions_fold. Qed.

Lemma getSuggestedAccounts_spec (requiredModule tier : string) :
  tier ∈ getSuggestedAccounts requiredModule
  ↔ ∃ modules, (tier, modules) ∈ ACCOUNT_MODULES ∧ requiredModule ∈ modules.
Proof.
  rewrite getSuggestedAccounts_filter, list_elem_of_fmap. split.
  - intros [[t ms] [-> [Hin Hm]%list_elem_of_filter]]. by exists ms.
  - intros [ms [Hin Hm]]. exists (tier, ms). split; [done|].
    by apply list_elem_of_filter.
Qed.

Lemma own_property_elem {A} (o : list (string * A)) (k : string) (v : A) :
  own_property o k = Some v → (k, v) ∈ o.
Proof.
  induction o as [|[k' v'] o IH]; simpl; [done|].
  case_bool_decide; intros Hget.
  - simplify_eq. left.
  - right. by apply IH.
Qed.

Lemma account_modules_keys (k : string) (ms : list string) :
  own_property ACCOUNT_MODULES k = Some ms →
  k = "SIMPLE" ∨ k = "COMPOSITE" ∨ k = "MANAGERIAL".
Proof.
  intros H%own_property_elem. unfold ACCOUNT_MODULES in H.
  apply list_elem_of_In in H. simpl in H.
  destruct H as [H|[H|[H|[]]]]; simplify_eq; auto.
Qed.

(** C6. Whenever the gate denies because the tier's module list lacks the
    requested module, the answer is a 403 that carries the current tier,
    the requested module and [suggestedAccounts], and the latter is exactly
    the list of tiers of the static table whose module list contains the
    module; for [cash_flow] that list is COMPOSITE, MANAGERIAL. *)
Theorem denial_suggests_granting_tiers
    (requiredModule : string) (req : Request) (u : TokenPayload)
    (allowedModules : list string) :
  user req = Some u →
  own_property ACCOUNT_MODULES (accountType u) = Some allowedModules →
  requiredModule ∉ allowedModules →
  (∃ r, checkAccountAccess requiredModule req = Respond r
        ∧ status r = 403
        ∧ body_field "currentAccount" r = Some (JStr (accountType u))
        ∧ body_field "requiredModule" r = Some (JStr requiredModule)
        ∧ body_field "suggestedAccounts" r
          = Some (jstrs (getSuggestedAccounts requiredModule)))
  ∧ (∀ tier, tier ∈ getSuggestedAccounts requiredModule
             ↔ ∃ modules, (tier, modules) ∈ ACCOUNT_MODULES ∧ requiredModule ∈ modules)
  ∧ getSuggestedAccounts requiredModule
    = (filter (λ e, requiredModule ∈ e.2) ACCOUNT_MODULES).*1
  ∧ getSuggestedAccounts "cash_flow" = ["COMPOSITE"; "MANAGERIAL"].
Proof.
  intros Hu Hown Hnot. repeat split.
  - exists (access_denied (accountType u) requiredModule allowedModules).
    unfold checkAccountAccess, js_get. rewrite Hu, Hown. unfold includes.
    rewrite bool_decide_eq_false_2 by done. simpl. done.
  - by apply getSuggestedAccounts_spec.
  - by apply getSuggestedAccounts_spec.
  - apply getSuggestedAccounts_filter.
Qed.

(** The SIMPLE tier asking for [cash_flow]. *)
Lemma denial_suggests_granting_tiers_witness :
  ∃ r, checkAccountAccess "cash_flow"
         (Fixture.as_user (mkTokenPayload "u1" "t1" "SIMPLE")) = Respond r
       ∧ status r = 403
       ∧ body_field "currentAccount" r = Some (JStr "SIMPLE")
       ∧ body_field "requiredModule" r = Some (JStr "cash_flow")
       ∧ body_field "suggestedAccounts" r = Some (jstrs ["COMPOSITE"; "MANAGERIAL"]).
Proof.
  refine (proj1 (denial_suggests_granting_tiers "cash_flow"
                   (Fixture.as_user (mkTokenPayload "u1" "t1" "SIMPLE"))
                   (mkTokenPayload "u1" "t1" "SIMPLE")
                   ["crm"; "clients"; "projects"; "tasks"; "billing"; "basic_settings"]
                   _ _ _)).
  - reflexivity.
  - reflexivity.
  - apply (bool_decide_unpack _). vm_compute. exact I.
Defined.

(** ** Quota checks *)

Lemma limit_reached_unlimited (currentCount : Z) :
  limit_reached (-1) currentCount = false.
Proof. reflexivity. Qed.

Lemma limit_reached_finite (maxAllowed currentCount : Z) :
  maxAllowed ≠ -1 →
  limit_reached maxAllowed currentCount = bool_decide (maxAllowed ≤ currentCount).
Proof. intros H. unfold limit_reached. by rewrite (bool_decide_eq_false_2 _ H). Qed.

(** The middleware's verdict is the verdict of the comparison. *)
Lemma checkAccountLimits_verdict (r : ResourceType) (db : Store) (req : Request)
    (u : TokenPayload) (limits : Limits) :
  user req = Some u → tenantId u ≠ "" → accountType u ≠ "" →
  own_property ACCOUNT_LIMITS (accountType u) = Some limits →
  checkAccountLimits r db req
  = if limit_reached (limit_of r limits) (usage_of r db (tenantId u))
    then Respond (limit_exceeded (accountType u) r (usage_of r db (tenantId u))
                                 (Some (limit_of r limits)))
    else Next req.
Proof.
  intros Hu Ht Ha Hown. unfold checkAccountLimits, js_get.
  rewrite Hu. cbn [fmap option_fmap option_map].
  rewrite (bool_decide_eq_false_2 _ Ht), (bool_decide_eq_false_2 _ Ha), Hown. simpl.
  destruct r; simpl;
    by destruct (limit_reached _ _).
Qed.

Section AccountQuota.

Variable bcrypt_hash : string → string.
Variable newId : string.
Variables (data : NewUser) (tenantId : string) (db : Store) (tenant : Tenant).

Let created : User :=
  mkUser newId (n_email data) (Some (n_name data)) (bcrypt_hash (n_password data))
         (n_accountType data) true tenantId None.
Let maxAllowed := max_accounts tenant (n_accountType data).
Let currentCount := count_users db tenantId (n_accountType data).

Lemma register_verdict :
  email_in_use db (n_email data) = false →
  tenants db !! tenantId = Some tenant →
  t_isActive tenant = true →
  (register bcrypt_hash newId data tenantId db).2
  = if limit_reached maxAllowed currentCount
    then Throw (AppError ("Limite de contas " +:+ account_name (n_accountType data) +:+
                          " atingido para esta empresa. Máximo: " +:+ pretty maxAllowed) 403)
    else Ok (user_created created).
Proof using Type.
  intros He Ht Ha. unfold register, mbind, Handler_bind, reads, when_throw.
  rewrite He. simpl. rewrite Ht, Ha. simpl.
  fold currentCount maxAllowed.
  destruct (limit_reached maxAllowed currentCount); simpl; [done|].
  unfold createAuditLog, auditLog_create. simpl.
  by destruct (auditFault db).
Qed.

Lemma admin_create_user_verdict :
  tenants db !! tenantId = Some tenant →
  email_in_use db (n_email data) = false →
  (admin_create_user bcrypt_hash newId tenantId data db).2
  = if limit_reached maxAllowed currentCount
    then Throw (AppError ("Limite de contas " +:+ account_name (n_accountType data) +:+
                          " atingido. Máximo: " +:+ pretty maxAllowed) 403)
    else Ok (user_created created).
Proof using Type.
  intros Ht He. unfold admin_create_user, mbind, Handler_bind, reads, when_throw.
  rewrite Ht. simpl. fold currentCount maxAllowed.
  destruct (limit_reached maxAllowed currentCount); simpl; [done|].
  by rewrite He.
Qed.

End AccountQuota.

(** C5. Every quota check (the [checkAccountLimits] middleware, and the
    per-tier account checks of [/register] and of the administrative user
    creation) allows whatever the count when the applicable limit is -1;
    with any other limit it denies (403) exactly when the count is at or
    above the limit and allows when the count is strictly below. *)
Theorem quota_unlimited_or_count_below_limit
    (r : ResourceType) (db : Store) (req : Request) (u : TokenPayload)
    (limits : Limits)
    (bcrypt_hash : string → string) (newId : string) (data : NewUser)
    (tid : string) (tenant : Tenant) :
  user req = Some u → tenantId u ≠ "" → accountType u ≠ "" →
  own_property ACCOUNT_LIMITS (accountType u) = Some limits →
  email_in_use db (n_email data) = false →
  tenants db !! tid = Some tenant →
  t_isActive tenant = true →
  let count := usage_of r db (tenantId u) in
  let max := limit_of r limits in
  let accounts := count_users db tid (n_accountType data) in
  let capacity := max_accounts tenant (n_accountType data) in
  let created :=
    mkUser newId (n_email data) (Some (n_name data)) (bcrypt_hash (n_password data))
           (n_accountType data) true tid None in
  (* checkAccountLimits *)
  ((max = -1 → checkAccountLimits r db req = Next req)
   ∧ (max ≠ -1 →
      (max ≤ count ↔
       checkAccountLimits r db req
       = Respond (limit_exceeded (accountType u) r count (Some max)))
      ∧ (count < max ↔ checkAccountLimits r db req = Next req))
   ∧ status (limit_exceeded (accountType u) r count (Some max)) = 403)
  (* POST /api/auth/register *)
  ∧ ((capacity = -1 →
      (register bcrypt_hash newId data tid db).2 = Ok (user_created created))
     ∧ (capacity ≠ -1 →
        (capacity ≤ accounts ↔
         ∃ message, (register bcrypt_hash newId data tid db).2
                    = Throw (AppError message 403))
        ∧ (accounts < capacity ↔
           (register bcrypt_hash newId data tid db).2 = Ok (user_created created))))
  (* POST /api/admin/tenants/:id/users *)
  ∧ ((capacity = -1 →
      (admin_create_user bcrypt_hash newId tid data db).2 = Ok (user_created created))
     ∧ (capacity ≠ -1 →
        (capacity ≤ accounts ↔
         ∃ message, (admin_create_user bcrypt_hash newId tid data db).2
                    = Throw (AppError message 403))
        ∧ (accounts < capacity ↔
           (admin_create_user bcrypt_hash newId tid data db).2
           = Ok (user_created created)))).
Proof.
  intros Hu Ht Ha Hown He Hten Hact count max accounts capacity created.
  pose proof (checkAccountLimits_verdict r db req u limits Hu Ht Ha Hown) as Hmw.
  pose proof (register_verdict bcrypt_hash newId data tid db tenant He Hten Hact) as Hreg.
  pose proof (admin_create_user_verdict bcrypt_hash newId data tid db tenant Hten He) as Hadm.
  fold count max in Hmw. fold accounts capacity created in Hreg, Hadm.
  split; [|split].
  - split; [|split].
    + intros Hm. rewrite Hmw, Hm. reflexivity.
    + intros Hm. rewrite Hmw, (limit_reached_finite _ _ Hm).
      case_bool_decide; split; split; intros; try done; lia.
    + reflexivity.
  - split.
    + intros Hm. rewrite Hreg, Hm. reflexivity.
    + intros Hm. rewrite Hreg, (limit_reached_finite _ _ Hm).
      case_bool_decide; (split; split); try done; try lia.
      * by eexists.
      * by intros [message Hthrow].
  - split.
    + intros Hm. rewrite Hadm, Hm. reflexivity.
    + intros Hm. rewrite Hadm, (limit_reached_finite _ _ Hm).
      case_bool_decide; (split; split); try done; try lia.
      * by eexists.
      * by intros [message Hthrow].
Qed.

(** ** Authentication against the store *)

Lemma jwt_verify_ok (token : Jwt) (secret : string) (now : Z) (claims : Claims) :
  jwt_verify token secret now = Ok claims →
  ∃ iat exp, token = Signed secret claims iat exp ∧ now `div` 1000 < exp.
Proof.
  destruct token as [raw|key c iat exp]; simpl; [done|].
  case_bool_decide; simpl; [|done].
  case_bool_decide; [done|]. intros [= ->]. subst key.
  exists iat, exp. split; [done|lia].
Qed.


(** Once the token verifies and names a stored user, what is left of
    [authenticateToken] reads only that user's row and its tenant. *)
Lemma authenticate_body_identified (env : Env) (db : Store) (now : Z) (req : Request)
    (tok : Jwt) (claims : Claims) (U : User) :
  bearer_token req = Some tok →
  jwt_verify tok (access_secret env) now = Ok claims →
  user_findUnique db (c_userId claims) = Ok (Some U) →
  authenticate_body env db now req
  = (throw_if (negb (u_isActive U)) (AppError "Usuário não encontrado ou inativo" 401);;
     tenant ← user_tenant db U;
     throw_if (negb (t_isActive tenant)) (AppError "Empresa inativa" 403);;
     throw_if (tenant_expired tenant now) (AppError "Plano da empresa expirou" 403);;
     Ok (with_user (req_user U) req)).
Proof.
  intros Hb Hv HU. unfold authenticate_body. rewrite Hb.
  destruct (jwt_verify_ok _ _ _ _ Hv) as (iat & exp & -> & _).
  cbn [no_token throw_if default from_option id mbind Result_bind]. rewrite Hv.
  cbn [mbind Result_bind]. by rewrite HU.
Qed.

Lemma app_error_forwarded (env : Env) (db : Store) (now : Z) (req : Request)
    (message : string) (statusCode : Z) :
  authenticate_body env db now req = Throw (AppError message statusCode) →
  authenticateToken env db now req = NextErr (AppError message statusCode).
Proof. intros H. unfold authenticateToken. by rewrite H. Qed.

(** C4. Tenant state is read from the store on each request: with a token
    that still verifies for a stored, active principal, a tenant whose
    active flag is false in the store makes the request end in 403
    "Empresa inativa" on every protected route, whatever the token's
    claims say. *)
Theorem inactive_tenant_denied_on_next_request
    (env : Env) (db : Store) (now : Z) (req : Request)
    (tok : Jwt) (claims : Claims) (U : User) (T : Tenant) :
  bearer_token req = Some tok →
  jwt_verify tok (access_secret env) now = Ok claims →
  user_findUnique db (c_userId claims) = Ok (Some U) →
  u_isActive U = true →
  tenants db !! u_tenantId U = Some T →
  t_isActive T = false →
  authenticateToken env db now req = NextErr (AppError "Empresa inativa" 403)
  ∧ (∀ requiredModule handler,
       tenant_route env requiredModule handler now req db
       = (db, app_error_response "Empresa inativa" 403))
  ∧ (∀ requiredModule resourceType handler,
       tenant_create_route env requiredModule resourceType handler now req db
       = (db, app_error_response "Empresa inativa" 403))
  ∧ (∀ handler,
       upload_route env handler now req db
       = (db, app_error_response "Empresa inativa" 403))
  ∧ status (app_error_response "Empresa inativa" 403) = 403.
Proof.
  intros Hb Hv HU Hact HT Hoff.
  assert (Hauth : authenticateToken env db now req
                  = NextErr (AppError "Empresa inativa" 403)).
  { apply app_error_forwarded.
    rewrite (authenticate_body_identified env db now req tok claims U Hb Hv HU).
    unfold user_tenant. rewrite Hact, HT. simpl. by rewrite Hoff. }
  split; [done|].
  unfold tenant_route, tenant_create_route, upload_route, protect.
  rewrite Hauth. simpl. done.
Qed.

(** A token issued while Acme was active, Acme deactivated afterwards,
    and a request one hour into the token's life. *)
Lemma inactive_tenant_denied_on_next_request_witness :
  let tok := sign_access Fixture.env0 Fixture.alice 0 in
  let db1 := set_tenants (insert "t1" (deactivate_tenant Fixture.acme)) Fixture.db0 in
  authenticateToken Fixture.env0 Fixture.db0 3600000 (Fixture.bearer tok)
  = Next (with_user (req_user Fixture.alice) (Fixture.bearer tok))
  ∧ (tenant_route Fixture.env0 "clients" Fixture.ok_handler 3600000
       (Fixture.bearer tok) db1).2
    = app_error_response "Empresa inativa" 403.
Proof.
  intros tok db1. split.
  - vm_compute. reflexivity.
  - pose proof (inactive_tenant_denied_on_next_request
                  Fixture.env0 db1 3600000 (Fixture.bearer tok) tok
                  (mkClaims (Some "u1") (Some "t1") (Some "SIMPLE") None) Fixture.alice
                  (deactivate_tenant Fixture.acme)) as H.
    destruct H as (_ & Hroute & _).
    + reflexivity.
    + reflexivity.
    + reflexivity.
    + reflexivity.
    + reflexivity.
    + reflexivity.
    + rewrite (Hroute "clients" Fixture.ok_handler). reflexivity.
Defined.

Lemma authenticateToken_next (env : Env) (db : Store) (now : Z) (req req' : Request) :
  authenticateToken env db now req = Next req' →
  authenticate_body env db now req = Ok req'.
Proof.
  unfold authenticateToken. destruct (authenticate_body env db now req) as [r|e].
  - by intros [= ->].
  - by repeat case_match.
Qed.

(** What a successful [authenticateToken] has established. *)
Lemma authenticateToken_next_identified (env : Env) (db : Store) (now : Z)
    (req req' : Request) (tok : Jwt) (claims : Claims) (U : User) :
  bearer_token req = Some tok →
  jwt_verify tok (access_secret env) now = Ok claims →
  user_findUnique db (c_userId claims) = Ok (Some U) →
  authenticateToken env db now req = Next req' →
  req' = with_user (req_user U) req
  ∧ u_isActive U = true
  ∧ ∃ T, tenants db !! u_tenantId U = Some T
         ∧ t_isActive T = true ∧ tenant_expired T now = false.
Proof.
  intros Hb Hv HU Hnext%authenticateToken_next.
  rewrite (authenticate_body_identified env db now req tok claims U Hb Hv HU) in Hnext.
  unfold user_tenant in Hnext.
  destruct (u_isActive U); [|done].
  destruct (tenants db !! u_tenantId U) as [T|]; [|done].
  simpl in Hnext.
  destruct (t_isActive T) eqn:Hact; [|done].
  destruct (tenant_expired T now) eqn:Hexp; [done|].
  simpl in Hnext. injection Hnext as <-. eauto 10.
Qed.

Lemma tenantMiddleware_next (db : Store) (now : Z) (req req' : Request) :
  tenantMiddleware db now req = Next req' →
  ∃ T, req' = with_tenant T req.
Proof.
  unfold tenantMiddleware. destruct (user req) as [u|]; [|done].
  case_bool_decide; [done|]. simpl.
  destruct (tenants db !! tenantId u) as [T|]; [|done].
  destruct (t_isActive T); [|done].
  destruct (tenant_expired T now); [done|]. simpl.
  intros [= <-]. by exists T.
Qed.

Lemma gate_on_stored_tier (requiredModule : string) (req : Request) (U : User) :
  user req = Some (req_user U) →
  checkAccountAccess requiredModule req
  = if includes (modules_of (u_accountType U)) requiredModule then Next req
    else Respond (access_denied (account_name (u_accountType U)) requiredModule
                                (modules_of (u_accountType U))).
Proof.
  intros Hu. unfold checkAccountAccess. rewrite Hu.
  destruct U as [? ? ? ? a ? ?]. simpl.
  destruct a; simpl; by destruct (includes _ _).
Qed.

(** C2, as the code has it.  The tier the gate uses is the one in the
    principal's row at the time of the request: [authenticateToken]
    replaces [req.user] by values read from the store, so the tier encoded
    in the token plays no part and a change of tier applies from the next
    request on. *)
Theorem gate_uses_stored_tier
    (env : Env) (db : Store) (now : Z) (req req' : Request)
    (tok : Jwt) (claims : Claims) (U : User) :
  bearer_token req = Some tok →
  jwt_verify tok (access_secret env) now = Ok claims →
  user_findUnique db (c_userId claims) = Ok (Some U) →
  protect env db now req = Next req' →
  user req' = Some (req_user U)
  ∧ accountType (req_user U) = account_name (u_accountType U)
  ∧ ∀ requiredModule,
      and_then (protect env db now req) (checkAccountAccess requiredModule)
      = if includes (modules_of (u_accountType U)) requiredModule then Next req'
        else Respond (access_denied (account_name (u_accountType U)) requiredModule
                                    (modules_of (u_accountType U))).
Proof.
  intros Hb Hv HU Hprot.
  assert (Huser : user req' = Some (req_user U)).
  { unfold protect in Hprot.
    destruct (authenticateToken env db now req) as [r1| |] eqn:Hauth; try done.
    destruct (authenticateToken_next_identified env db now req r1 tok claims U
                Hb Hv HU Hauth) as (-> & _).
    simpl in Hprot. apply tenantMiddleware_next in Hprot as [T ->]. done. }
  split; [done|]. split; [done|].
  intros requiredModule. rewrite Hprot. simpl.
  by apply gate_on_stored_tier.
Qed.

(** Alice's token says SIMPLE; her row says COMPOSITE by the time of the
    request; the gate lets [cash_flow] through. *)
Lemma gate_uses_stored_tier_witness :
  let tok := sign_access Fixture.env0 Fixture.alice 0 in
  let db1 := set_users (insert "u1" (change_tier COMPOSITE Fixture.alice)) Fixture.db0 in
  let req' := with_tenant Fixture.acme
                (with_user (req_user (change_tier COMPOSITE Fixture.alice))
                           (Fixture.bearer tok)) in
  and_then (protect Fixture.env0 db1 3600000 (Fixture.bearer tok))
           (checkAccountAccess "cash_flow")
  = Next req'
  ∧ (accountType <$> user req') = Some "COMPOSITE".
Proof.
  intros tok db1 req'.
  destruct (gate_uses_stored_tier Fixture.env0 db1 3600000 (Fixture.bearer tok) req' tok
              (mkClaims (Some "u1") (Some "t1") (Some "SIMPLE") None)
              (change_tier COMPOSITE Fixture.alice))
    as (Hu & _ & Hgate).
  - reflexivity.
  - reflexivity.
  - reflexivity.
  - vm_compute. reflexivity.
  - split.
    + rewrite (Hgate "cash_flow"). reflexivity.
    + rewrite Hu. reflexivity.
Defined.

(** C2 as stated fails: the token carries SIMPLE, for which the gate
    refuses [cash_flow], yet the request passes because the row read at
    request time says COMPOSITE. *)
Lemma token_tier_is_not_what_the_gate_uses :
  let tok := sign_access Fixture.env0 Fixture.alice 0 in
  let db1 := set_users (insert "u1" (change_tier COMPOSITE Fixture.alice)) Fixture.db0 in
  jwt_verify tok (access_secret Fixture.env0) 3600000
  = Ok (mkClaims (Some "u1") (Some "t1") (Some "SIMPLE") None)
  ∧ (∃ r, checkAccountAccess "cash_flow"
            (Fixture.as_user (mkTokenPayload "u1" "t1" "SIMPLE")) = Respond r
          ∧ status r = 403)
  ∧ (tenant_route Fixture.env0 "cash_flow" Fixture.ok_handler 3600000
       (Fixture.bearer tok) db1).2
    = res_json (JObj [("ok", JBool true)]).
Proof.
  intros tok db1. split; [|split].
  - reflexivity.
  - eexists. split; reflexivity.
  - vm_compute. reflexivity.
Qed.

(** C10, as the code has it.  The gate answers 500 INTERNAL_ERROR,
    without calling [next], exactly when [req.user.accountType] is none of
    the three tier names: the lookup of the module list then throws and
    the middleware's own catch answers.  For a request that came through
    the authentication chain that member is the tier of the principal's
    stored row, whatever the [accountType] claim of the token says, so it
    is one of the three names and the gate never gives this answer: a
    token whose claim is any other string is gated by the stored tier. *)
Theorem unknown_tier_is_internal_error
    (requiredModule : string) (req : Request) (u : TokenPayload) :
  user req = Some u →
  (accountType u ∉ ["SIMPLE"; "COMPOSITE"; "MANAGERIAL"]
   ↔ checkAccountAccess requiredModule req = Respond internal_error)
  ∧ (accountType u ∉ ["SIMPLE"; "COMPOSITE"; "MANAGERIAL"] →
     ∀ req', checkAccountAccess requiredModule req ≠ Next req')
  ∧ status internal_error = 500
  ∧ body_field "code" internal_error = Some (JStr "INTERNAL_ERROR")
  ∧ (∀ env db now req0 tok claims U,
       bearer_token req0 = Some tok →
       jwt_verify tok (access_secret env) now = Ok claims →
       user_findUnique db (c_userId claims) = Ok (Some U) →
       protect env db now req0 = Next req →
       accountType u = account_name (u_accountType U)
       ∧ accountType u ∈ ["SIMPLE"; "COMPOSITE"; "MANAGERIAL"]
       ∧ checkAccountAccess requiredModule req
         = if includes (modules_of (u_accountType U)) requiredModule then Next req
           else Respond (access_denied (account_name (u_accountType U)) requiredModule
                                       (modules_of (u_accountType U)))).
Proof.
  intros Hu.
  assert (Hgate : accountType u ∉ ["SIMPLE"; "COMPOSITE"; "MANAGERIAL"] →
                  checkAccountAccess requiredModule req = Respond internal_error).
  { intros Hnot. unfold checkAccountAccess, js_get. rewrite Hu.
    destruct (own_property ACCOUNT_MODULES (accountType u)) as [ms|] eqn:Hown.
    - apply account_modules_keys in Hown. exfalso. apply Hnot.
      destruct Hown as [ -> | [ -> | -> ] ]; set_solver.
    - by case_bool_decide. }
  split; [|split; [|split; [done|split; [done|]]]].
  - split; [exact Hgate|].
    intros Hresp Hin. revert Hresp. unfold checkAccountAccess. rewrite Hu.
    apply list_elem_of_In in Hin. simpl in Hin.
    destruct Hin as [<-|[<-|[<-|[]]]]; simpl; by destruct (includes _ _).
  - intros Hnot req'. by rewrite (Hgate Hnot).
  - intros env db now req0 tok claims U Hb Hv HU Hprot.
    assert (Huser : user req = Some (req_user U)).
    { unfold protect in Hprot.
      destruct (authenticateToken env db now req0) as [r1| |] eqn:Hauth; try done.
      destruct (authenticateToken_next_identified env db now req0 r1 tok claims U
                  Hb Hv HU Hauth) as (-> & _).
      simpl in Hprot. apply tenantMiddleware_next in Hprot as [T ->]. done. }
    assert (u = req_user U) as -> by congruence.
    split; [done|]. split.
    + cbn [accountType req_user]. destruct (u_accountType U); set_solver.
    + by apply gate_on_stored_tier.
Qed.

(** A request whose [req.user] names a tier the table does not have. *)
Lemma unknown_tier_is_internal_error_witness :
  checkAccountAccess "clients"
    (Fixture.as_user (mkTokenPayload "u1" "t1" "constructor")) = Respond internal_error
  ∧ status internal_error = 500
  ∧ body_field "code" internal_error = Some (JStr "INTERNAL_ERROR")
  ∧ (∀ req', checkAccountAccess "clients"
               (Fixture.as_user (mkTokenPayload "u1" "t1" "constructor")) ≠ Next req').
Proof.
  assert (Hnot : "constructor" ∉ ["SIMPLE"; "COMPOSITE"; "MANAGERIAL"]).
  { apply (bool_decide_unpack _). vm_compute. exact I. }
  destruct (unknown_tier_is_internal_error "clients"
              (Fixture.as_user (mkTokenPayload "u1" "t1" "constructor"))
              (mkTokenPayload "u1" "t1" "constructor") eq_refl)
    as (Hiff & Hnever & Hstatus & Hcode & _).
  split; [exact (proj1 Hiff Hnot)|]. split; [exact Hstatus|]. split; [exact Hcode|].
  exact (Hnever Hnot).
Defined.

(** C10 as stated fails: Alice's token carries the [accountType] claim
    "GOLD", which is none of the three tier names; the request is
    authenticated, the gate reads SIMPLE from her row, calls [next] and
    the handler answers 200. *)
Lemma token_with_unknown_tier_claim_passes_the_gate :
  let claims := mkClaims (Some "u1") (Some "t1") (Some "GOLD") None in
  let tok := jwt_sign claims (access_secret Fixture.env0) (hours 24) 0 in
  let req := Fixture.bearer tok in
  jwt_verify tok (access_secret Fixture.env0) 3600000 = Ok claims
  ∧ c_accountType claims = Some "GOLD"
  ∧ ("GOLD" ∉ ["SIMPLE"; "COMPOSITE"; "MANAGERIAL"])
  ∧ and_then (protect Fixture.env0 Fixture.db0 3600000 req) (checkAccountAccess "clients")
    = Next (with_tenant Fixture.acme (with_user (req_user Fixture.alice) req))
  ∧ tenant_route Fixture.env0 "clients" Fixture.ok_handler 3600000 req Fixture.db0
    = (Fixture.db0, res_json (JObj [("ok", JBool true)]))
  ∧ status (tenant_route Fixture.env0 "clients" Fixture.ok_handler 3600000 req
              Fixture.db0).2 = 200.
Proof.
  intros claims tok req. repeat split; try (vm_compute; reflexivity).
  apply (bool_decide_unpack _). vm_compute. exact I.
Qed.

(** ** The tenant validator's three refusals *)

(** C7, as the code has it.  A tenant id with no record is refused with
    404 "Empresa não encontrada"; an inactive tenant and an expired one
    are refused with 403, each under its own message. *)
Theorem missing_tenant_is_404
    (env : Env) (db : Store) (now : Z) (req : Request) (u : TokenPayload)
    (handler : Request → Handler Response) :
  user req = Some u →
  tenantId u ≠ "" →
  (tenants db !! tenantId u = None →
   tenantMiddleware db now req = NextErr (AppError "Empresa não encontrada" 404)
   ∧ serve env (tenantMiddleware db now req) handler db
     = (db, app_error_response "Empresa não encontrada" 404)
   ∧ status (app_error_response "Empresa não encontrada" 404) = 404)
  ∧ (∀ T, tenants db !! tenantId u = Some T → t_isActive T = false →
          serve env (tenantMiddleware db now req) handler db
          = (db, app_error_response "Empresa inativa" 403))
  ∧ (∀ T, tenants db !! tenantId u = Some T → t_isActive T = true →
          tenant_expired T now = true →
          serve env (tenantMiddleware db now req) handler db
          = (db, app_error_response "Plano da empresa expirou" 403)).
Proof.
  intros Hu Hid. unfold tenantMiddleware. rewrite Hu.
  rewrite (bool_decide_eq_false_2 _ Hid). simpl.
  split; [|split].
  - intros ->. done.
  - intros T -> ->. done.
  - intros T -> -> ->. done.
Qed.

Lemma missing_tenant_is_404_witness :
  let req := Fixture.as_user (mkTokenPayload "u9" "t9" "SIMPLE") in
  serve Fixture.env0 (tenantMiddleware Fixture.db0 0 req) Fixture.ok_handler Fixture.db0
  = (Fixture.db0, app_error_response "Empresa não encontrada" 404).
Proof.
  intros req.
  destruct (missing_tenant_is_404 Fixture.env0 Fixture.db0 0 req
              (mkTokenPayload "u9" "t9" "SIMPLE") Fixture.ok_handler)
    as (Hmissing & _).
  - reflexivity.
  - apply (bool_decide_unpack _). vm_compute. exact I.
  - destruct Hmissing as (_ & Hserve & _); [reflexivity|]. exact Hserve.
Defined.

(** C7 as stated fails: the status for a missing tenant is 404, not 403. *)
Lemma missing_tenant_is_not_403 :
  let req := Fixture.as_user (mkTokenPayload "u9" "t9" "SIMPLE") in
  tenants Fixture.db0 !! "t9" = None
  ∧ status (serve Fixture.env0 (tenantMiddleware Fixture.db0 0 req)
                  Fixture.ok_handler Fixture.db0).2 = 404
  ∧ status (serve Fixture.env0 (tenantMiddleware Fixture.db0 0 req)
                  Fixture.ok_handler Fixture.db0).2 ≠ 403.
Proof.
  intros req. split; [|split].
  - reflexivity.
  - reflexivity.
  - vm_compute. discriminate.
Qed.

(** ** Token classes *)







(** ** The refresh operation *)

(** What a minted token presupposes: a verifying refresh-typed token, a
    stored active principal and an active tenant.  The tenant's
    [expiresAt] is not among the conditions. *)
Lemma refresh_minted_only_if (env : Env) (db : Store) (now : Z)
    (refreshToken : option Jwt) (resp : Response) :
  (refresh env now refreshToken db).2 = Ok resp →
  ∃ tok claims U T,
    refreshToken = Some tok
    ∧ jwt_verify tok (refresh_secret env) now = Ok claims
    ∧ c_type claims = Some "refresh"
    ∧ user_findUnique db (c_userId claims) = Ok (Some U) ∧ u_isActive U = true
    ∧ tenants db !! u_tenantId U = Some T ∧ t_isActive T = true
    ∧ resp = res_json (JObj [("token", JJwt (sign_access env U now))]).
Proof.
  unfold refresh. cbn [snd].
  destruct refreshToken as [tok|]; [|done].
  destruct (no_token (Some tok)) eqn:Hno; [done|].
  cbn [throw_if default from_option id mbind Result_bind].
  unfold try_catch, refresh_body.
  destruct (jwt_verify tok (refresh_secret env) now) as [claims|] eqn:Hv; [|done].
  cbn [mbind Result_bind].
  case_bool_decide as Htype; [|done]. cbn [negb throw_if mbind Result_bind].
  destruct (user_findUnique db (c_userId claims)) as [[U|]|] eqn:HU; [|done..].
  cbn [mbind Result_bind]. unfold user_tenant.
  destruct (u_isActive U) eqn:HUa; [|done]. cbn [negb throw_if mbind Result_bind].
  destruct (tenants db !! u_tenantId U) as [T|] eqn:HT; [|done].
  cbn [mbind Result_bind].
  destruct (t_isActive T) eqn:HTa; [|done]. cbn [negb throw_if mbind Result_bind].
  intros [= <-]. exists tok, claims, U, T. done.
Qed.

(** The refusal for a deactivated principal is thrown inside the [try]
    whose [catch] replaces every error, so the client is told
    "Refresh token inválido". *)
Lemma refresh_inactive_principal (env : Env) (db : Store) (now : Z)
    (tok : Jwt) (claims : Claims) (U : User) :
  jwt_verify tok (refresh_secret env) now = Ok claims →
  c_type claims = Some "refresh" →
  user_findUnique db (c_userId claims) = Ok (Some U) →
  u_isActive U = false →
  respond env (refresh env now (Some tok)) db
  = (db, app_error_response "Refresh token inválido" 401).
Proof.
  intros Hv Htype HU Hoff.
  destruct (jwt_verify_ok _ _ _ _ Hv) as (iat & exp & -> & _).
  unfold respond, refresh, refresh_body, try_catch.
  cbn [no_token throw_if default from_option id mbind Result_bind].
  rewrite Hv. cbn [mbind Result_bind].
  rewrite (bool_decide_eq_true_2 _ Htype). cbn [negb throw_if mbind Result_bind].
  rewrite HU. cbn [mbind Result_bind]. by rewrite Hoff.
Qed.

(** C3 (defect).  With a verifying refresh token, an active principal and
    an active tenant, the refresh operation mints an access token even
    when the tenant's [expiresAt] lies in the past: the field is selected
    but never compared with the clock. *)
Theorem refresh_mints_for_expired_tenant
    (env : Env) (db : Store) (now : Z) (tok : Jwt) (claims : Claims)
    (U : User) (T : Tenant) :
  jwt_verify tok (refresh_secret env) now = Ok claims →
  c_type claims = Some "refresh" →
  user_findUnique db (c_userId claims) = Ok (Some U) → u_isActive U = true →
  tenants db !! u_tenantId U = Some T → t_isActive T = true →
  tenant_expired T now = true →
  respond env (refresh env now (Some tok)) db
  = (db, res_json (JObj [("token", JJwt (sign_access env U now))])).
Proof.
  intros Hv Htype HU HUa HT HTa _.
  destruct (jwt_verify_ok _ _ _ _ Hv) as (iat & exp & -> & _).
  unfold respond, refresh, refresh_body, try_catch, user_tenant.
  cbn [no_token throw_if default from_option id mbind Result_bind].
  rewrite Hv. cbn [mbind Result_bind].
  rewrite (bool_decide_eq_true_2 _ Htype). cbn [negb throw_if mbind Result_bind].
  rewrite HU. cbn [mbind Result_bind]. rewrite HUa. cbn [negb throw_if mbind Result_bind].
  rewrite HT. cbn [mbind Result_bind]. by rewrite HTa.
Qed.

(** Acme's plan ran out at clock 1000; an hour later Alice's refresh
    token still buys a fresh access token, while the same clock makes
    [authenticateToken] refuse her access token. *)
Lemma refresh_mints_for_expired_tenant_witness :
  let db1 := set_tenants (insert "t1" (expire_tenant 1000 Fixture.acme)) Fixture.db0 in
  let tok := sign_refresh Fixture.env0 Fixture.alice 0 in
  (respond Fixture.env0 (refresh Fixture.env0 3600000 (Some tok)) db1).2
  = res_json (JObj [("token", JJwt (sign_access Fixture.env0 Fixture.alice 3600000))])
  ∧ authenticateToken Fixture.env0 db1 3600000
      (Fixture.bearer (sign_access Fixture.env0 Fixture.alice 0))
    = NextErr (AppError "Plano da empresa expirou" 403).
Proof.
  intros db1 tok. split.
  - rewrite (refresh_mints_for_expired_tenant Fixture.env0 db1 3600000 tok
               (mkClaims (Some "u1") (Some "t1") None (Some "refresh")) Fixture.alice
               (expire_tenant 1000 Fixture.acme));
      reflexivity.
  - vm_compute. reflexivity.
Defined.

(** ** Audit writes *)

(** [createAuditLog] never throws and leaves every table but the audit
    log as it was. *)
Lemma createAuditLog_swallows (userId tenantId action resourceType resourceId : string)
    (details : option Json) (db : Store) :
  ∃ db', createAuditLog userId tenantId action resourceType resourceId details db
         = (db', Ok tt)
         ∧ users db' = users db ∧ tenants db' = tenants db ∧ files db' = files db.
Proof.
  unfold createAuditLog, auditLog_create.
  destruct (auditFault db); eauto.
Qed.

(** The answer of [/register] as a function of what it reads: users and
    tenants, never the audit table. *)
Lemma register_result (bcrypt_hash : string → string) (newId : string)
    (data : NewUser) (tenantId : string) (db : Store) :
  (register bcrypt_hash newId data tenantId db).2
  = if email_in_use db (n_email data) then Throw (AppError "Email já está em uso" 409)
    else match tenants db !! tenantId with
         | None => Throw (AppError "Empresa não encontrada" 404)
         | Some tenant =>
             if negb (t_isActive tenant) then Throw (AppError "Empresa inativa" 403)
             else if limit_reached (max_accounts tenant (n_accountType data))
                                   (count_users db tenantId (n_accountType data))
             then Throw (AppError
                           ("Limite de contas " +:+ account_name (n_accountType data) +:+
                            " atingido para esta empresa. Máximo: " +:+
                            pretty (max_accounts tenant (n_accountType data))) 403)
             else Ok (user_created
                        (mkUser newId (n_email data) (Some (n_name data))
                                (bcrypt_hash (n_password data)) (n_accountType data)
                                true tenantId None))
         end.
Proof.
  unfold register, mbind, Handler_bind, reads, when_throw.
  destruct (email_in_use db (n_email data)); [done|]. simpl.
  destruct (tenants db !! tenantId) as [T|]; [|done].
  destruct (t_isActive T); [|done]. simpl.
  destruct (limit_reached _ _); [done|]. simpl.
  unfold createAuditLog, auditLog_create. simpl.
  by destruct (auditFault db).
Qed.

(** [/register] goes through [createAuditLog]: its answer is the same
    whether or not the audit table accepts the write. *)
Lemma register_unaffected_by_audit_failure (env : Env)
    (bcrypt_hash : string → string) (newId : string) (data : NewUser)
    (tenantId : string) (db : Store) (e : Thrown) :
  (respond env (register bcrypt_hash newId data tenantId) (set_auditFault (Some e) db)).2
  = (respond env (register bcrypt_hash newId data tenantId) (set_auditFault None db)).2.
Proof.
  unfold respond.
  pose proof (register_result bcrypt_hash newId data tenantId
                (set_auditFault (Some e) db)) as Hfail.
  pose proof (register_result bcrypt_hash newId data tenantId
                (set_auditFault None db)) as Hok.
  destruct (register _ _ _ _ (set_auditFault (Some e) db)) as [db1 r1].
  destruct (register _ _ _ _ (set_auditFault None db)) as [db2 r2].
  simpl in *. by rewrite Hfail, Hok.
Qed.

(** C9 (defect).  [/upload/single] writes its audit row with
    [prisma.auditLog.create] directly: when that write fails, the file row
    is already stored and the client receives the error handler's
    rendering of the failure instead of the success body. *)
Theorem upload_answer_depends_on_audit_write
    (env : Env) (newId : string) (now : Z) (req : Request) (u : TokenPayload)
    (file : Upload) (db : Store) (e : Thrown) :
  user req = Some u →
  let fileRecord :=
    mkFile newId (up_filename file) (up_originalname file) (up_mimetype file)
           (up_size file) (up_path file) (tenantId u) (userId u) now in
  respond env (upload_single newId now req (Some file)) (set_auditFault (Some e) db)
  = (set_files (λ fs, fs ++ [fileRecord]) (set_auditFault (Some e) db),
     errorHandler env e)
  ∧ status (respond env (upload_single newId now req (Some file))
                    (set_auditFault None db)).2 = 200.
Proof.
  intros Hu fileRecord.
  unfold respond, upload_single, the_user, mbind, Handler_bind, lift, writes,
    auditLog_create.
  rewrite Hu. done.
Qed.

Lemma upload_answer_depends_on_audit_write_witness :
  let fault := OtherError "PrismaClientInitializationError" None None
                          "Can't reach database server" "" in
  let req := Fixture.as_user (req_user Fixture.alice) in
  let file := mkUpload "file-3.pdf" "memo.pdf" "application/pdf" 300
                       "/srv/uploads/t1/file-3.pdf" in
  status (respond Fixture.env0 (upload_single "f3" 30 req (Some file))
                  (set_auditFault (Some fault) Fixture.db0)).2 = 500
  ∧ status (respond Fixture.env0 (upload_single "f3" 30 req (Some file))
                    (set_auditFault None Fixture.db0)).2 = 200.
Proof.
  intros fault req file.
  destruct (upload_answer_depends_on_audit_write Fixture.env0 "f3" 30 req
              (req_user Fixture.alice) file Fixture.db0 fault) as (Hfail & Hok).
  - reflexivity.
  - split; [|exact Hok]. rewrite Hfail. reflexivity.
Defined.

(** ** Reads stay inside the caller's tenant *)

Lemma file_findFirst_some (db : Store) (id tenantId : string) (f : File) :
  file_findFirst db id tenantId = Some f →
  f ∈ files db ∧ f_id f = id ∧ f_tenantId f = tenantId.
Proof.
  unfold file_findFirst. intros [Hin Hm]%List.find_some.
  apply andb_prop in Hm as [Hid Hten].
  apply bool_decide_eq_true_1 in Hid, Hten.
  split; [by apply list_elem_of_In|done].
Qed.

Lemma files_where_tenant (tenantId : string) (type : option string) (f : File) :
  files_where tenantId type f = true → f_tenantId f = tenantId.
Proof.
  unfold files_where. intros [H _]%andb_prop. by apply bool_decide_eq_true_1 in H.
Qed.

Lemma header_value_ok_app (a b : string) :
  header_value_ok (a +:+ b) = header_value_ok a && header_value_ok b.
Proof.
  induction a as [|c a IH]; simpl; [done|]. rewrite IH. by rewrite andb_assoc.
Qed.

(** The quoting around the file name adds no character Node refuses. *)
Lemma content_disposition_ok (originalName : string) :
  header_value_ok (content_disposition originalName) = header_value_ok originalName.
Proof.
  unfold content_disposition. rewrite !header_value_ok_app.
  replace (header_value_ok "inline; filename=") with true by (vm_compute; reflexivity).
  replace (header_value_ok dquote) with true by (vm_compute; reflexivity).
  by rewrite andb_true_r.
Qed.

Lemma get_file_total (req : Request) (u : TokenPayload) (id : string) (db : Store) :
  user req = Some u →
  get_file req id db
  = (db, match file_findFirst db id (tenantId u) with
         | None => Ok not_found_in_db
         | Some file =>
             if negb (bool_decide (f_path file ∈ disk db)) then Ok not_found_on_disk
             else
               contentType ← setHeader "Content-Type" (f_mimetype file);
               contentDisposition ←
                 setHeader "Content-Disposition"
                           (content_disposition (f_originalName file));
               Ok (mkResponse 200 [contentType; contentDisposition]
                              (PFile (f_path file)))
         end).
Proof.
  intros Hu. unfold get_file, the_user, lift, reads, mbind at 1 2 3, Handler_bind.
  rewrite Hu. destruct (file_findFirst db id (tenantId u)) as [file|]; [|done].
  destruct (negb _); [done|].
  unfold mbind at 1 2, Handler_bind.
  destruct (setHeader "Content-Type" _) as [h1|e1]; [|done]. cbn [mbind Result_bind].
  by destruct (setHeader "Content-Disposition" _) as [h2|e2].
Qed.

(** The two handlers, for a request whose [req.user] is [u]. *)
Lemma list_files_total (order_skip_take : JsNum → JsNum → list File → Result (list File))
    (req : Request) (u : TokenPayload) (q : FilesQuery) (db : Store) :
  user req = Some u →
  list_files order_skip_take req q db
  = (db, rows ← files_rows order_skip_take db (tenantId u) q;
         Ok (files_response db rows (files_total db (tenantId u) q)
                            (default (Int 1) (q_page q))
                            (default (Int 20) (q_limit q)))).
Proof.
  intros Hu. unfold list_files, the_user, lift, reads, mbind at 1 2 3, Handler_bind.
  rewrite Hu. by destruct (files_rows order_skip_take db (tenantId u) q).
Qed.

Lemma files_rows_in_tenant
    (order_skip_take : JsNum → JsNum → list File → Result (list File))
    (db : Store) (tenantId : string) (q : FilesQuery) (rows : list File) :
  (∀ skip take rows page, order_skip_take skip take rows = Ok page → page ⊆ rows) →
  files_rows order_skip_take db tenantId q = Ok rows →
  ∀ f, f ∈ rows → f ∈ files db ∧ f_tenantId f = tenantId.
Proof.
  intros Hsub Hrows f Hf. apply Hsub in Hrows. apply Hrows in Hf.
  apply list_elem_of_In, List.filter_In in Hf as [Hin Hw].
  split; [by apply list_elem_of_In|by eapply files_where_tenant].
Qed.

Lemma files_total_le (db : Store) (tenantId : string) (q : FilesQuery) :
  files_total db tenantId q
  ≤ Z.of_nat (length (filter (λ f, f_tenantId f = tenantId) (files db))).
Proof.
  unfold files_total. apply inj_le.
  induction (files db) as [|f fs IH]; simpl; [done|].
  rewrite filter_cons. unfold files_where at 1.
  case_bool_decide as Hten; simpl.
  - rewrite decide_True by done.
    match goal with |- context [if ?b then _ :: _ else _] => destruct b end;
      simpl; lia.
  - rewrite decide_False by done. done.
Qed.

(** A request that got through the middleware of [/api/upload] carries a
    token that verifies and names a stored user, and runs as that user. *)
Lemma authenticateToken_next_inv (env : Env) (db : Store) (now : Z)
    (req req' : Request) :
  authenticateToken env db now req = Next req' →
  ∃ tok claims U,
    bearer_token req = Some tok
    ∧ jwt_verify tok (access_secret env) now = Ok claims
    ∧ user_findUnique db (c_userId claims) = Ok (Some U)
    ∧ req' = with_user (req_user U) req.
Proof.
  intros Hnext. pose proof (authenticateToken_next _ _ _ _ _ Hnext) as Hbody.
  unfold authenticate_body in Hbody.
  destruct (bearer_token req) as [tok|] eqn:Hb; [|done].
  destruct (no_token (Some tok)); [done|].
  cbn [throw_if default from_option id mbind Result_bind] in Hbody.
  destruct (jwt_verify tok (access_secret env) now) as [claims|] eqn:Hv; [|done].
  cbn [mbind Result_bind] in Hbody.
  destruct (user_findUnique db (c_userId claims)) as [[U|]|] eqn:HU; [|done..].
  destruct (authenticateToken_next_identified env db now req req' tok claims U
              Hb Hv HU Hnext) as (-> & _).
  by exists tok, claims, U.
Qed.

Lemma upload_pipeline_next (env : Env) (db : Store) (now : Z) (req0 req : Request) :
  and_then (protect env db now req0) (authenticateToken env db now) = Next req →
  ∃ tok claims U,
    bearer_token req0 = Some tok
    ∧ jwt_verify tok (access_secret env) now = Ok claims
    ∧ user_findUnique db (c_userId claims) = Ok (Some U)
    ∧ user req = Some (req_user U).
Proof.
  unfold protect.
  destruct (authenticateToken env db now req0) as [r1| |] eqn:H1; [|done..].
  apply authenticateToken_next_inv in H1 as (tok1 & claims1 & U1 & Hb1 & _ & _ & ->).
  cbn [and_then].
  destruct (tenantMiddleware db now _) as [r2| |] eqn:H2; [|done..].
  apply tenantMiddleware_next in H2 as [T ->]. cbn [and_then].
  intros (tok & claims & U & Hb & Hv & HU & ->)%authenticateToken_next_inv.
  by exists tok, claims, U.
Qed.

(** C1. A request admitted by the middleware of [/api/upload] carries a
    token naming a stored user [U], and the file routes answer it with
    rows of [U]'s tenant only: [/file/:id] answers one of two fixed 404
    bodies or acts on a row that has that id and [U]'s tenant id, whose
    file it sends when that row's mimetype and original name are values
    Node accepts in a header, the error handler answering in its place
    when they are not; and it answers 404 whenever the rows with that id
    belong to other tenants; [/files] renders only stored rows whose
    tenant id is [U]'s (and counts only such rows), or forwards the
    database's rejection of the paging arguments. *)
Theorem file_reads_stay_in_tenant
    (order_skip_take : JsNum → JsNum → list File → Result (list File))
    (env : Env) (db : Store) (now : Z) (req0 req : Request)
    (id : string) (q : FilesQuery) :
  and_then (protect env db now req0) (authenticateToken env db now) = Next req →
  (∀ skip take rows page, order_skip_take skip take rows = Ok page → page ⊆ rows) →
  ∃ tok claims U,
    bearer_token req0 = Some tok
    ∧ jwt_verify tok (access_secret env) now = Ok claims
    ∧ user_findUnique db (c_userId claims) = Ok (Some U)
    ∧ (∃ resp, upload_route env (λ r, get_file r id) now req0 db = (db, resp)
               ∧ (resp = not_found_in_db ∨ resp = not_found_on_disk
                  ∨ ∃ f, f ∈ files db ∧ f_id f = id ∧ f_tenantId f = u_tenantId U
                         ∧ if header_value_ok (f_mimetype f)
                              && header_value_ok (f_originalName f)
                           then payload resp = PFile (f_path f)
                           else ∃ name, resp = errorHandler env (invalid_header_char name)))
    ∧ ((∀ f, f ∈ files db → f_id f = id → f_tenantId f ≠ u_tenantId U) →
       upload_route env (λ r, get_file r id) now req0 db = (db, not_found_in_db)
       ∧ status not_found_in_db = 404)
    ∧ match files_rows order_skip_take db (u_tenantId U) q with
      | Ok rows =>
          upload_route env (λ r, list_files order_skip_take r q) now req0 db
          = (db, files_response db rows (files_total db (u_tenantId U) q)
                                (default (Int 1) (q_page q))
                                (default (Int 20) (q_limit q)))
          ∧ (∀ f, f ∈ rows → f ∈ files db ∧ f_tenantId f = u_tenantId U)
          ∧ files_total db (u_tenantId U) q
            ≤ Z.of_nat (length (filter (λ f, f_tenantId f = u_tenantId U) (files db)))
      | Throw e =>
          upload_route env (λ r, list_files order_skip_take r q) now req0 db
          = (db, errorHandler env e)
      end.
Proof.
  intros Hpipe Hsub.
  destruct (upload_pipeline_next env db now req0 req Hpipe)
    as (tok & claims & U & Hb & Hv & HU & Hu).
  exists tok, claims, U. do 3 (split; [done|]).
  unfold upload_route. rewrite Hpipe. unfold serve, respond.
  rewrite (get_file_total req (req_user U) id db Hu),
          (list_files_total order_skip_take req (req_user U) q db Hu).
  cbn [req_user tenantId asyncHandler].
  split; [|split].
  - eexists. split; [reflexivity|].
    destruct (file_findFirst db id (u_tenantId U)) as [file|] eqn:Hfind; [|by left].
    destruct (negb _); [by right; left|]. right; right.
    exists file. apply file_findFirst_some in Hfind as (? & ? & ?).
    do 3 (split; [done|]). unfold setHeader. rewrite content_disposition_ok.
    destruct (header_value_ok (f_mimetype file)); cbn [mbind Result_bind asyncHandler andb];
      [|by eexists].
    destruct (header_value_ok (f_originalName file));
      cbn [mbind Result_bind asyncHandler]; [done|by eexists].
  - intros Hother.
    destruct (file_findFirst db id (u_tenantId U)) as [file|] eqn:Hfind; [|done].
    apply file_findFirst_some in Hfind as (Hin & Hid & Hten).
    by destruct (Hother file Hin Hid).
  - destruct (files_rows order_skip_take db (u_tenantId U) q) as [rows|e] eqn:Hrows;
      [|done].
    split; [done|]. split.
    + by eapply files_rows_in_tenant.
    + apply files_total_le.
Qed.

Lemma insert_desc_elem (f x : File) (l : list File) :
  x ∈ Fixture.insert_desc f l → x = f ∨ x ∈ l.
Proof.
  induction l as [|g l IH]; simpl.
  - intros ->%list_elem_of_singleton. by left.
  - case_bool_decide; intros Hx.
    + apply elem_of_cons in Hx as [->|Hx]; [by left|by right].
    + apply elem_of_cons in Hx as [->|Hx]; [right; left|].
      destruct (IH Hx) as [->|Hin]; [by left|right; by right].
Qed.

Lemma window_rows (skip take : JsNum) (rows page : list File) :
  Fixture.window skip take rows = Ok page → page ⊆ rows.
Proof.
  unfold Fixture.window. destruct skip as [|s], take as [|t]; try done.
  destruct (_ || _); [done|]. intros [= <-] x Hx.
  apply subseteq_take, subseteq_drop in Hx.
  induction rows as [|f rows IH]; simpl in Hx; [done|].
  apply insert_desc_elem in Hx as [->|Hx]; [left|right; by apply IH].
Qed.

(** Alice (Acme) asks for Globex's ledger by id and then lists files. *)
Lemma file_reads_stay_in_tenant_witness :
  let req0 := Fixture.bearer (sign_access Fixture.env0 Fixture.alice 0) in
  let q := mkFilesQuery None None None in
  upload_route Fixture.env0 (λ r, get_file r "f2") 3600000 req0 Fixture.db0
  = (Fixture.db0, not_found_in_db)
  ∧ upload_route Fixture.env0 (λ r, list_files Fixture.window r q) 3600000 req0 Fixture.db0
    = (Fixture.db0, files_response Fixture.db0 [Fixture.brief] 1 (Int 1) (Int 20)).
Proof.
  intros req0 q.
  destruct (file_reads_stay_in_tenant Fixture.window Fixture.env0 Fixture.db0 3600000
              req0 (with_user (req_user Fixture.alice)
                      (with_tenant Fixture.acme
                         (with_user (req_user Fixture.alice) req0)))
              "f2" q)
    as (tok & claims & U & Hb & Hv & HU & _ & Hother & Hlist).
  - vm_compute. reflexivity.
  - exact window_rows.
  - injection Hb as <-. injection Hv as <-. injection HU as <-.
    split.
    + apply Hother. intros f Hf Hid.
      apply list_elem_of_In in Hf. simpl in Hf.
      destruct Hf as [<-|[<-|[]]]; [discriminate Hid|discriminate].
    + exact (proj1 Hlist).
Defined.

(** Acme allows two SIMPLE accounts; with Alice and Carol in place a
    third SIMPLE registration is refused, while Alice, below the client
    limit of her tier, may create a client. *)
Lemma quota_unlimited_or_count_below_limit_witness :
  let carol := mkUser "u3" "carol@acme.test" (Some "Carol") "h3" SIMPLE true "t1" None in
  let db1 := set_users (insert "u3" carol) Fixture.db0 in
  let req := Fixture.as_user (req_user Fixture.alice) in
  let dave := mkNewUser "dave@acme.test" "secret1" "Dave" SIMPLE in
  checkAccountLimits RClients db1 req = Next req
  ∧ ∃ message, (register (λ p, p) "u4" dave "t1" db1).2 = Throw (AppError message 403).
Proof.
  intros carol db1 req dave.
  destruct (quota_unlimited_or_count_below_limit RClients db1 req
              (req_user Fixture.alice) (mkLimits 50 25 (1024 * 1024 * 100)
                 [("dashboard_financial", false); ("cash_flow", false);
                  ("user_management", false); ("advanced_reports", false)])
              (λ p, p) "u4" dave "t1" Fixture.acme)
    as ((_ & Hcount & _) & (_ & Hreg) & _).
  - reflexivity.
  - apply (bool_decide_unpack _). vm_compute. exact I.
  - apply (bool_decide_unpack _). vm_compute. exact I.
  - reflexivity.
  - vm_compute. reflexivity.
  - reflexivity.
  - reflexivity.
  - split.
    + apply Hcount; [discriminate|]. vm_compute. reflexivity.
    + apply Hreg; [discriminate|]. vm_compute. discriminate.
Defined.

(** ** End-to-end scenarios *)

(** A SIMPLE principal of an active tenant asks for a [cash_flow] route. *)
Example simple_tier_asks_for_cash_flow :
  let tok := sign_access Fixture.env0 Fixture.alice 0 in
  let resp := (tenant_route Fixture.env0 "cash_flow" Fixture.ok_handler 3600000
                 (Fixture.bearer tok) Fixture.db0).2 in
  status resp = 403
  ∧ body_field "code" resp = Some (JStr "ACCOUNT_ACCESS_DENIED")
  ∧ body_field "suggestedAccounts" resp = Some (jstrs ["COMPOSITE"; "MANAGERIAL"]).
Proof. repeat split; vm_compute; reflexivity. Qed.

(** A MANAGERIAL principal of a tenant whose plan ran out is refused on
    any route, whatever the module. *)
Example managerial_tier_expired_tenant :
  let tok := sign_access Fixture.env0 Fixture.bob 0 in
  let db1 := set_tenants (insert "t2" (expire_tenant 1000 Fixture.globex)) Fixture.db0 in
  (tenant_route Fixture.env0 "audit_logs" Fixture.ok_handler 3600000
     (Fixture.bearer tok) db1).2
  = app_error_response "Plano da empresa expirou" 403.
Proof. vm_compute. reflexivity. Qed.

(** A deactivated principal's refresh token is refused, under the
    generic message of the route's catch-all. *)
Example deactivated_principal_refresh :
  let tok := sign_refresh Fixture.env0 Fixture.alice 0 in
  let db1 := set_users (insert "u1" (deactivate_user Fixture.alice)) Fixture.db0 in
  (respond Fixture.env0 (refresh Fixture.env0 3600000 (Some tok)) db1).2
  = app_error_response "Refresh token inválido" 401.
Proof. vm_compute. reflexivity. Qed.


(** * Further properties of the modelled code *)

(** ** The error handler *)

(** X1. The error handler always marks the body as an error; an
    [AppError] is answered with its own status code and message, a Zod
    error with 400, and any other error with 400, 401, 404, 409 or 500,
    never with a success status. *)
Theorem errorHandler_status (env : Env) (e : Thrown) :
  body_field "status" (errorHandler env e) = Some (JStr "error")
  ∧ match e with
    | AppError message statusCode =>
        status (errorHandler env e) = statusCode
        ∧ body_field "message" (errorHandler env e) = Some (JStr message)
    | ZodError _ => status (errorHandler env e) = 400
    | OtherError _ _ _ _ _ => status (errorHandler env e) ∈ [400; 401; 404; 409; 500]
    end.
Proof.
  destruct e as [message statusCode|issues|name code target message stack];
    [done|done|].
  unfold errorHandler.
  repeat case_match; simpl; (split; [done|set_solver]).
Qed.

(** X2. Outside development mode the answer to an error that is neither
    an [AppError] nor a Zod error never carries the error's message or
    stack: there is no [details] and no [stack] member, and the message
    is one of six fixed texts. *)
Theorem errorHandler_hides_internals
    (env : Env) (name : string) (code target : option string) (message stack : string) :
  NODE_ENV env ≠ Some "development" →
  let r := errorHandler env (OtherError name code target message stack) in
  body_field "details" r = None
  ∧ body_field "stack" r = None
  ∧ ∃ m, m ∈ handler_messages ∧ body_field "message" r = Some (JStr m).
Proof.
  intros Hdev r. subst r. unfold errorHandler.
  rewrite (bool_decide_eq_false_2 _ Hdev).
  repeat case_match; simpl; (split; [done|split; [done|]]);
    eexists; (split; [|reflexivity]); unfold handler_messages; set_solver.
Qed.

Lemma errorHandler_hides_internals_witness :
  let r := errorHandler Fixture.env0
             (OtherError "TypeError" None None "Cannot read properties of undefined"
                         "at get_file (upload.routes.ts)") in
  body_field "details" r = None
  ∧ body_field "stack" r = None
  ∧ ∃ m, m ∈ handler_messages ∧ body_field "message" r = Some (JStr m).
Proof.
  apply (errorHandler_hides_internals Fixture.env0 "TypeError" None None
           "Cannot read properties of undefined" "at get_file (upload.routes.ts)").
  discriminate.
Defined.

(** ** The administrative key *)

(** X3. [requireAdmin] lets a request through exactly when the
    [x-admin-key] header is a non-empty string equal to the configured
    [ADMIN_KEY]; every other request is refused with 403.  In particular
    nothing passes while [ADMIN_KEY] is unset or empty, and the bearer
    token plays no part. *)
Theorem requireAdmin_admits_iff
    (ADMIN_KEY x_admin_key : option string) (req req' : Request) :
  (requireAdmin ADMIN_KEY x_admin_key req = Next req'
   ↔ ∃ key, key ≠ "" ∧ ADMIN_KEY = Some key ∧ x_admin_key = Some key ∧ req' = req)
  ∧ (requireAdmin ADMIN_KEY x_admin_key req = Next req
     ∨ requireAdmin ADMIN_KEY x_admin_key req
       = NextErr (AppError "Acesso administrativo não autorizado" 403))
  ∧ (ADMIN_KEY = None ∨ ADMIN_KEY = Some "" →
     requireAdmin ADMIN_KEY x_admin_key req
     = NextErr (AppError "Acesso administrativo não autorizado" 403)).
Proof.
  unfold requireAdmin.
  destruct x_admin_key as [k|]; simpl.
  - case_bool_decide as Hempty; simpl.
    + split; [|split]; [|by right|done].
      split; [done|]. intros (key & Hne & _ & [= ->] & _). done.
    + case_bool_decide as Hkey; simpl.
      * split; [|split]; [|by left|].
        -- split; [intros [= <-]; by exists k|]. by intros (key & _ & _ & _ & ->).
        -- intros [->| ->]; [done|]. by injection Hkey as ->.
      * split; [|split]; [|by right|done].
        split; [done|]. intros (key & _ & -> & [= ->] & _). done.
  - split; [|split]; [|by right|done].
    split; [done|]. by intros (key & _ & _ & ? & _).
Qed.

(** ** Helpers on plain objects *)

Lemma own_property_js_delete (obj : list (string * Json)) (field k : string) :
  own_property (js_delete obj field) k
  = if bool_decide (k = field) then None else own_property obj k.
Proof.
  induction obj as [|[k' v] obj IH]; simpl.
  - by case_bool_decide.
  - destruct (decide (k' = field)) as [->|Hne].
    + rewrite bool_decide_eq_true_2 by done. simpl. rewrite IH.
      repeat case_bool_decide; congruence.
    + rewrite (bool_decide_eq_false_2 _ Hne). simpl. rewrite IH.
      repeat case_bool_decide; congruence.
Qed.

Lemma js_delete_sublist (obj : list (string * Json)) (field : string) :
  js_delete obj field `sublist_of` obj.
Proof.
  unfold js_delete. induction obj as [|kv obj IH]; simpl; [done|].
  destruct (negb _); by constructor.
Qed.

(** X4. [sanitizeOutput] removes exactly the excluded fields: a lookup
    in the result finds nothing for an excluded name and the original
    value for every other name, and the remaining members keep their
    order. *)
Theorem sanitizeOutput_removes_exactly
    (data : list (string * Json)) (excludeFields : list string) (k : string) :
  own_property (sanitizeOutput data excludeFields) k
  = (if bool_decide (k ∈ excludeFields) then None else own_property data k)
  ∧ sanitizeOutput data excludeFields `sublist_of` data.
Proof.
  unfold sanitizeOutput. revert data.
  induction excludeFields as [|f fs IH]; intros data; simpl.
  - split; [|done]. first [done | by rewrite bool_decide_eq_false_2 by set_solver].
  - destruct (IH (js_delete data f)) as [Hget Hsub]. split.
    + rewrite Hget, own_property_js_delete.
      rewrite (bool_decide_ext (k ∈ f :: fs) (k = f ∨ k ∈ fs)) by apply elem_of_cons.
      repeat case_bool_decide; try done; tauto.
    + etrans; [exact Hsub|apply js_delete_sublist].
Qed.

Lemma js_join_singleton (sep x : string) : js_join sep [x] = x.
Proof. reflexivity. Qed.

(** X5. [validateRequiredFields] succeeds exactly when every required
    field reads as a truthy value; otherwise it throws a 400 naming the
    missing fields in the order required.  A field that is present but
    holds 0, false, the empty string or null counts as missing. *)
Theorem validateRequiredFields_truthy
    (obj : list (string * Json)) (requiredFields : list string) :
  (validateRequiredFields obj requiredFields = Ok tt
   ↔ ∀ field, field ∈ requiredFields → field_set obj field = true)
  ∧ (validateRequiredFields obj requiredFields = Ok tt
     ∨ validateRequiredFields obj requiredFields
       = Throw (AppError ("Campos obrigatórios ausentes: "
                          +:+ js_join ", "
                                (List.filter (λ f, negb (field_set obj f)) requiredFields))
                         400))
  ∧ (∀ k v, own_property obj k = Some v →
            v ∈ [JNum 0; JBool false; JStr ""; JNull] →
            validateRequiredFields obj [k]
            = Throw (AppError ("Campos obrigatórios ausentes: " +:+ k) 400)).
Proof.
  unfold validateRequiredFields. split; [|split].
  - split.
    + intros Hok field Hin.
      destruct (field_set obj field) eqn:Hset; [done|].
      assert (Hmiss : field ∈ List.filter (λ f, negb (field_set obj f)) requiredFields).
      { apply list_elem_of_In, List.filter_In. split; [by apply list_elem_of_In|].
        by rewrite Hset. }
      destruct (List.filter _ requiredFields); [by apply elem_of_nil in Hmiss|].
      done.
    + intros Hall.
      assert (Hnone : List.filter (λ f, negb (field_set obj f)) requiredFields = []).
      { induction requiredFields as [|f fs IH]; simpl; [done|].
        rewrite (Hall f) by set_solver. simpl. apply IH. intros; apply Hall. set_solver. }
      by rewrite Hnone.
  - destruct (List.filter _ requiredFields); [by left|by right].
  - intros k v Hown Hv. simpl. unfold field_set, js_get. rewrite Hown.
    assert (truthy v = false) as ->.
    { set_unfold in Hv. destruct Hv as [->|[->|[->|[->|[]]]]]; done. }
    done.
Qed.

(** ** Admission by the authentication middleware *)

Lemma authenticateToken_admits (env : Env) (db : Store) (now : Z) (req : Request)
    (tok : Jwt) (claims : Claims) (U : User) (T : Tenant) :
  bearer_token req = Some tok →
  jwt_verify tok (access_secret env) now = Ok claims →
  user_findUnique db (c_userId claims) = Ok (Some U) → u_isActive U = true →
  tenants db !! u_tenantId U = Some T → t_isActive T = true →
  tenant_expired T now = false →
  authenticateToken env db now req = Next (with_user (req_user U) req).
Proof.
  intros Hb Hv HU HUa HT HTa Hexp. unfold authenticateToken.
  rewrite (authenticate_body_identified env db now req tok claims U Hb Hv HU).
  unfold user_tenant. rewrite HUa, HT. simpl. by rewrite HTa, Hexp.
Qed.

Lemma authenticateToken_admitted (env : Env) (db : Store) (now : Z)
    (req req' : Request) :
  authenticateToken env db now req = Next req' →
  ∃ tok claims U T,
    bearer_token req = Some tok
    ∧ jwt_verify tok (access_secret env) now = Ok claims
    ∧ user_findUnique db (c_userId claims) = Ok (Some U) ∧ u_isActive U = true
    ∧ tenants db !! u_tenantId U = Some T ∧ t_isActive T = true
    ∧ tenant_expired T now = false
    ∧ req' = with_user (req_user U) req.
Proof.
  intros Hnext.
  destruct (authenticateToken_next_inv env db now req req' Hnext)
    as (tok & claims & U & Hb & Hv & HU & ->).
  destruct (authenticateToken_next_identified env db now req _ tok claims U
              Hb Hv HU Hnext) as (_ & HUa & T & HT & HTa & Hexp).
  by exists tok, claims, U, T.
Qed.

(** X6. [authenticateToken] calls [next()] exactly when the second word of
    the Authorization header is a token that verifies under the access
    secret at the current clock and names a stored user who is active and
    whose tenant is present, active and not past its [expiresAt]; the
    request then carries that user's stored id, tenant id and tier. *)
Theorem authenticateToken_admits_iff
    (env : Env) (db : Store) (now : Z) (req req' : Request) :
  authenticateToken env db now req = Next req'
  ↔ ∃ tok claims U T,
      bearer_token req = Some tok
      ∧ jwt_verify tok (access_secret env) now = Ok claims
      ∧ user_findUnique db (c_userId claims) = Ok (Some U) ∧ u_isActive U = true
      ∧ tenants db !! u_tenantId U = Some T ∧ t_isActive T = true
      ∧ tenant_expired T now = false
      ∧ req' = with_user (req_user U) req.
Proof.
  split.
  - apply authenticateToken_admitted.
  - intros (tok & claims & U & T & Hb & Hv & HU & HUa & HT & HTa & Hexp & ->).
    by eapply authenticateToken_admits.
Qed.

Lemma authenticate_body_throws (env : Env) (db : Store) (now : Z) (req : Request)
    (e : Thrown) :
  authenticate_body env db now req = Throw e →
  instanceof_JsonWebTokenError e = true
  ∨ e = TypeError "Cannot read properties of null"
  ∨ (e = missing_where_id
     ∧ ∃ tok claims, bearer_token req = Some tok
                     ∧ jwt_verify tok (access_secret env) now = Ok claims
                     ∧ c_userId claims = None)
  ∨ e ∈ [AppError "Token de autenticação não fornecido" 401;
         AppError "Usuário não encontrado ou inativo" 401;
         AppError "Empresa inativa" 403;
         AppError "Plano da empresa expirou" 403].
Proof.
  unfold authenticate_body.
  destruct (bearer_token req) as [tok|] eqn:Hb.
  2: { simpl. intros [= <-]. do 3 right. set_solver. }
  destruct (no_token (Some tok)); simpl.
  { intros [= <-]. do 3 right. set_solver. }
  destruct (jwt_verify _ _ _) as [claims|e'] eqn:Hv; simpl.
  2: { intros [= <-]. left. unfold jwt_verify in Hv.
       repeat case_match; simplify_eq; done. }
  destruct (c_userId claims) as [id|] eqn:Hid; simpl.
  2: { intros [= <-]. right; right; left. split; [done|]. by exists tok, claims. }
  destruct (users db !! id) as [U|]; simpl.
  2: { intros [= <-]. do 3 right. set_solver. }
  unfold user_tenant.
  destruct (u_isActive U); simpl.
  2: { intros [= <-]. do 3 right. set_solver. }
  destruct (tenants db !! u_tenantId U) as [T|]; simpl.
  2: { intros [= <-]. right; by left. }
  destruct (t_isActive T); simpl.
  2: { intros [= <-]. do 3 right. set_solver. }
  destruct (tenant_expired T now); simpl; [|done].
  intros [= <-]. do 3 right. set_solver.
Qed.

(** The errors [authenticateToken] hands to [next]. *)
Lemma authenticateToken_forwards (env : Env) (db : Store) (now : Z) (req : Request)
    (e : Thrown) :
  authenticateToken env db now req = NextErr e →
  e ∈ [AppError "Token de autenticação não fornecido" 401;
       AppError "Token inválido" 401;
       AppError "Usuário não encontrado ou inativo" 401;
       AppError "Empresa inativa" 403;
       AppError "Plano da empresa expirou" 403]
  ∨ e = TypeError "Cannot read properties of null"
  ∨ (e = missing_where_id
     ∧ ∃ tok claims, bearer_token req = Some tok
                     ∧ jwt_verify tok (access_secret env) now = Ok claims
                     ∧ c_userId claims = None).
Proof.
  unfold authenticateToken.
  destruct (authenticate_body env db now req) as [r|e'] eqn:Hbody; [done|].
  destruct (instanceof_JsonWebTokenError e') eqn:Hjwt.
  { intros [= <-]. left. set_solver. }
  assert (instanceof_TokenExpiredError e' = false) as ->.
  { unfold instanceof_TokenExpiredError, instanceof_JsonWebTokenError in *.
    apply bool_decide_eq_false_1 in Hjwt. apply bool_decide_eq_false_2.
    intros Heq. apply Hjwt. rewrite Heq. set_solver. }
  intros [= <-].
  destruct (authenticate_body_throws env db now req e' Hbody) as [H|[H|[H|H]]].
  - congruence.
  - right; by left.
  - right; by right.
  - left. set_unfold in H. set_unfold. tauto.
Qed.

(** A token that verifies under the access secret but carries no
    [userId] makes the user lookup fail before it reaches the database. *)
Lemma token_without_userId (env : Env) (db : Store) (now : Z) (req : Request)
    (tok : Jwt) (claims : Claims) :
  bearer_token req = Some tok →
  jwt_verify tok (access_secret env) now = Ok claims →
  c_userId claims = None →
  authenticateToken env db now req = NextErr missing_where_id.
Proof.
  intros Hb Hv Hid. unfold authenticateToken, authenticate_body. rewrite Hb.
  destruct (jwt_verify_ok _ _ _ _ Hv) as (iat & exp & -> & _).
  cbn [no_token throw_if default from_option id mbind Result_bind]. rewrite Hv.
  cbn [mbind Result_bind]. rewrite Hid. reflexivity.
Qed.

Lemma forwarded_status (env : Env) (e : Thrown) :
  e ∈ [AppError "Token de autenticação não fornecido" 401;
       AppError "Token inválido" 401;
       AppError "Usuário não encontrado ou inativo" 401;
       AppError "Empresa inativa" 403;
       AppError "Plano da empresa expirou" 403]
  ∨ e = TypeError "Cannot read properties of null"
  ∨ e = missing_where_id →
  status (errorHandler env e) ∈ [400; 401; 403; 500]
  ∧ (status (errorHandler env e) = 400 ↔ e = missing_where_id).
Proof.
  intros [He|[->| ->]].
  - apply list_elem_of_In in He. simpl in He.
    destruct He as [<-|[<-|[<-|[<-|[<-|[]]]]]]; simpl;
      (split; [set_solver|split; discriminate]).
  - unfold TypeError, errorHandler. simpl. split; [set_solver|split; discriminate].
  - unfold missing_where_id, prisma_validation_error, errorHandler. simpl.
    split; [set_solver|done].
Qed.

(** X7. [authenticateToken] never answers by itself: it either admits the
    request or forwards an error.  The database answering its queries, a
    forwarded error is one of five
    [AppError]s with status 401 or 403, the TypeError of a user row whose
    tenant is gone (500), or, exactly for a token that verifies under the
    access secret but carries no [userId] (such as the token of the
    administrative login), the database client's validation error, which
    the error handler answers with 400.  The 401 "Token expirado" of its
    [catch] is never produced. *)
Theorem authenticateToken_refusals
    (env : Env) (db : Store) (now : Z) (req : Request) (e : Thrown) :
  authenticateToken env db now req = NextErr e →
  (e ∈ [AppError "Token de autenticação não fornecido" 401;
        AppError "Token inválido" 401;
        AppError "Usuário não encontrado ou inativo" 401;
        AppError "Empresa inativa" 403;
        AppError "Plano da empresa expirou" 403]
   ∨ e = TypeError "Cannot read properties of null"
   ∨ (e = missing_where_id
      ∧ ∃ tok claims, bearer_token req = Some tok
                      ∧ jwt_verify tok (access_secret env) now = Ok claims
                      ∧ c_userId claims = None))
  ∧ e ≠ AppError "Token expirado" 401
  ∧ status (errorHandler env e) ∈ [400; 401; 403; 500]
  ∧ (status (errorHandler env e) = 400 ↔ e = missing_where_id)
  ∧ (∀ req2 tok claims,
       bearer_token req2 = Some tok →
       jwt_verify tok (access_secret env) now = Ok claims →
       c_userId claims = None →
       authenticateToken env db now req2 = NextErr missing_where_id)
  ∧ (∀ issued req2,
       bearer_token req2 = Some (sign_admin env issued) →
       now `div` 1000 < issued `div` 1000 + 28800 →
       authenticateToken env db now req2 = NextErr missing_where_id)
  ∧ (∀ env' db' now' req' r, authenticateToken env' db' now' req' ≠ Respond r).
Proof.
  intros Hrefused.
  pose proof (authenticateToken_forwards env db now req e Hrefused) as Hclass.
  assert (Hweak :
    e ∈ [AppError "Token de autenticação não fornecido" 401;
         AppError "Token inválido" 401;
         AppError "Usuário não encontrado ou inativo" 401;
         AppError "Empresa inativa" 403;
         AppError "Plano da empresa expirou" 403]
    ∨ e = TypeError "Cannot read properties of null"
    ∨ e = missing_where_id) by tauto.
  destruct (forwarded_status env e Hweak) as [Hstatus H400].
  split; [exact Hclass|]. split; [|split; [exact Hstatus|split; [exact H400|]]].
  - intros ->. destruct Hweak as [Hc|[Hc|Hc]]; [|discriminate..].
    apply list_elem_of_In in Hc. simpl in Hc. intuition discriminate.
  - split; [|split].
    + intros req2 tok claims. apply token_without_userId.
    + intros issued req2 Hb Hlive.
      apply (token_without_userId env db now req2 _ (mkClaims None None None None) Hb);
        [|done].
      unfold sign_admin, jwt_sign, jwt_verify, hours.
      rewrite bool_decide_eq_true_2 by done. cbn [negb].
      rewrite bool_decide_eq_false_2 by lia. done.
    + intros env' db' now' req' r. unfold authenticateToken. by repeat case_match.
Qed.

(** A request without an Authorization header, and one bearing the token
    of the administrative login an hour after it was signed. *)
Lemma authenticateToken_refusals_witness :
  AppError "Token de autenticação não fornecido" 401 ≠ AppError "Token expirado" 401
  ∧ authenticateToken Fixture.env0 Fixture.db0 0 (mkRequest None None None)
    = NextErr (AppError "Token de autenticação não fornecido" 401)
  ∧ authenticateToken Fixture.env0 Fixture.db0 3600000
      (Fixture.bearer (sign_admin Fixture.env0 0))
    = NextErr missing_where_id
  ∧ status (errorHandler Fixture.env0 missing_where_id) = 400.
Proof.
  destruct (authenticateToken_refusals Fixture.env0 Fixture.db0 3600000
              (mkRequest None None None)
              (AppError "Token de autenticação não fornecido" 401))
    as (_ & Hne & _ & _ & _ & Hadmin & _).
  - reflexivity.
  - split; [exact Hne|]. split; [reflexivity|]. split; [|reflexivity].
    apply (Hadmin 0); reflexivity.
Defined.

(** A token signed with the access secret is refused once its expiry has
    passed, under the message used for a forged one. *)
Lemma expired_token_invalid (env : Env) (db : Store) (now : Z) (req : Request)
    (claims : Claims) (iat exp : Z) :
  bearer_token req = Some (Signed (access_secret env) claims iat exp) →
  exp ≤ now `div` 1000 →
  authenticateToken env db now req = NextErr (AppError "Token inválido" 401).
Proof.
  intros Hb Hexp. unfold authenticateToken, authenticate_body. rewrite Hb.
  cbn [no_token throw_if default from_option id mbind Result_bind jwt_verify].
  rewrite bool_decide_eq_true_2 by done. cbn [negb].
  by rewrite (bool_decide_eq_true_2 _ Hexp).
Qed.

(** X8. A token signed with the access secret whose expiry has passed is
    refused with 401 "Token inválido", the same answer as for a forged or
    malformed token. *)
Theorem expired_token_reported_invalid
    (env : Env) (db : Store) (now : Z) (req : Request)
    (claims : Claims) (iat exp : Z) :
  bearer_token req = Some (Signed (access_secret env) claims iat exp) →
  exp ≤ now `div` 1000 →
  authenticateToken env db now req = NextErr (AppError "Token inválido" 401)
  ∧ (∀ req2 raw, bearer_token req2 = Some (Garbage raw) → raw ≠ "" →
                 authenticateToken env db now req2
                 = NextErr (AppError "Token inválido" 401)).
Proof.
  intros Hb Hexp. split; [by eapply expired_token_invalid|].
  intros req2 raw Hb2 Hraw. unfold authenticateToken, authenticate_body.
  rewrite Hb2. cbn [no_token]. by rewrite (bool_decide_eq_false_2 _ Hraw).
Qed.

(** Alice's access token one second after its 24 hours. *)
Lemma expired_token_reported_invalid_witness :
  authenticateToken Fixture.env0 Fixture.db0 86400000
    (Fixture.bearer (sign_access Fixture.env0 Fixture.alice 0))
  = NextErr (AppError "Token inválido" 401).
Proof.
  refine (proj1 (expired_token_reported_invalid Fixture.env0 Fixture.db0 86400000
                   (Fixture.bearer (sign_access Fixture.env0 Fixture.alice 0))
                   (mkClaims (Some "u1") (Some "t1") (Some "SIMPLE") None) 0 86400 _ _)).
  - reflexivity.
  - vm_compute. discriminate.
Defined.

(** ** The account-type guard *)

(** X9. For a request that [authenticateToken] admitted as the stored
    user [U], [checkAccountType(types)] calls [next()] exactly when [U]'s
    stored tier is listed, and otherwise forwards a 403 whose message
    joins the required tiers with " ou "; a guard listing the three tiers
    admits every authenticated request and the empty guard admits none. *)
Theorem checkAccountType_on_authenticated
    (env : Env) (db : Store) (now : Z) (req req' : Request)
    (requiredAccountTypes : list string) :
  authenticateToken env db now req = Next req' →
  ∃ U, user req' = Some (req_user U)
       ∧ (checkAccountType requiredAccountTypes req' = Next req'
          ↔ account_name (u_accountType U) ∈ requiredAccountTypes)
       ∧ (account_name (u_accountType U) ∉ requiredAccountTypes →
          checkAccountType requiredAccountTypes req'
          = NextErr (AppError ("Permissão insuficiente. Requer: "
                               +:+ js_join " ou " requiredAccountTypes) 403))
       ∧ checkAccountType ["SIMPLE"; "COMPOSITE"; "MANAGERIAL"] req' = Next req'
       ∧ checkAccountType [] req'
         = NextErr (AppError "Permissão insuficiente. Requer: " 403).
Proof.
  intros (tok & claims & U & Hb & Hv & HU & ->)%authenticateToken_next_inv.
  exists U. split; [done|].
  unfold checkAccountType, includes. cbn [user with_user req_user accountType].
  split; [|split; [|split]].
  - case_bool_decide; simpl; split; done.
  - intros Hnot. by rewrite (bool_decide_eq_false_2 _ Hnot).
  - rewrite bool_decide_eq_true_2; [done|].
    destruct (u_accountType U); set_solver.
  - by rewrite bool_decide_eq_false_2 by set_solver.
Qed.

(** Alice is SIMPLE: a guard for the two upper tiers refuses her. *)
Lemma checkAccountType_on_authenticated_witness :
  let req := Fixture.bearer (sign_access Fixture.env0 Fixture.alice 0) in
  checkAccountType ["COMPOSITE"; "MANAGERIAL"] (with_user (req_user Fixture.alice) req)
  = NextErr (AppError "Permissão insuficiente. Requer: COMPOSITE ou MANAGERIAL" 403).
Proof.
  intros req.
  destruct (checkAccountType_on_authenticated Fixture.env0 Fixture.db0 3600000 req
              (with_user (req_user Fixture.alice) req) ["COMPOSITE"; "MANAGERIAL"])
    as (U & HU & _ & Hrefuse & _).
  - vm_compute. reflexivity.
  - apply Hrefuse. injection HU as _ _ Htier. simpl in Htier. rewrite <- Htier.
    apply (bool_decide_unpack _). vm_compute. exact I.
Defined.

(** ** The mounted chains *)

Lemma tenantMiddleware_after_authenticate (db : Store) (now : Z) (req : Request)
    (U : User) (T : Tenant) :
  u_tenantId U ≠ "" →
  tenants db !! u_tenantId U = Some T → t_isActive T = true →
  tenant_expired T now = false →
  tenantMiddleware db now (with_user (req_user U) req)
  = Next (with_tenant T (with_user (req_user U) req)).
Proof.
  intros Hid HT HTa Hexp. unfold tenantMiddleware.
  cbn [user with_user req_user tenantId].
  rewrite (bool_decide_eq_false_2 _ Hid). cbn [throw_if mbind Result_bind].
  rewrite HT, HTa, Hexp. done.
Qed.

Lemma protect_admitted (env : Env) (db : Store) (now : Z) (req req' : Request) :
  protect env db now req = Next req' →
  ∃ tok claims U T,
    bearer_token req = Some tok
    ∧ jwt_verify tok (access_secret env) now = Ok claims
    ∧ user_findUnique db (c_userId claims) = Ok (Some U) ∧ u_isActive U = true
    ∧ tenants db !! u_tenantId U = Some T ∧ t_isActive T = true
    ∧ tenant_expired T now = false
    ∧ u_tenantId U ≠ ""
    ∧ req' = with_tenant T (with_user (req_user U) req).
Proof.
  unfold protect.
  destruct (authenticateToken env db now req) as [r1| |] eqn:Hauth; [|done..].
  apply authenticateToken_admitted in Hauth
    as (tok & claims & U & T & Hb & Hv & HU & HUa & HT & HTa & Hexp & ->).
  cbn [and_then]. intros Htm. exists tok, claims, U, T.
  destruct (decide (u_tenantId U = "")) as [Hid|Hid].
  - exfalso. revert Htm. unfold tenantMiddleware.
    cbn [user with_user req_user tenantId].
    by rewrite (bool_decide_eq_true_2 _ Hid).
  - rewrite (tenantMiddleware_after_authenticate db now req U T Hid HT HTa Hexp) in Htm.
    by injection Htm as <-.
Qed.

(** X10. The chain mounted on [/api/tenant] and [/api/upload]
    ([authenticateToken], then [tenantMiddleware]) admits exactly the
    requests [authenticateToken] admits for a user whose tenant id is not
    the empty string; the tenant middleware refuses nothing more, and what
    it adds is the stored tenant row in [req.tenant]. *)
Theorem protect_admits_iff
    (env : Env) (db : Store) (now : Z) (req req' : Request) :
  protect env db now req = Next req'
  ↔ ∃ U T,
      authenticateToken env db now req = Next (with_user (req_user U) req)
      ∧ u_tenantId U ≠ ""
      ∧ tenants db !! u_tenantId U = Some T
      ∧ req' = with_tenant T (with_user (req_user U) req).
Proof.
  split.
  - intros (tok & claims & U & T & Hb & Hv & HU & HUa & HT & HTa & Hexp & Hid & ->)
      %protect_admitted.
    exists U, T. split; [|done]. by eapply authenticateToken_admits.
  - unfold protect.
    intros (U & T & Hauth & Hid & HT & ->). rewrite Hauth. cbn [and_then].
    apply authenticateToken_admitted in Hauth
      as (tok & claims & U' & T' & Hb & Hv & HU & HUa & HT' & HTa & Hexp & Heq).
    assert (req_user U' = req_user U) as Hsame.
    { unfold with_user in Heq. congruence. }
    assert (u_tenantId U' = u_tenantId U) as Hten.
    { unfold req_user in Hsame. congruence. }
    rewrite Hten in HT'. simplify_eq.
    by apply tenantMiddleware_after_authenticate.
Qed.

(** [authenticateToken] reads the Authorization header and nothing else
    of the request, and replaces [req.user]. *)
Lemma authenticateToken_reads_header (env : Env) (db : Store) (now : Z)
    (req : Request) (u : option TokenPayload) (t : option Tenant) :
  authenticateToken env db now (mkRequest (authorization req) u t)
  = match authenticateToken env db now req with
    | Next r => Next (mkRequest (authorization req) (user r) t)
    | NextErr e => NextErr e
    | Respond r => Respond r
    end.
Proof.
  unfold authenticateToken, authenticate_body, bearer_token.
  cbn [authorization].
  destruct (no_token _); [done|]. cbn [throw_if mbind Result_bind].
  destruct (jwt_verify _ _ _) as [claims|e]; cbn [mbind Result_bind];
    [|by repeat case_match].
  destruct (user_findUnique db (c_userId claims)) as [[U|]|e]; cbn [mbind Result_bind];
    [|done|by repeat case_match].
  destruct (u_isActive U); [|done]. cbn [negb throw_if mbind Result_bind].
  destruct (user_tenant db U) as [T|e]; cbn [mbind Result_bind]; [|by repeat case_match].
  destruct (t_isActive T); [|done]. cbn [negb throw_if mbind Result_bind].
  by destruct (tenant_expired T now).
Qed.

Lemma authenticateToken_never_responds (env : Env) (db : Store) (now : Z)
    (req : Request) (r : Response) :
  authenticateToken env db now req ≠ Respond r.
Proof. unfold authenticateToken. by repeat case_match. Qed.

Lemma tenantMiddleware_never_responds (db : Store) (now : Z) (req : Request) (r : Response) :
  tenantMiddleware db now req ≠ Respond r.
Proof. unfold tenantMiddleware. by repeat case_match. Qed.

(** X11. On [/api/upload] the router applies [authenticateToken] once
    more after the application-level chain has admitted the request.
    That second run is a fresh authentication of the same Authorization
    header at its own reading of the clock and of the store: it keeps
    [req.tenant], replaces [req.user] by what it reads, and forwards
    whatever a first run would forward.  With the clock and the store
    unchanged it alters nothing, so the handler sees the request the
    application-level chain produced; but a token whose expiry falls
    between the two readings of the clock, or a user deactivated in
    between, is refused by the router after the application-level chain
    had let it through. *)
Theorem upload_router_authenticates_afresh
    (env : Env) (db : Store) (now : Z) (db2 : Store) (now2 : Z) (req req' : Request) :
  protect env db now req = Next req' →
  upload_chain env db now db2 now2 req
  = match authenticateToken env db2 now2 req with
    | Next r => Next (mkRequest (authorization req) (user r) (tenant req'))
    | NextErr e => NextErr e
    | Respond r => Respond r
    end
  ∧ upload_chain env db now db now req = Next req'
  ∧ (∀ handler, upload_route env handler now req db = respond env (handler req') db)
  ∧ (∀ claims iat exp,
       bearer_token req = Some (Signed (access_secret env) claims iat exp) →
       exp ≤ now2 `div` 1000 →
       upload_chain env db now db2 now2 req = NextErr (AppError "Token inválido" 401))
  ∧ (∀ tok claims U,
       bearer_token req = Some tok →
       jwt_verify tok (access_secret env) now2 = Ok claims →
       user_findUnique db2 (c_userId claims) = Ok (Some U) →
       u_isActive U = false →
       upload_chain env db now db2 now2 req
       = NextErr (AppError "Usuário não encontrado ou inativo" 401)).
Proof.
  intros Hprot.
  pose proof (protect_admitted env db now req req' Hprot)
    as (tok & claims & U & T & Hb & Hv & HU & HUa & HT & HTa & Hexp & Hid & Hreq').
  assert (Hshape : req' = mkRequest (authorization req) (Some (req_user U)) (Some T)).
  { by subst req'. }
  assert (Hchain : ∀ db3 now3,
    upload_chain env db now db3 now3 req
    = match authenticateToken env db3 now3 req with
      | Next r => Next (mkRequest (authorization req) (user r) (tenant req'))
      | NextErr e => NextErr e
      | Respond r => Respond r
      end).
  { intros db3 now3. unfold upload_chain. rewrite Hprot. cbn [and_then].
    rewrite Hshape. apply authenticateToken_reads_header. }
  assert (Hsame : upload_chain env db now db now req = Next req').
  { rewrite Hchain.
    rewrite (authenticateToken_admits env db now req tok claims U T) by done.
    by rewrite Hshape. }
  split; [apply Hchain|]. split; [exact Hsame|]. split; [|split].
  - intros handler. unfold upload_route. fold (upload_chain env db now db now req).
    by rewrite Hsame.
  - intros claims' iat exp Hb' Hdead. rewrite Hchain.
    by rewrite (expired_token_invalid env db2 now2 req claims' iat exp Hb' Hdead).
  - intros tok' claims' U' Hb' Hv' HU' Hoff. rewrite Hchain.
    assert (authenticateToken env db2 now2 req
            = NextErr (AppError "Usuário não encontrado ou inativo" 401)) as ->; [|done].
    apply app_error_forwarded.
    rewrite (authenticate_body_identified env db2 now2 req tok' claims' U' Hb' Hv' HU').
    by rewrite Hoff.
Qed.

(** Alice's token, signed at clock 0, presented in the last millisecond
    of its 24 hours: the application-level chain reads the clock then and
    admits it, the router reads it one millisecond later and refuses. *)
Lemma upload_router_authenticates_afresh_witness :
  let req := Fixture.bearer (sign_access Fixture.env0 Fixture.alice 0) in
  protect Fixture.env0 Fixture.db0 86399999 req
  = Next (with_tenant Fixture.acme (with_user (req_user Fixture.alice) req))
  ∧ upload_chain Fixture.env0 Fixture.db0 86399999 Fixture.db0 86400000 req
    = NextErr (AppError "Token inválido" 401).
Proof.
  intros req.
  assert (Hprot : protect Fixture.env0 Fixture.db0 86399999 req
                  = Next (with_tenant Fixture.acme
                            (with_user (req_user Fixture.alice) req))).
  { vm_compute. reflexivity. }
  split; [exact Hprot|].
  destruct (upload_router_authenticates_afresh Fixture.env0 Fixture.db0 86399999
              Fixture.db0 86400000 req _ Hprot) as (_ & _ & _ & Hexpired & _).
  apply (Hexpired (mkClaims (Some "u1") (Some "t1") (Some "SIMPLE") None) 0 86400).
  - reflexivity.
  - vm_compute. discriminate.
Defined.

(** X12. On a route of [/api/tenant] guarded by
    [checkAccountAccess(module)] the handler runs only for a request whose
    token verifies and names a stored active user of a present, active and
    unexpired tenant, and whose stored tier lists the module; it then sees
    that user in [req.user] and the tenant row in [req.tenant].  Every
    other request is answered 400, 401, 403 or 500 (the database
    answering its queries) without the handler being run and without any
    change to the store; the answer is 400
    exactly for a token that verifies under the access secret but carries
    no [userId], as the token of the administrative login does. *)
Theorem tenant_route_runs_handler_only_when_authorized
    (env : Env) (requiredModule : string) (now : Z) (req : Request) (db : Store) :
  (∃ tok claims U T req',
      bearer_token req = Some tok
      ∧ jwt_verify tok (access_secret env) now = Ok claims
      ∧ user_findUnique db (c_userId claims) = Ok (Some U) ∧ u_isActive U = true
      ∧ tenants db !! u_tenantId U = Some T ∧ t_isActive T = true
      ∧ tenant_expired T now = false
      ∧ requiredModule ∈ modules_of (u_accountType U)
      ∧ user req' = Some (req_user U) ∧ tenant req' = Some T
      ∧ ∀ handler, tenant_route env requiredModule handler now req db
                   = respond env (handler req') db)
  ∨ (∃ r, status r ∈ [400; 401; 403; 500]
          ∧ (status r = 400
             ↔ ∃ tok claims, bearer_token req = Some tok
                             ∧ jwt_verify tok (access_secret env) now = Ok claims
                             ∧ c_userId claims = None)
          ∧ ∀ handler, tenant_route env requiredModule handler now req db = (db, r)).
Proof.
  unfold tenant_route.
  destruct (protect env db now req) as [req'|e|r] eqn:Hprot.
  - pose proof (protect_admitted env db now req req' Hprot)
      as (tok & claims & U & T & Hb & Hv & HU & HUa & HT & HTa & Hexp & Hid & ->).
    cbn [and_then].
    rewrite (gate_on_stored_tier requiredModule _ U) by done.
    unfold includes. case_bool_decide as Hmod.
    + left. exists tok, claims, U, T, (with_tenant T (with_user (req_user U) req)).
      by repeat (split; [done|]).
    + right. eexists. split; [|split; [|done]].
      * simpl. set_solver.
      * simpl. split; [done|]. intros (tok' & claims' & Hb' & Hv' & Hnone).
        rewrite Hb in Hb'. injection Hb' as <-. rewrite Hv in Hv'.
        injection Hv' as <-. rewrite Hnone in HU. discriminate.
  - right. exists (errorHandler env e).
    unfold protect in Hprot.
    destruct (authenticateToken env db now req) as [r1|e1|r1] eqn:Hauth.
    + apply authenticateToken_admitted in Hauth
        as (tok & claims & U & T & Hb & Hv & HU & HUa & HT & HTa & Hexp & ->).
      cbn [and_then] in Hprot.
      destruct (decide (u_tenantId U = "")) as [Hid|Hid].
      * revert Hprot. unfold tenantMiddleware.
        cbn [user with_user req_user tenantId].
        rewrite (bool_decide_eq_true_2 _ Hid). intros [= <-].
        split; [|split; [|done]].
        -- simpl. set_solver.
        -- simpl. split; [done|]. intros (tok' & claims' & Hb' & Hv' & Hnone).
           rewrite Hb in Hb'. injection Hb' as <-. rewrite Hv in Hv'.
           injection Hv' as <-. rewrite Hnone in HU. discriminate.
      * by rewrite (tenantMiddleware_after_authenticate db now req U T Hid HT HTa Hexp)
          in Hprot.
    + cbn [and_then] in Hprot. injection Hprot as <-.
      pose proof (authenticateToken_forwards env db now req e1 Hauth) as Hclass.
      assert (Hweak :
        e1 ∈ [AppError "Token de autenticação não fornecido" 401;
              AppError "Token inválido" 401;
              AppError "Usuário não encontrado ou inativo" 401;
              AppError "Empresa inativa" 403;
              AppError "Plano da empresa expirou" 403]
        ∨ e1 = TypeError "Cannot read properties of null"
        ∨ e1 = missing_where_id) by tauto.
      destruct (forwarded_status env e1 Hweak) as [Hstatus H400].
      split; [exact Hstatus|]. split; [|done].
      rewrite H400. split.
      * intros ->. destruct Hclass as [Hc|[Hc|[_ Hc]]]; [| |exact Hc].
        -- apply list_elem_of_In in Hc. simpl in Hc. intuition discriminate.
        -- discriminate.
      * intros (tok & claims & Hb & Hv & Hnone).
        rewrite (token_without_userId env db now req tok claims Hb Hv Hnone) in Hauth.
        by injection Hauth as <-.
    + by apply authenticateToken_never_responds in Hauth.
  - exfalso. unfold protect in Hprot.
    destruct (authenticateToken env db now req) as [r1|e1|r1] eqn:Hauth.
    + by apply tenantMiddleware_never_responds in Hprot.
    + done.
    + by apply authenticateToken_never_responds in Hauth.
Qed.

(** The token of the administrative login on a tenant route. *)
Example admin_login_token_on_tenant_route :
  let req := Fixture.bearer (sign_admin Fixture.env0 0) in
  tenant_route Fixture.env0 "clients" Fixture.ok_handler 3600000 req Fixture.db0
  = (Fixture.db0,
     res_status_json 400
       (JObj [("status", JStr "error");
              ("message", JStr "Erro de validação nos dados enviados")])).
Proof. vm_compute. reflexivity. Qed.

(** ** What the gate suggests *)

Lemma own_property_of_elem {A} (o : list (string * A)) (k : string) (v : A) :
  NoDup o.*1 → (k, v) ∈ o → own_property o k = Some v.
Proof.
  induction o as [|[k' v'] o IH]; simpl; intros Hnd Hin.
  - by apply elem_of_nil in Hin.
  - apply NoDup_cons in Hnd as [Hfresh Hnd].
    apply elem_of_cons in Hin as [[= <- <-]|Hin].
    + by rewrite bool_decide_eq_true_2.
    + rewrite bool_decide_eq_false_2; [by apply IH|].
      intros ->. apply Hfresh. apply list_elem_of_fmap. by exists (k, v).
Qed.

Lemma ACCOUNT_MODULES_keys : ACCOUNT_MODULES.*1 = ["SIMPLE"; "COMPOSITE"; "MANAGERIAL"].
Proof. reflexivity. Qed.

Lemma ACCOUNT_MODULES_NoDup : NoDup ACCOUNT_MODULES.*1.
Proof. rewrite ACCOUNT_MODULES_keys. apply (bool_decide_unpack _). by vm_compute. Qed.

Lemma denial_inv (requiredModule : string) (req : Request) (u : TokenPayload)
    (r : Response) :
  user req = Some u →
  checkAccountAccess requiredModule req = Respond r → status r = 403 →
  ∃ allowedModules,
    own_property ACCOUNT_MODULES (accountType u) = Some allowedModules
    ∧ (requiredModule ∉ allowedModules)
    ∧ r = access_denied (accountType u) requiredModule allowedModules.
Proof.
  intros Hu. unfold checkAccountAccess, js_get. rewrite Hu.
  destruct (own_property ACCOUNT_MODULES (accountType u)) as [l|].
  - unfold includes. case_bool_decide as Hin; simpl; [done|].
    intros [= <-] _. by exists l.
  - case_bool_decide; simpl; by intros [= <-].
Qed.

(** X13. When the gate denies a module, the tiers it suggests never
    include the tier that was just denied, they appear in the order
    SIMPLE, COMPOSITE, MANAGERIAL without repetition, and a request of any
    suggested tier does pass the gate for that module. *)
Theorem suggested_tiers_are_other_tiers_that_pass
    (requiredModule : string) (req : Request) (u : TokenPayload) (r : Response) :
  user req = Some u →
  checkAccountAccess requiredModule req = Respond r →
  status r = 403 →
  body_field "suggestedAccounts" r = Some (jstrs (getSuggestedAccounts requiredModule))
  ∧ (accountType u ∉ getSuggestedAccounts requiredModule)
  ∧ getSuggestedAccounts requiredModule `sublist_of` ["SIMPLE"; "COMPOSITE"; "MANAGERIAL"]
  ∧ (∀ req2 u2, user req2 = Some u2 →
                accountType u2 ∈ getSuggestedAccounts requiredModule →
                checkAccountAccess requiredModule req2 = Next req2).
Proof.
  intros Hu Hresp Hstatus.
  destruct (denial_inv requiredModule req u r Hu Hresp Hstatus)
    as (allowed & Hown & Hnot & ->).
  split; [done|]. split; [|split].
  - intros (ms & Hin & Hm)%getSuggestedAccounts_spec.
    apply (own_property_of_elem _ _ _ ACCOUNT_MODULES_NoDup) in Hin. congruence.
  - rewrite getSuggestedAccounts_filter, <- ACCOUNT_MODULES_keys.
    apply fmap_sublist, sublist_filter.
  - intros req2 u2 Hu2 (ms & Hin & Hm)%getSuggestedAccounts_spec.
    apply (own_property_of_elem _ _ _ ACCOUNT_MODULES_NoDup) in Hin.
    unfold checkAccountAccess, js_get, includes. rewrite Hu2, Hin.
    by rewrite bool_decide_eq_true_2.
Qed.

(** Bob is MANAGERIAL and asks for [basic_settings], which only the two
    lower tiers list. *)
Lemma suggested_tiers_are_other_tiers_that_pass_witness :
  let req := Fixture.as_user (req_user Fixture.bob) in
  body_field "suggestedAccounts"
    (access_denied "MANAGERIAL" "basic_settings" (modules_of MANAGERIAL))
  = Some (jstrs ["SIMPLE"; "COMPOSITE"])
  ∧ "MANAGERIAL" ∉ getSuggestedAccounts "basic_settings".
Proof.
  intros req.
  destruct (suggested_tiers_are_other_tiers_that_pass "basic_settings" req
              (req_user Fixture.bob)
              (access_denied "MANAGERIAL" "basic_settings" (modules_of MANAGERIAL)))
    as (Hbody & Hnot & _).
  - reflexivity.
  - reflexivity.
  - reflexivity.
  - split; [exact Hbody|exact Hnot].
Defined.

(** X14. The grants are not cumulative along the tier order: whatever
    SIMPLE may invoke COMPOSITE may too, and MANAGERIAL may invoke whatever
    COMPOSITE may with the one exception of [basic_settings], for which a
    MANAGERIAL request is denied. *)
Theorem grants_not_cumulative :
  (∀ m, m ∈ modules_of SIMPLE → m ∈ modules_of COMPOSITE)
  ∧ (∀ m, m ∈ modules_of COMPOSITE → m ≠ "basic_settings" → m ∈ modules_of MANAGERIAL)
  ∧ (∀ req U, user req = Some (req_user U) → u_accountType U = MANAGERIAL →
              checkAccountAccess "basic_settings" req
              = Respond (access_denied "MANAGERIAL" "basic_settings"
                                       (modules_of MANAGERIAL)))
  ∧ (∀ req U, user req = Some (req_user U) → u_accountType U ≠ MANAGERIAL →
              checkAccountAccess "basic_settings" req = Next req).
Proof.
  split; [|split; [|split]].
  - intros m Hm. apply list_elem_of_In in Hm. apply list_elem_of_In.
    simpl in *. tauto.
  - intros m Hm Hne. apply list_elem_of_In in Hm. apply list_elem_of_In.
    simpl in *. intuition congruence.
  - intros req U Hu Htier. rewrite (gate_on_stored_tier _ _ U Hu), Htier. reflexivity.
  - intros req U Hu Htier. rewrite (gate_on_stored_tier _ _ U Hu).
    by destruct (u_accountType U).
Qed.

(** ** Refusals of the limit middleware *)

Lemma ACCOUNT_LIMITS_keys (k : string) (l : Limits) :
  own_property ACCOUNT_LIMITS k = Some l →
  k = "SIMPLE" ∨ k = "COMPOSITE" ∨ k = "MANAGERIAL".
Proof.
  intros H%own_property_elem. apply list_elem_of_In in H. simpl in H.
  destruct H as [H|[H|[H|[]]]]; simplify_eq; auto.
Qed.

(** X15. A 403 from [checkAccountLimits] is only given to a known tier
    whose limit for the resource is not -1 and is reached by the current
    usage; its body reports that usage as [currentCount], the limit as
    [maxAllowed], and as [suggestedAccounts] the tiers ranked above the
    current one whatever the resource: COMPOSITE and MANAGERIAL for
    SIMPLE, MANAGERIAL for COMPOSITE, none for MANAGERIAL. *)
Theorem limit_denial_reports_usage_and_higher_tiers
    (r : ResourceType) (db : Store) (req : Request) (u : TokenPayload)
    (resp : Response) :
  user req = Some u →
  checkAccountLimits r db req = Respond resp →
  status resp = 403 →
  ∃ limits,
    own_property ACCOUNT_LIMITS (accountType u) = Some limits
    ∧ limit_of r limits ≠ -1
    ∧ limit_of r limits ≤ usage_of r db (tenantId u)
    ∧ body_field "currentCount" resp = Some (JNum (usage_of r db (tenantId u)))
    ∧ body_field "maxAllowed" resp = Some (JNum (limit_of r limits))
    ∧ ∃ suggested,
        body_field "suggestedAccounts" resp = Some (jstrs suggested)
        ∧ (accountType u = "SIMPLE" ∧ suggested = ["COMPOSITE"; "MANAGERIAL"]
           ∨ accountType u = "COMPOSITE" ∧ suggested = ["MANAGERIAL"]
           ∨ accountType u = "MANAGERIAL" ∧ suggested = []).
Proof.
  intros Hu Hresp Hstatus.
  destruct (decide (tenantId u = "")) as [Ht|Ht].
  { revert Hresp Hstatus. unfold checkAccountLimits. rewrite Hu.
    cbn [fmap option_fmap option_map]. rewrite (bool_decide_eq_true_2 _ Ht).
    simpl. by intros [= <-]. }
  destruct (decide (accountType u = "")) as [Ha|Ha].
  { revert Hresp Hstatus. unfold checkAccountLimits. rewrite Hu.
    cbn [fmap option_fmap option_map]. rewrite (bool_decide_eq_true_2 _ Ha).
    rewrite orb_true_r. by intros [= <-]. }
  destruct (own_property ACCOUNT_LIMITS (accountType u)) as [limits|] eqn:Hown.
  - rewrite (checkAccountLimits_verdict r db req u limits Hu Ht Ha Hown) in Hresp.
    destruct (limit_reached _ _) eqn:Hreached; [|done].
    injection Hresp as <-. exists limits. split; [done|].
    unfold limit_reached in Hreached. apply andb_prop in Hreached as [Hne Hle].
    apply negb_true_iff, bool_decide_eq_false_1 in Hne.
    apply bool_decide_eq_true_1 in Hle.
    do 2 (split; [done|]).
    apply ACCOUNT_LIMITS_keys in Hown.
    destruct Hown as [Hk|[Hk|Hk]]; rewrite Hk; destruct r;
      (split; [reflexivity|]); (split; [reflexivity|]); eexists;
      (split; [reflexivity|]); tauto.
  - revert Hresp Hstatus. unfold checkAccountLimits, js_get. rewrite Hu.
    cbn [fmap option_fmap option_map].
    rewrite (bool_decide_eq_false_2 _ Ht), (bool_decide_eq_false_2 _ Ha), Hown.
    case_bool_decide; destruct r; simpl; by intros [= <-].
Qed.

(** Alice (SIMPLE, 100 MB) after eleven uploads of 10 MB. *)
Lemma limit_denial_reports_usage_and_higher_tiers_witness :
  let req := Fixture.as_user (req_user Fixture.alice) in
  ∃ resp, checkAccountLimits RStorage Scenario.db_storage_full req = Respond resp
          ∧ body_field "currentCount" resp = Some (JNum 115343360)
          ∧ body_field "maxAllowed" resp = Some (JNum 104857600).
Proof.
  intros req.
  eexists. split; [vm_compute; reflexivity|].
  destruct (limit_denial_reports_usage_and_higher_tiers RStorage
              Scenario.db_storage_full req (req_user Fixture.alice)
              (limit_exceeded "SIMPLE" RStorage 115343360 (Some 104857600)))
    as (limits & Hown & _ & _ & Hcount & Hmax & _).
  - reflexivity.
  - vm_compute. reflexivity.
  - reflexivity.
  - injection Hown as <-. split; [exact Hcount|exact Hmax].
Defined.

(** X16. For a tier name that is not a key of the limits table,
    [checkAccountLimits] answers 500 when the name is also not a member of
    [Object.prototype], but lets the request through, whatever the usage,
    when it is one (such as "constructor"): the limit then reads as
    [undefined] and no count compares as reaching it. *)
Theorem limits_for_unknown_tier_names
    (r : ResourceType) (db : Store) (req : Request) (u : TokenPayload) :
  user req = Some u → tenantId u ≠ "" → accountType u ≠ "" →
  own_property ACCOUNT_LIMITS (accountType u) = None →
  (accountType u ∈ Object_prototype_names → checkAccountLimits r db req = Next req)
  ∧ (accountType u ∉ Object_prototype_names →
     checkAccountLimits r db req = Respond internal_error).
Proof.
  intros Hu Ht Ha Hown. unfold checkAccountLimits, js_get. rewrite Hu.
  cbn [fmap option_fmap option_map].
  rewrite (bool_decide_eq_false_2 _ Ht), (bool_decide_eq_false_2 _ Ha), Hown.
  split; intros Hproto.
  - rewrite (bool_decide_eq_true_2 _ Hproto). by destruct r.
  - rewrite (bool_decide_eq_false_2 _ Hproto). by destruct r.
Qed.

Lemma limits_for_unknown_tier_names_witness :
  let req := Fixture.as_user (mkTokenPayload "u1" "t1" "constructor") in
  checkAccountLimits RStorage Scenario.db_storage_full req = Next req
  ∧ checkAccountLimits RStorage Scenario.db_storage_full
      (Fixture.as_user (mkTokenPayload "u1" "t1" "PREMIUM"))
    = Respond internal_error.
Proof.
  intros req. split.
  - apply (limits_for_unknown_tier_names RStorage Scenario.db_storage_full req
             (mkTokenPayload "u1" "t1" "constructor")); try reflexivity; try discriminate.
    apply (bool_decide_unpack _). vm_compute. exact I.
  - apply (limits_for_unknown_tier_names RStorage Scenario.db_storage_full _
             (mkTokenPayload "u1" "t1" "PREMIUM")); try reflexivity; try discriminate.
    apply (bool_decide_unpack _). vm_compute. exact I.
Defined.

(** ** Lifetime of the two token classes *)

Lemma refresh_with_valid_token (env : Env) (db : Store) (now : Z) (tok : Jwt)
    (claims : Claims) (U : User) (T : Tenant) :
  jwt_verify tok (refresh_secret env) now = Ok claims →
  c_type claims = Some "refresh" →
  user_findUnique db (c_userId claims) = Ok (Some U) → u_isActive U = true →
  tenants db !! u_tenantId U = Some T → t_isActive T = true →
  refresh env now (Some tok) db
  = (db, Ok (res_json (JObj [("token", JJwt (sign_access env U now))]))).
Proof.
  intros Hv Htype HU HUa HT HTa.
  destruct (jwt_verify_ok _ _ _ _ Hv) as (iat & exp & -> & _).
  unfold refresh, refresh_body, try_catch, user_tenant.
  cbn [no_token throw_if default from_option id mbind Result_bind].
  rewrite Hv. cbn [mbind Result_bind].
  rewrite (bool_decide_eq_true_2 _ Htype). cbn [negb throw_if mbind Result_bind].
  rewrite HU. cbn [mbind Result_bind]. rewrite HUa. cbn [negb throw_if mbind Result_bind].
  rewrite HT. cbn [mbind Result_bind]. by rewrite HTa.
Qed.

(** X17. Counted in whole seconds, an access token minted by [/login] or
    [/refresh] is admitted by [authenticateToken] for exactly 24 hours
    after it was signed and answered "Token inválido" from then on, and a
    refresh token buys a new access token for exactly 30 days and is
    answered "Refresh token inválido" from then on (the user and tenant
    being stored, active and unexpired throughout). *)
Theorem token_lifetimes
    (env : Env) (db : Store) (issued now : Z) (U : User) (T : Tenant) (req : Request) :
  users db !! u_id U = Some U → u_isActive U = true →
  tenants db !! u_tenantId U = Some T → t_isActive T = true →
  tenant_expired T now = false →
  bearer_token req = Some (sign_access env U issued) →
  (now `div` 1000 < issued `div` 1000 + 86400 →
   authenticateToken env db now req = Next (with_user (req_user U) req))
  ∧ (issued `div` 1000 + 86400 ≤ now `div` 1000 →
     authenticateToken env db now req = NextErr (AppError "Token inválido" 401))
  ∧ (now `div` 1000 < issued `div` 1000 + 2592000 →
     refresh env now (Some (sign_refresh env U issued)) db
     = (db, Ok (res_json (JObj [("token", JJwt (sign_access env U now))]))))
  ∧ (issued `div` 1000 + 2592000 ≤ now `div` 1000 →
     refresh env now (Some (sign_refresh env U issued)) db
     = (db, Throw (AppError "Refresh token inválido" 401))).
Proof.
  intros HU HUa HT HTa Hexp Hb. split; [|split; [|split]].
  - intros Hlive.
    apply (authenticateToken_admits env db now req (sign_access env U issued)
             (mkClaims (Some (u_id U)) (Some (u_tenantId U))
                       (Some (account_name (u_accountType U))) None) U T);
      try done; [|cbn; by rewrite HU].
    unfold sign_access, jwt_sign, jwt_verify, hours.
    rewrite bool_decide_eq_true_2 by done. cbn [negb].
    rewrite bool_decide_eq_false_2 by lia. done.
  - intros Hdead.
    apply (expired_token_invalid env db now req _ _ _ Hb).
    unfold hours. lia.
  - intros Hlive.
    apply (refresh_with_valid_token env db now _
             (mkClaims (Some (u_id U)) (Some (u_tenantId U)) None (Some "refresh")) U T);
      try done; [|cbn; by rewrite HU].
    unfold sign_refresh, jwt_sign, jwt_verify, days.
    rewrite bool_decide_eq_true_2 by done. cbn [negb].
    rewrite bool_decide_eq_false_2 by lia. done.
  - intros Hdead. unfold refresh, refresh_body, try_catch, sign_refresh, jwt_sign.
    cbn [no_token throw_if default from_option id mbind Result_bind jwt_verify].
    rewrite bool_decide_eq_true_2 by done. cbn [negb].
    rewrite bool_decide_eq_true_2 by (unfold days; lia). done.
Qed.

(** Alice's tokens, signed at clock 0: the last admitted second and the
    first refused one. *)
Lemma token_lifetimes_witness :
  let req := Fixture.bearer (sign_access Fixture.env0 Fixture.alice 0) in
  authenticateToken Fixture.env0 Fixture.db0 86399999 req
  = Next (with_user (req_user Fixture.alice) req)
  ∧ authenticateToken Fixture.env0 Fixture.db0 86400000 req
    = NextErr (AppError "Token inválido" 401).
Proof.
  intros req. split.
  - refine (proj1 (token_lifetimes Fixture.env0 Fixture.db0 0 86399999 Fixture.alice
                     Fixture.acme req _ _ _ _ _ _) _); reflexivity.
  - refine (proj1 (proj2 (token_lifetimes Fixture.env0 Fixture.db0 0 86400000
                            Fixture.alice Fixture.acme req _ _ _ _ _ _)) _);
      reflexivity.
Defined.

(** X18. The access token that a successful [/refresh] returns carries
    the user's stored tier and is signed at the time of the refresh;
    presented at once to [authenticateToken] it is admitted as that user
    unless the tenant's [expiresAt] has passed, in which case the token
    just minted is refused with 403. *)
Theorem refreshed_token_admission
    (env : Env) (db : Store) (now : Z) (tok : Jwt) (claims : Claims)
    (U : User) (T : Tenant) :
  jwt_verify tok (refresh_secret env) now = Ok claims →
  c_type claims = Some "refresh" →
  user_findUnique db (c_userId claims) = Ok (Some U) → c_userId claims = Some (u_id U) →
  u_isActive U = true →
  tenants db !! u_tenantId U = Some T → t_isActive T = true →
  respond env (refresh env now (Some tok)) db
  = (db, res_json (JObj [("token", JJwt (sign_access env U now))]))
  ∧ ∀ req, bearer_token req = Some (sign_access env U now) →
           authenticateToken env db now req
           = if tenant_expired T now
             then NextErr (AppError "Plano da empresa expirou" 403)
             else Next (with_user (req_user U) req).
Proof.
  intros Hv Htype HU Hid HUa HT HTa. split.
  - unfold respond.
    by rewrite (refresh_with_valid_token env db now tok claims U T Hv Htype HU HUa HT HTa).
  - intros req Hb.
    assert (Hverify : jwt_verify (sign_access env U now) (access_secret env) now
                      = Ok (mkClaims (Some (u_id U)) (Some (u_tenantId U))
                                     (Some (account_name (u_accountType U))) None)).
    { unfold sign_access, jwt_sign, jwt_verify, hours.
      rewrite bool_decide_eq_true_2 by done. cbn [negb].
      rewrite bool_decide_eq_false_2 by lia. done. }
    assert (HU' : user_findUnique db
                    (c_userId (mkClaims (Some (u_id U)) (Some (u_tenantId U))
                                 (Some (account_name (u_accountType U))) None))
                  = Ok (Some U)).
    { cbn [c_userId]. by rewrite <- Hid. }
    destruct (tenant_expired T now) eqn:Hexp.
    + apply app_error_forwarded.
      rewrite (authenticate_body_identified env db now req _ _ U Hb Hverify HU').
      unfold user_tenant. rewrite HUa, HT. simpl. by rewrite HTa, Hexp.
    + by apply (authenticateToken_admits env db now req _ _ U T Hb Hverify HU').
Qed.

Lemma refreshed_token_admission_witness :
  let db1 := set_tenants (insert "t1" (expire_tenant 1000 Fixture.acme)) Fixture.db0 in
  let access := sign_access Fixture.env0 Fixture.alice 3600000 in
  respond Fixture.env0
    (refresh Fixture.env0 3600000 (Some (sign_refresh Fixture.env0 Fixture.alice 0))) db1
  = (db1, res_json (JObj [("token", JJwt access)]))
  ∧ authenticateToken Fixture.env0 db1 3600000 (Fixture.bearer access)
    = NextErr (AppError "Plano da empresa expirou" 403).
Proof.
  intros db1 access.
  destruct (refreshed_token_admission Fixture.env0 db1 3600000
              (sign_refresh Fixture.env0 Fixture.alice 0)
              (mkClaims (Some "u1") (Some "t1") None (Some "refresh")) Fixture.alice
              (expire_tenant 1000 Fixture.acme)) as (Hmint & Hadmit); try reflexivity.
  split; [exact Hmint|]. apply (Hadmit (Fixture.bearer access)). reflexivity.
Defined.

(** X19. [/refresh] never writes to the store, and each of its failures
    is a 401 with one of two messages: "Refresh token não fornecido" when
    the body has no token, "Refresh token inválido" for every other cause
    (bad signature, expiry, wrong type, unknown or inactive user, inactive
    tenant). *)
Theorem refresh_failures_are_401
    (env : Env) (now : Z) (refreshToken : option Jwt) (db : Store) :
  (refresh env now refreshToken db).1 = db
  ∧ ((∃ access, (refresh env now refreshToken db).2
                = Ok (res_json (JObj [("token", JJwt access)])))
     ∨ (no_token refreshToken = true
        ∧ (refresh env now refreshToken db).2
          = Throw (AppError "Refresh token não fornecido" 401))
     ∨ (no_token refreshToken = false
        ∧ (refresh env now refreshToken db).2
          = Throw (AppError "Refresh token inválido" 401))).
Proof.
  split; [done|]. unfold refresh. cbn [snd].
  destruct (no_token refreshToken) eqn:Hno; cbn [throw_if mbind Result_bind].
  { right; left. done. }
  unfold try_catch.
  destruct (refresh_body env db now (default (Garbage "") refreshToken))
    as [resp|e] eqn:Hbody.
  - left. revert Hbody. unfold refresh_body, user_tenant.
    destruct (jwt_verify _ _ _) as [claims|]; [|done]. cbn [mbind Result_bind].
    destruct (negb _); [done|]. cbn [throw_if mbind Result_bind].
    destruct (user_findUnique db (c_userId claims)) as [[U|]|]; [|done..].
    cbn [mbind Result_bind].
    destruct (u_isActive U); [|done]. cbn [negb throw_if mbind Result_bind].
    destruct (tenants db !! u_tenantId U) as [T|]; [|done]. cbn [mbind Result_bind].
    destruct (t_isActive T); [|done]. cbn [negb throw_if mbind Result_bind].
    intros [= <-]. by eexists.
  - right; right. done.
Qed.

(** ** Login *)

Lemma login_user_some (db : Store) (email : string) (U : User) :
  login_user db email = Some U →
  u_email U = email ∧ u_isActive U = true ∧ ∃ k, users db !! k = Some U.
Proof.
  unfold login_user.
  destruct (list_find _ _) as [[i [k U']]|] eqn:Hfind; [|done].
  intros [= <-]. apply list_find_Some in Hfind as (Hlook & [He Ha] & _).
  split; [done|]. split; [done|]. exists k.
  apply elem_of_map_to_list. by eapply list_elem_of_lookup_2.
Qed.


(** An access token is admitted while it lives, the user it names being
    stored under that id and active, of an active tenant short of its
    [expiresAt]. *)
Lemma access_token_admitted (env : Env) (db : Store) (issued now : Z)
    (U row : User) (T : Tenant) (req : Request) :
  bearer_token req = Some (sign_access env U issued) →
  now `div` 1000 < issued `div` 1000 + 86400 →
  users db !! u_id U = Some row → u_isActive row = true →
  tenants db !! u_tenantId row = Some T → t_isActive T = true →
  tenant_expired T now = false →
  authenticateToken env db now req = Next (with_user (req_user row) req).
Proof.
  intros Hb Hlive Hrow Hactive HT HTa Hexp.
  apply (authenticateToken_admits env db now req (sign_access env U issued)
           (mkClaims (Some (u_id U)) (Some (u_tenantId U))
                     (Some (account_name (u_accountType U))) None) row T);
    try done; [|cbn; by rewrite Hrow].
  unfold sign_access, jwt_sign, jwt_verify, hours.
  rewrite bool_decide_eq_true_2 by done. cbn [negb].
  rewrite bool_decide_eq_false_2 by lia. done.
Qed.

(** A refresh token buys an access token while it lives, on the same
    conditions except the tenant's [expiresAt]. *)
Lemma refresh_token_accepted (env : Env) (db : Store) (issued now : Z)
    (U row : User) (T : Tenant) :
  now `div` 1000 < issued `div` 1000 + 2592000 →
  users db !! u_id U = Some row → u_isActive row = true →
  tenants db !! u_tenantId row = Some T → t_isActive T = true →
  refresh env now (Some (sign_refresh env U issued)) db
  = (db, Ok (res_json (JObj [("token", JJwt (sign_access env row now))]))).
Proof.
  intros Hlive Hrow Hactive HT HTa.
  apply (refresh_with_valid_token env db now _
           (mkClaims (Some (u_id U)) (Some (u_tenantId U)) None (Some "refresh")) row T);
    try done; [|cbn; by rewrite Hrow].
  unfold sign_refresh, jwt_sign, jwt_verify, days.
  rewrite bool_decide_eq_true_2 by done. cbn [negb].
  rewrite bool_decide_eq_false_2 by lia. done.
Qed.

Section LoginProperties.

Variable bcrypt_compare : string → string → bool.
Variable zod_email : string → bool.
Variables (env : Env) (now : Z) (ip : option string) (db : Store).





(** [/login] once a user was found for the email. *)
Lemma login_run (email password : string) (U : User) (T : Tenant) :
  login_user db email = Some U →
  tenants db !! u_tenantId U = Some T →
  login bcrypt_compare env now ip email password db
  = if negb (t_isActive T) then
      (db, Throw (AppError "Empresa inativa. Entre em contato com o suporte." 403))
    else if tenant_expired T now then
      (db, Throw (AppError "Plano da empresa expirou. Renove sua assinatura." 403))
    else if negb (bcrypt_compare password (u_passwordHash U)) then
      (db, Throw (AppError "Credenciais inválidas" 401))
    else
      match users db !! u_id U with
      | None => (db, Throw record_not_found)
      | Some row =>
          (fst (createAuditLog (u_id U) (u_tenantId U) "LOGIN" "USER" (u_id U)
                  (Some (JObj ([("email", JStr (u_email U))] ++ jopt "ip" (JStr <$> ip))))
                  (set_users (insert (u_id U) (set_lastLogin now row)) db)),
           Ok (login_response U T (sign_access env U now) (sign_refresh env U now)))
      end.
Proof using Type.
  intros HU HT. unfold login, mbind, Handler_bind, reads, when_throw, user_tenant.
  rewrite HU. simpl. rewrite HT.
  destruct (t_isActive T); simpl; [|done].
  destruct (tenant_expired T now); simpl; [done|].
  destruct (bcrypt_compare password (u_passwordHash U)); simpl; [|done].
  unfold user_update. destruct (users db !! u_id U) as [row|]; [|done].
  unfold createAuditLog, auditLog_create. cbn [auditFault set_users].
  by destruct (auditFault db).
Qed.

(** A successful [/login]: the answer and what it leaves in the store. *)
Lemma login_succeeds (email password : string) (U : User) (T : Tenant) :
  login_user db email = Some U →
  users db !! u_id U = Some U →
  tenants db !! u_tenantId U = Some T →
  t_isActive T = true → tenant_expired T now = false →
  bcrypt_compare password (u_passwordHash U) = true →
  ∃ db',
    login bcrypt_compare env now ip email password db
    = (db', Ok (login_response U T (sign_access env U now) (sign_refresh env U now)))
    ∧ users db' = <[u_id U := set_lastLogin now U]> (users db)
    ∧ tenants db' = tenants db.
Proof using Type.
  intros Hfind HU HT HTa Hexp Hpw.
  rewrite (login_run email password U T Hfind HT).
  rewrite HTa, Hexp, Hpw, HU. cbn [negb].
  destruct (createAuditLog_swallows (u_id U) (u_tenantId U) "LOGIN" "USER" (u_id U)
              (Some (JObj ([("email", JStr (u_email U))] ++ jopt "ip" (JStr <$> ip))))
              (set_users (insert (u_id U) (set_lastLogin now U)) db))
    as (db' & -> & Husers & Htenants & _).
  exists db'. cbn [fst]. by repeat split.
Qed.

End LoginProperties.


(** X21. A successful [/login] writes the time of the login into the
    [lastLogin] column of the user's row (the database client also
    refreshes that row's [updatedAt]) and changes nothing else in users
    and tenants: the row keeps its id, email, name, password hash, tier,
    active flag and tenant.  The two tokens it returns work: at the same
    clock the access token is admitted by [authenticateToken] as the user
    who logged in, and the refresh token is accepted by [/refresh], which
    mints the same access token again. *)
Theorem login_tokens_work
    (bcrypt_compare : string → string → bool) (env : Env) (now : Z)
    (ip : option string) (email password : string) (db : Store)
    (U : User) (T : Tenant) :
  login_user db email = Some U →
  users db !! u_id U = Some U →
  tenants db !! u_tenantId U = Some T →
  t_isActive T = true → tenant_expired T now = false →
  bcrypt_compare password (u_passwordHash U) = true →
  ∃ db',
    login bcrypt_compare env now ip email password db
    = (db', Ok (login_response U T (sign_access env U now) (sign_refresh env U now)))
    ∧ users db' = <[u_id U := set_lastLogin now U]> (users db)
    ∧ u_lastLogin (set_lastLogin now U) = Some now
    ∧ set_lastLogin now U
      = mkUser (u_id U) (u_email U) (u_name U) (u_passwordHash U) (u_accountType U)
               (u_isActive U) (u_tenantId U) (Some now)
    ∧ tenants db' = tenants db
    ∧ (∀ req, bearer_token req = Some (sign_access env U now) →
              authenticateToken env db' now req = Next (with_user (req_user U) req))
    ∧ refresh env now (Some (sign_refresh env U now)) db'
      = (db', Ok (res_json (JObj [("token", JJwt (sign_access env U now))]))).
Proof.
  intros Hfind HU HT HTa Hexp Hpw.
  destruct (login_user_some db email U Hfind) as (_ & HUa & _).
  destruct (login_succeeds bcrypt_compare env now ip db email password U T
              Hfind HU HT HTa Hexp Hpw) as (db' & Hlogin & Husers & Htenants).
  exists db'. do 5 (split; [done|]).
  assert (Hrow : users db' !! u_id U = Some (set_lastLogin now U)).
  { rewrite Husers. apply lookup_insert_eq. }
  split.
  - intros req Hb.
    apply (access_token_admitted env db' now now U (set_lastLogin now U) T req);
      rewrite ?Htenants; try done. lia.
  - apply (refresh_token_accepted env db' now now U (set_lastLogin now U) T);
      rewrite ?Htenants; try done. lia.
Qed.

Lemma login_tokens_work_witness :
  let U := Scenario.alice_hashed in
  ∃ db',
    login Scenario.toy_compare Fixture.env0 5000 (Some "10.0.0.7")
          "alice@acme.test" "alicepw" Scenario.db_hashed
    = (db', Ok (login_response U Fixture.acme (sign_access Fixture.env0 U 5000)
                               (sign_refresh Fixture.env0 U 5000)))
    ∧ (u_lastLogin <$> users db' !! "u1") = Some (Some 5000)
    ∧ authenticateToken Fixture.env0 db' 5000
        (Fixture.bearer (sign_access Fixture.env0 U 5000))
      = Next (with_user (req_user U) (Fixture.bearer (sign_access Fixture.env0 U 5000))).
Proof.
  intros U.
  destruct (login_tokens_work Scenario.toy_compare Fixture.env0 5000 (Some "10.0.0.7")
              "alice@acme.test" "alicepw" Scenario.db_hashed U Fixture.acme)
    as (db' & Hlogin & Husers & _ & _ & _ & Hadmit & _).
  - vm_compute. reflexivity.
  - reflexivity.
  - reflexivity.
  - reflexivity.
  - reflexivity.
  - vm_compute. reflexivity.
  - exists db'. split; [exact Hlogin|]. split.
    + rewrite Husers. reflexivity.
    + apply Hadmit. reflexivity.
Defined.

(** ** Registration *)

Section RegisterProperties.

Variable bcrypt_hash : string → string.
Variables (newId : string) (data : NewUser) (tenantId : string) (db : Store).

Let created : User :=
  mkUser newId (n_email data) (Some (n_name data)) (bcrypt_hash (n_password data))
         (n_accountType data) true tenantId None.

Let entry : AuditLog :=
  mkAuditLog newId tenantId "REGISTER" "USER" newId
    (JObj [("email", JStr (n_email data));
           ("accountType", JStr (account_name (n_accountType data)))]).

Lemma register_run :
  register bcrypt_hash newId data tenantId db
  = match (register bcrypt_hash newId data tenantId db).2 with
    | Throw e => (db, Throw e)
    | Ok resp =>
        (match auditFault db with
         | Some _ => set_users (insert newId created) db
         | None => set_auditLogs (λ logs, logs ++ [entry])
                                 (set_users (insert newId created) db)
         end, Ok resp)
    end.
Proof using Type.
  unfold register, mbind, Handler_bind, reads, when_throw.
  destruct (email_in_use db (n_email data)); [done|]. simpl.
  destruct (tenants db !! tenantId) as [T|]; [|done].
  destruct (t_isActive T); [|done]. simpl.
  destruct (limit_reached _ _); [done|]. simpl.
  unfold createAuditLog, auditLog_create. simpl.
  by destruct (auditFault db).
Qed.

End RegisterProperties.

(** X22. A refused [/register] (email in use, tenant missing or inactive,
    capacity reached) leaves the store exactly as it was.  An accepted one
    stores the new user, active, under the id the database gave it, leaves
    tenants and files untouched, and adds to the audit log at most the one
    REGISTER record, placed at the end. *)
Theorem register_effects
    (bcrypt_hash : string → string) (newId : string) (data : NewUser)
    (tenantId : string) (db : Store) :
  let created :=
    mkUser newId (n_email data) (Some (n_name data)) (bcrypt_hash (n_password data))
           (n_accountType data) true tenantId None in
  let entry :=
    mkAuditLog newId tenantId "REGISTER" "USER" newId
      (JObj [("email", JStr (n_email data));
             ("accountType", JStr (account_name (n_accountType data)))]) in
  let db' := (register bcrypt_hash newId data tenantId db).1 in
  match (register bcrypt_hash newId data tenantId db).2 with
  | Throw _ => db' = db
  | Ok _ =>
      users db' = <[newId := created]> (users db)
      ∧ tenants db' = tenants db ∧ files db' = files db
      ∧ (auditLogs db' = auditLogs db ∨ auditLogs db' = auditLogs db ++ [entry])
  end.
Proof.
  intros created entry db'. subst db'.
  pose proof (register_run bcrypt_hash newId data tenantId db) as Hrun.
  destruct (register bcrypt_hash newId data tenantId db) as [db' r].
  cbn [fst snd] in *. destruct r as [resp|e]; [|congruence].
  injection Hrun as ->. destruct (auditFault db); cbn; auto.
Qed.


Lemma register_accepted (bcrypt_hash : string → string) (newId : string)
    (data : NewUser) (tenantId : string) (db db' : Store) (resp : Response) :
  register bcrypt_hash newId data tenantId db = (db', Ok resp) →
  email_in_use db (n_email data) = false
  ∧ (∃ T, tenants db !! tenantId = Some T ∧ t_isActive T = true
          ∧ limit_reached (max_accounts T (n_accountType data))
                          (count_users db tenantId (n_accountType data)) = false)
  ∧ users db' = <[newId := mkUser newId (n_email data) (Some (n_name data))
                              (bcrypt_hash (n_password data)) (n_accountType data)
                              true tenantId None]> (users db)
  ∧ tenants db' = tenants db.
Proof.
  intros Hrun.
  pose proof (register_result bcrypt_hash newId data tenantId db) as Hres.
  pose proof (register_run bcrypt_hash newId data tenantId db) as Hstore.
  rewrite Hrun in Hres, Hstore. cbn [fst snd] in Hres, Hstore.
  assert (Husers : users db' = <[newId := mkUser newId (n_email data) (Some (n_name data))
                                   (bcrypt_hash (n_password data)) (n_accountType data)
                                   true tenantId None]> (users db)).
  { injection Hstore as ->. by destruct (auditFault db). }
  assert (Htenants : tenants db' = tenants db).
  { injection Hstore as ->. by destruct (auditFault db). }
  destruct (email_in_use db (n_email data)); [done|].
  destruct (tenants db !! tenantId) as [T|]; [|done].
  destruct (t_isActive T) eqn:HTa; [|done]. cbn [negb] in Hres.
  destruct (limit_reached _ _) eqn:Hlim; [done|].
  split; [done|]. split; [by exists T|]. done.
Qed.



Lemma login_user_after_insert (db db' : Store) (newId : string) (u : User) :
  users db !! newId = None →
  email_in_use db (u_email u) = false →
  users db' = <[newId := u]> (users db) →
  u_isActive u = true →
  login_user db' (u_email u) = Some u.
Proof.
  intros Hfresh Hfree Husers Hactive. unfold login_user. rewrite Husers.
  apply bool_decide_eq_false_1 in Hfree.
  destruct (list_find _ _) as [[i [k U]]|] eqn:Hfind.
  - apply list_find_Some in Hfind as (Hlook & [He _] & _). cbn [snd] in He.
    apply list_elem_of_lookup_2, elem_of_map_to_list, lookup_insert_Some in Hlook.
    destruct Hlook as [[_ ->]|[_ Hold]]; [done|].
    exfalso. apply Hfree. intros Hempty.
    assert (Hin : (k, U) ∈ filter (λ kv : string * User, u_email kv.2 = u_email u)
                                  (map_to_list (users db))).
    { apply list_elem_of_filter. split; [done|]. by apply elem_of_map_to_list. }
    rewrite Hempty in Hin. by apply elem_of_nil in Hin.
  - exfalso. apply list_find_None in Hfind.
    assert (Hin : (newId, u) ∈ map_to_list (<[newId := u]> (users db))).
    { apply elem_of_map_to_list, lookup_insert_eq. }
    rewrite Forall_forall in Hfind. apply (Hfind _ Hin). done.
Qed.

(** X24. A user accepted by [/register] can log in at once with the same
    email and password (the tenant being unexpired and the hash function
    accepting what it produced): [/login] answers with tokens for the new
    user, whose access token carries the tier chosen at registration. *)
Theorem registered_user_can_log_in
    (bcrypt_hash : string → string) (bcrypt_compare : string → string → bool)
    (env : Env) (now : Z) (ip : option string)
    (newId : string) (data : NewUser) (tenantId : string)
    (db db1 : Store) (T : Tenant) (resp : Response) :
  (∀ password, bcrypt_compare password (bcrypt_hash password) = true) →
  users db !! newId = None →
  tenants db !! tenantId = Some T → tenant_expired T now = false →
  register bcrypt_hash newId data tenantId db = (db1, Ok resp) →
  let created :=
    mkUser newId (n_email data) (Some (n_name data)) (bcrypt_hash (n_password data))
           (n_accountType data) true tenantId None in
  ∃ db2,
    login bcrypt_compare env now ip (n_email data) (n_password data) db1
    = (db2, Ok (login_response created T (sign_access env created now)
                               (sign_refresh env created now)))
    ∧ ∀ req, bearer_token req = Some (sign_access env created now) →
             authenticateToken env db2 now req = Next (with_user (req_user created) req).
Proof.
  intros Hbcrypt Hfresh HT Hexp Hrun created.
  destruct (register_accepted _ _ _ _ _ _ _ Hrun)
    as (Hfree & (T' & HT' & HTa & _) & Husers & Htenants).
  assert (T' = T) as -> by congruence.
  assert (Hfind : login_user db1 (n_email data) = Some created).
  { by apply (login_user_after_insert db db1 newId created). }
  destruct (login_succeeds bcrypt_compare env now ip db1 (n_email data)
              (n_password data) created T) as (db2 & Hlogin & Husers2 & Htenants2).
  - exact Hfind.
  - rewrite Husers. apply lookup_insert_eq.
  - by rewrite Htenants.
  - exact HTa.
  - exact Hexp.
  - apply Hbcrypt.
  - exists db2. split; [exact Hlogin|]. intros req Hb.
    apply (access_token_admitted env db2 now now created (set_lastLogin now created) T req);
      rewrite ?Htenants2, ?Htenants; try done; [lia|].
    rewrite Husers2. apply lookup_insert_eq.
Qed.

Lemma registered_user_can_log_in_witness :
  let db1 := (register Scenario.toy_hash "u3" Scenario.carol "t1" Fixture.db0).1 in
  let carol := mkUser "u3" "carol@acme.test" (Some "Carol")
                      (Scenario.toy_hash "secret1") SIMPLE true "t1" None in
  ∃ db2,
    login Scenario.toy_compare Fixture.env0 7000 None "carol@acme.test" "secret1" db1
    = (db2, Ok (login_response carol Fixture.acme (sign_access Fixture.env0 carol 7000)
                               (sign_refresh Fixture.env0 carol 7000))).
Proof.
  intros db1 carol.
  destruct (registered_user_can_log_in Scenario.toy_hash Scenario.toy_compare
              Fixture.env0 7000 None "u3" Scenario.carol "t1" Fixture.db0 db1
              Fixture.acme (user_created carol)) as (db2 & Hlogin & _).
  - intros password. unfold Scenario.toy_compare. by rewrite bool_decide_eq_true_2.
  - reflexivity.
  - reflexivity.
  - reflexivity.
  - vm_compute. reflexivity.
  - by exists db2.
Defined.

(** ** Deactivating a user from the administrative console *)

Lemma admin_patch_user_boolean (id : string) (b : bool) (db : Store) (U : User) :
  users db !! id = Some U →
  (admin_patch_user id (SetTo b) db).1
  = set_users (insert id (set_user_active b U)) db.
Proof.
  intros HU. unfold admin_patch_user, user_update, mbind, Handler_bind.
  rewrite HU. by destruct (user_tenant _ _).
Qed.

(** X25. Once [PATCH /api/admin/users/:id] has set [isActive] to false,
    every request bearing a token of that user is refused by
    [authenticateToken] with 401 "Usuário não encontrado ou inativo",
    however valid the token, and the user's refresh token is refused with
    401; other users' rows and all tenants are untouched, and a second
    PATCH with [isActive] true makes the row active again. *)
Theorem deactivated_user_is_locked_out
    (env : Env) (db : Store) (now : Z) (id : string) (U : User) :
  users db !! id = Some U →
  let db' := (admin_patch_user id (SetTo false) db).1 in
  (∀ req tok claims,
      bearer_token req = Some tok →
      jwt_verify tok (access_secret env) now = Ok claims →
      c_userId claims = Some id →
      authenticateToken env db' now req
      = NextErr (AppError "Usuário não encontrado ou inativo" 401))
  ∧ (∀ tok claims,
      jwt_verify tok (refresh_secret env) now = Ok claims →
      c_type claims = Some "refresh" → c_userId claims = Some id →
      respond env (refresh env now (Some tok)) db'
      = (db', app_error_response "Refresh token inválido" 401))
  ∧ (∀ k, k ≠ id → users db' !! k = users db !! k)
  ∧ tenants db' = tenants db
  ∧ users (admin_patch_user id (SetTo true) db').1 !! id
    = Some (set_user_active true U).
Proof.
  intros HU db'. subst db'. rewrite (admin_patch_user_boolean id false db U HU).
  assert (Hrow : users (set_users (insert id (set_user_active false U)) db) !! id
                 = Some (set_user_active false U)).
  { cbn [users set_users]. apply lookup_insert_eq. }
  split; [|split; [|split; [|split]]].
  - intros req tok claims Hb Hv Hid. apply app_error_forwarded.
    rewrite (authenticate_body_identified env _ now req tok claims
               (set_user_active false U) Hb Hv); [done|].
    rewrite Hid. cbn [user_findUnique]. by rewrite Hrow.
  - intros tok claims Hv Htype Hid.
    apply (refresh_inactive_principal env _ now tok claims (set_user_active false U));
      try done.
    rewrite Hid. cbn [user_findUnique]. by rewrite Hrow.
  - intros k Hk. cbn [users set_users]. by apply lookup_insert_ne.
  - done.
  - rewrite (admin_patch_user_boolean id true _ _ Hrow). cbn [users set_users].
    by rewrite lookup_insert_eq.
Qed.

(** The console deactivates Alice one hour into her session. *)
Lemma deactivated_user_is_locked_out_witness :
  let db' := (admin_patch_user "u1" (SetTo false) Fixture.db0).1 in
  authenticateToken Fixture.env0 db' 3600000
    (Fixture.bearer (sign_access Fixture.env0 Fixture.alice 0))
  = NextErr (AppError "Usuário não encontrado ou inativo" 401).
Proof.
  intros db'.
  destruct (deactivated_user_is_locked_out Fixture.env0 Fixture.db0 3600000 "u1"
              Fixture.alice) as (Hlocked & _).
  - reflexivity.
  - apply (Hlocked _ (sign_access Fixture.env0 Fixture.alice 0)
                   (mkClaims (Some "u1") (Some "t1") (Some "SIMPLE") None)); reflexivity.
Defined.

(** X26. [PATCH /api/admin/users/:id] hands [req.body.isActive] to the
    database client unchecked.  A value the client rejects is answered
    400 whether or not the id has a row, and an id with no row is answered
    404 "Registro não encontrado", in both cases without touching the
    store.  When the body has no [isActive], the row's active flag stays
    as stored, every other row is untouched, and the answer reports the
    stored flag. *)
Theorem admin_patch_user_edges (env : Env) (id : string) (db : Store) :
  (∀ message,
     (admin_patch_user id (Rejected message) db).1 = db
     ∧ status (respond env (admin_patch_user id (Rejected message)) db).2 = 400
     ∧ body_field "message" (respond env (admin_patch_user id (Rejected message)) db).2
       = Some (JStr "Erro de validação nos dados enviados"))
  ∧ (users db !! id = None →
     ∀ isActive, (∀ message, isActive ≠ Rejected message) →
       respond env (admin_patch_user id isActive) db
       = (db, res_status_json 404
                (JObj [("status", JStr "error");
                       ("message", JStr "Registro não encontrado")])))
  ∧ (∀ U, users db !! id = Some U →
          let db' := (admin_patch_user id Keep db).1 in
          (u_isActive <$> users db' !! id) = Some (u_isActive U)
          ∧ (∀ k, k ≠ id → users db' !! k = users db !! k)
          ∧ tenants db' = tenants db
          ∧ (is_Some (tenants db !! u_tenantId U) →
             body_field "user" (respond env (admin_patch_user id Keep) db).2
             = Some (JObj [("id", JStr (u_id U));
                           ("email", JStr (u_email U));
                           ("name", jnullable (JStr <$> u_name U));
                           ("isActive", JBool (u_isActive U))]))).
Proof.
  split; [|split].
  - intros message. unfold respond, admin_patch_user, throw. cbn.
    unfold errorHandler, prisma_validation_error.
    rewrite bool_decide_eq_true_2 by done. done.
  - intros Hnone isActive Hinput.
    unfold respond, admin_patch_user, user_update, mbind, Handler_bind.
    destruct isActive as [|b|message]; [| |by destruct (Hinput message)];
      by rewrite Hnone.
  - intros U HU db'. subst db'.
    unfold respond, admin_patch_user, user_update, mbind, Handler_bind, user_tenant,
      mret, Handler_ret.
    rewrite HU. cbn [users tenants set_users].
    destruct (tenants db !! u_tenantId U) as [T|] eqn:HT; cbn [fst snd users tenants set_users].
    + split; [by rewrite lookup_insert_eq|]. split; [|split; [done|done]].
      intros k Hk. by apply lookup_insert_ne.
    + split; [by rewrite lookup_insert_eq|]. split; [|split; [done|]].
      * intros k Hk. by apply lookup_insert_ne.
      * by intros [? ?].
Qed.

(** ** The audit log only grows *)

Lemma createAuditLog_log (userId tenantId action resourceType resourceId : string)
    (details : option Json) (db : Store) :
  auditLogs (createAuditLog userId tenantId action resourceType resourceId details db).1
  = match auditFault db with
    | Some _ => auditLogs db
    | None => auditLogs db
              ++ [mkAuditLog userId tenantId action resourceType resourceId
                             (default (JObj []) details)]
    end.
Proof. unfold createAuditLog, auditLog_create. by destruct (auditFault db). Qed.

(** X27. No modelled route removes or rewrites an audit record: after
    [/login], [/register], [/refresh], the administrative user creation
    and update, and the three upload routes, the log found before is a
    prefix of the log found after, and at most one record was added. *)
Theorem audit_log_append_only
    (bcrypt_hash : string → string) (bcrypt_compare : string → string → bool)
    (order_skip_take : JsNum → JsNum → list File → Result (list File))
    (env : Env) (now : Z) (db : Store) :
  let grows (h : Handler Response) :=
    auditLogs db `prefix_of` auditLogs (h db).1
    ∧ (length (auditLogs (h db).1) ≤ S (length (auditLogs db)))%nat in
  (∀ ip email password, grows (login bcrypt_compare env now ip email password))
  ∧ (∀ newId data tenantId, grows (register bcrypt_hash newId data tenantId))
  ∧ (∀ token, grows (refresh env now token))
  ∧ (∀ newId tenantId data, grows (admin_create_user bcrypt_hash newId tenantId data))
  ∧ (∀ id isActive, grows (admin_patch_user id isActive))
  ∧ (∀ newId req file, grows (upload_single newId now req file))
  ∧ (∀ req id, grows (get_file req id))
  ∧ (∀ req q, grows (list_files order_skip_take req q)).
Proof.
  intros grows. subst grows. cbn beta.
  assert (Hsame : ∀ l : list AuditLog, l `prefix_of` l ∧ (length l ≤ S (length l))%nat).
  { intros l. split; [done|lia]. }
  assert (Hone : ∀ (l : list AuditLog) x,
            l `prefix_of` l ++ [x] ∧ (length (l ++ [x]) ≤ S (length l))%nat).
  { intros l x. split; [by apply prefix_app_r|]. rewrite length_app. simpl. lia. }
  repeat split_and.
  - intros ip email password.
    unfold login, mbind, Handler_bind, reads, when_throw, user_tenant.
    destruct (login_user db email) as [U|]; [|apply Hsame]. simpl.
    destruct (tenants db !! u_tenantId U) as [T|]; [|apply Hsame].
    destruct (t_isActive T); [|apply Hsame]. simpl.
    destruct (tenant_expired T now); [apply Hsame|]. simpl.
    destruct (bcrypt_compare _ _); [|apply Hsame]. simpl.
    unfold user_update. destruct (users db !! u_id U) as [row|]; [|apply Hsame].
    unfold createAuditLog, auditLog_create. cbn [auditFault set_users].
    destruct (auditFault db); simpl; [apply Hsame|apply Hone].
  - intros newId data tid.
    rewrite (register_run bcrypt_hash newId data tid db).
    destruct (register bcrypt_hash newId data tid db).2 as [resp|e];
      cbn [fst]; [|apply Hsame].
    destruct (auditFault db); cbn; [apply Hsame|apply Hone].
  - intros token. apply Hsame.
  - intros newId tid data.
    unfold admin_create_user, mbind, Handler_bind, reads, when_throw, user_create.
    destruct (tenants db !! tid) as [T|]; [|apply Hsame]. simpl.
    destruct (limit_reached _ _); [apply Hsame|]. simpl.
    destruct (email_in_use db (n_email data)); apply Hsame.
  - intros id isActive.
    unfold admin_patch_user, user_update, throw, mbind, Handler_bind, mret, Handler_ret.
    destruct isActive; [| |apply Hsame];
      (destruct (users db !! id) as [row|]; [|apply Hsame]);
      destruct (user_tenant _ _); apply Hsame.
  - intros newId req file.
    unfold upload_single, the_user, mbind, Handler_bind, lift, writes, auditLog_create.
    destruct file as [file|]; [|apply Hsame].
    destruct (user req) as [u|]; [|apply Hsame]. simpl.
    destruct (auditFault db); simpl; [apply Hsame|apply Hone].
  - intros req id. destruct (user req) as [u|] eqn:Hu.
    + rewrite (get_file_total req u id db Hu). apply Hsame.
    + unfold get_file, the_user, mbind, Handler_bind, lift. rewrite Hu. apply Hsame.
  - intros req q. unfold list_files, the_user, mbind, Handler_bind, lift, reads.
    repeat case_match; apply Hsame.
Qed.

(** ** Uploads *)

Lemma find_app_fresh {A} (p : A → bool) (l : list A) (x : A) :
  (∀ y, y ∈ l → p y = false) →
  List.find p (l ++ [x]) = if p x then Some x else None.
Proof.
  induction l as [|y l IH]; intros Hfresh; simpl; [done|].
  rewrite (Hfresh y) by left. apply IH. intros z Hz. apply Hfresh. by right.
Qed.

Lemma upload_single_store (newId : string) (now : Z) (req : Request) (u : TokenPayload)
    (file : Upload) (db : Store) :
  user req = Some u →
  let fileRecord :=
    mkFile newId (up_filename file) (up_originalname file) (up_mimetype file)
           (up_size file) (up_path file) (tenantId u) (userId u) now in
  files (upload_single newId now req (Some file) db).1 = files db ++ [fileRecord]
  ∧ disk (upload_single newId now req (Some file) db).1 = disk db
  ∧ users (upload_single newId now req (Some file) db).1 = users db.
Proof.
  intros Hu fileRecord.
  unfold upload_single, the_user, mbind, Handler_bind, lift, writes, auditLog_create.
  rewrite Hu. simpl. by destruct (auditFault db).
Qed.

Lemma allowedTypes_ok (mimetype : string) :
  mimetype ∈ allowedTypes → header_value_ok mimetype = true.
Proof.
  intros Hin. apply list_elem_of_In in Hin. simpl in Hin.
  repeat (destruct Hin as [<-|Hin]; [vm_compute; reflexivity|]). done.
Qed.

(** X28. A file stored by [/upload/single] under a fresh id, with a
    mimetype [fileFilter] lets through and a path that is on disk, is
    served by [/file/:id] to its uploader with the uploaded mimetype and
    original name, whether or not the audit write succeeded, provided the
    original name holds only characters Node accepts in a header value
    (tab, U+0020..U+007E, U+0080..U+00FF).  With any other character in
    the name the uploader is answered 500 and no file is sent.  A user of
    any other tenant asking for the same id is answered 404. *)
Theorem uploaded_file_round_trip
    (newId : string) (now : Z) (req : Request) (u : TokenPayload)
    (file : Upload) (db : Store) :
  user req = Some u →
  (∀ f, f ∈ files db → f_id f ≠ newId) →
  up_path file ∈ disk db →
  up_mimetype file ∈ allowedTypes →
  let db' := (upload_single newId now req (Some file) db).1 in
  (header_value_ok (up_originalname file) = true →
   get_file req newId db'
   = (db', Ok (mkResponse 200
                 [("Content-Type", up_mimetype file);
                  ("Content-Disposition", content_disposition (up_originalname file))]
                 (PFile (up_path file)))))
  ∧ (header_value_ok (up_originalname file) = false →
     ∀ env, respond env (get_file req newId) db'
            = (db', errorHandler env (invalid_header_char "Content-Disposition"))
            ∧ status (errorHandler env (invalid_header_char "Content-Disposition")) = 500)
  ∧ (∀ req2 u2, user req2 = Some u2 → tenantId u2 ≠ tenantId u →
                get_file req2 newId db' = (db', Ok not_found_in_db)).
Proof.
  intros Hu Hfresh Hdisk Hmime db'.
  destruct (upload_single_store newId now req u file db Hu) as (Hfiles & Hdisk' & _).
  fold db' in Hfiles, Hdisk'.
  assert (Hfind : ∀ t, file_findFirst db' newId t
                       = if bool_decide (tenantId u = t)
                         then Some (mkFile newId (up_filename file) (up_originalname file)
                                      (up_mimetype file) (up_size file) (up_path file)
                                      (tenantId u) (userId u) now)
                         else None).
  { intros t. unfold file_findFirst. rewrite Hfiles, find_app_fresh.
    - cbn [f_id f_tenantId]. rewrite bool_decide_eq_true_2 by done. done.
    - intros y Hy. rewrite (bool_decide_eq_false_2 _ (Hfresh y Hy)). done. }
  assert (Hget : get_file req newId db'
                 = (db', contentType ← setHeader "Content-Type" (up_mimetype file);
                         contentDisposition ←
                           setHeader "Content-Disposition"
                                     (content_disposition (up_originalname file));
                         Ok (mkResponse 200 [contentType; contentDisposition]
                                        (PFile (up_path file))))).
  { rewrite (get_file_total req u newId db' Hu), Hfind.
    rewrite bool_decide_eq_true_2 by done. cbn [f_path f_mimetype f_originalName].
    rewrite Hdisk'. by rewrite (bool_decide_eq_true_2 _ Hdisk). }
  split; [|split].
  - intros Hname. rewrite Hget. unfold setHeader.
    by rewrite (allowedTypes_ok _ Hmime), content_disposition_ok, Hname.
  - intros Hname env. split.
    + unfold respond. rewrite Hget. unfold setHeader.
      by rewrite (allowedTypes_ok _ Hmime), content_disposition_ok, Hname.
    + unfold invalid_header_char, errorHandler.
      by repeat (rewrite bool_decide_eq_false_2 by done).
  - intros req2 u2 Hu2 Hother.
    rewrite (get_file_total req2 u2 newId db' Hu2), Hfind.
    rewrite bool_decide_eq_false_2; [done|]. by intros Heq; apply Hother.
Qed.

(** Alice uploads a memo; Bob (Globex) asks for it by id.  Had the memo
    been named with a euro sign, Alice herself would be answered 500. *)
Lemma uploaded_file_round_trip_witness :
  let alice := Fixture.as_user (req_user Fixture.alice) in
  let file := mkUpload "file-3.pdf" "memo.pdf" "application/pdf" 300
                       "/srv/uploads/t1/file-1.pdf" in
  let euro := mkUpload "file-3.pdf" "contrato €.pdf" "application/pdf" 300
                       "/srv/uploads/t1/file-1.pdf" in
  let db' := (upload_single "f3" 30 alice (Some file) Fixture.db0).1 in
  let db2 := (upload_single "f3" 30 alice (Some euro) Fixture.db0).1 in
  (get_file alice "f3" db').2
  = Ok (mkResponse 200
          [("Content-Type", "application/pdf");
           ("Content-Disposition", content_disposition "memo.pdf")]
          (PFile "/srv/uploads/t1/file-1.pdf"))
  ∧ get_file (Fixture.as_user (req_user Fixture.bob)) "f3" db' = (db', Ok not_found_in_db)
  ∧ status (respond Fixture.env0 (get_file alice "f3") db2).2 = 500.
Proof.
  intros alice file euro db' db2.
  assert (Hfresh : ∀ f, f ∈ files Fixture.db0 → f_id f ≠ "f3").
  { intros f Hf. apply list_elem_of_In in Hf. simpl in Hf.
    destruct Hf as [<-|[<-|[]]]; discriminate. }
  assert (Hdisk : "/srv/uploads/t1/file-1.pdf" ∈ disk Fixture.db0).
  { apply (bool_decide_unpack _). vm_compute. exact I. }
  assert (Hmime : "application/pdf" ∈ allowedTypes).
  { apply (bool_decide_unpack _). vm_compute. exact I. }
  destruct (uploaded_file_round_trip "f3" 30 alice (req_user Fixture.alice) file
              Fixture.db0 eq_refl Hfresh Hdisk Hmime) as (Hget & _ & Hother).
  destruct (uploaded_file_round_trip "f3" 30 alice (req_user Fixture.alice) euro
              Fixture.db0 eq_refl Hfresh Hdisk Hmime) as (_ & Hbad & _).
  split; [|split].
  - fold db' in Hget. rewrite Hget; reflexivity.
  - apply (Hother _ (req_user Fixture.bob)); [reflexivity|discriminate].
  - fold db2 in Hbad. destruct (Hbad eq_refl Fixture.env0) as [-> Hstatus].
    exact Hstatus.
Defined.

Lemma storage_used_app (db db' : Store) (rows : list File) (tenantId : string) :
  files db' = files db ++ rows →
  storage_used db' tenantId
  = storage_used db tenantId
    + fold_left (λ total file, total + f_size file)
                (filter (λ f, f_tenantId f = tenantId) rows) 0.
Proof.
  intros Hfiles. unfold storage_used. rewrite Hfiles, filter_app, fold_left_app.
  generalize (fold_left (λ total file, total + f_size file)
                (filter (λ f, f_tenantId f = tenantId) (files db)) 0).
  induction (filter (λ f, f_tenantId f = tenantId) rows) as [|f fs IH]; intros acc;
    simpl; [lia|].
  rewrite IH, (IH (0 + f_size f)). lia.
Qed.

(** X29. [/upload/single] consults no storage limit: with a working
    audit table it answers 200 even when [checkAccountLimits('storage')]
    would refuse the same request, and afterwards the uploader's tenant
    uses exactly the file's size more storage while every other tenant's
    usage is unchanged. *)
Theorem upload_adds_to_storage_unchecked
    (env : Env) (newId : string) (now : Z) (req : Request) (u : TokenPayload)
    (file : Upload) (db : Store) :
  user req = Some u →
  let db' := (upload_single newId now req (Some file) db).1 in
  storage_used db' (tenantId u) = storage_used db (tenantId u) + up_size file
  ∧ (∀ t, t ≠ tenantId u → storage_used db' t = storage_used db t)
  ∧ (auditFault db = None →
     ∀ r, checkAccountLimits RStorage db req = Respond r →
          status (respond env (upload_single newId now req (Some file)) db).2 = 200).
Proof.
  intros Hu db'.
  destruct (upload_single_store newId now req u file db Hu) as (Hfiles & _).
  fold db' in Hfiles. split; [|split].
  - rewrite (storage_used_app db db' _ _ Hfiles), filter_cons. cbn [f_tenantId].
    rewrite decide_True by done. simpl. lia.
  - intros t Ht. rewrite (storage_used_app db db' _ _ Hfiles), filter_cons.
    cbn [f_tenantId]. rewrite decide_False by done. simpl. lia.
  - intros Haudit r _.
    unfold respond, upload_single, the_user, mbind, Handler_bind, lift, writes,
      auditLog_create.
    rewrite Hu. simpl. by rewrite Haudit.
Qed.

(** Alice is already over her 100 MB and uploads 300 bytes more. *)
Lemma upload_adds_to_storage_unchecked_witness :
  let req := Fixture.as_user (req_user Fixture.alice) in
  let file := mkUpload "file-3.pdf" "memo.pdf" "application/pdf" 300
                       "/srv/uploads/t1/file-3.pdf" in
  (∃ r, checkAccountLimits RStorage Scenario.db_storage_full req = Respond r
        ∧ status r = 403)
  ∧ status (respond Fixture.env0 (upload_single "f3" 30 req (Some file))
                    Scenario.db_storage_full).2 = 200
  ∧ storage_used (upload_single "f3" 30 req (Some file) Scenario.db_storage_full).1 "t1"
    = 115343360 + 300.
Proof.
  intros req file.
  destruct (upload_adds_to_storage_unchecked Fixture.env0 "f3" 30 req
              (req_user Fixture.alice) file Scenario.db_storage_full)
    as (Hgrow & _ & Hok).
  - reflexivity.
  - split; [|split].
    + eexists. split; vm_compute; reflexivity.
    + eapply Hok; [reflexivity|]. vm_compute. reflexivity.
    + exact Hgrow.
Defined.

(** ** Listing files *)


